(** * klein.storage._sql: transactional session and account storage

    A shallow embedding of [src/klein/storage/_sql.py].  The Python code is
    written against Twisted Deferreds and a SQLAlchemy connection; the
    embedding follows one logical thread of control, so every [yield] of an
    [inlineCallbacks] generator becomes a bind of a state-and-exception monad
    over a [World] that holds everything the module mutates or consults:
    the database, the datastore's deque of free connections, the
    [Transaction] objects' [_stopped] attributes, the clock and the entropy
    sources.  The calls made on the database driver are recorded in a trace,
    which is how statements such as "the transaction is rolled back" are
    observed. *)

From Stdlib Require Import String Ascii List ZArith Bool Lia.
From stdpp Require Import gmap strings.

Local Open Scope string_scope.
Local Open Scope list_scope.

(** ** Exceptions and outcomes *)

Inductive Exn : Type :=
  | TransactionEnded (reason : string)     (* klein.interfaces *)
  | NoSuchSession                          (* klein.interfaces *)
  | IntegrityError (detail : string)       (* sqlalchemy.exc *)
  | OperationalError (detail : string)     (* sqlalchemy.exc *)
  | UnboundLocalError (name : string)
  | StopIteration
  | KeyError (key : string)
  | ValueError (detail : string)
  | AttributeError (name : string)
  | RecursionError
  | FirstError (subFailure : Exn) (index : nat)   (* twisted.internet.defer *)
  | DriverError (detail : string)          (* connect/begin/commit/rollback *)
  | ApplicationError (detail : string).    (* raised by a caller's code *)

Inductive result (A : Type) : Type :=
  | Ok (a : A)
  | Raise (e : Exn).
Arguments Ok {A} a.
Arguments Raise {A} e.

(** ** Rows and tables

    The four tables are the ones the module declares with [Table(...)]; a
    table that was never created is [None], and statements against it fail
    with [OperationalError], as they do in the database. *)

Record SessionRow := {
  s_sessionID : string;
  s_confidential : bool }.

Record AccountRow := {
  a_accountID : string;
  a_username : string;
  a_email : string;
  a_passwordBlob : string }.

Record AccountSessionRow := {
  as_accountID : string;
  as_sessionID : string }.

Record SessionIPRow := {
  ip_sessionID : string;
  ip_ip_address : string;
  ip_address_family : string;
  ip_last_used : Z }.

Record Database := {
  session_table : option (list SessionRow);
  account_table : option (list AccountRow);
  account_session_table : option (list AccountSessionRow);
  session_ip_table : option (list SessionIPRow);
  (* whether the engine enforces the declared ForeignKey constraints *)
  foreign_keys : bool }.

Inductive TableName := T_session | T_account | T_account_session | T_session_ip.

(** The statements the module builds, one constructor per SQLAlchemy
    expression in the source. *)
Inductive Statement : Type :=
  | CreateTable (t : TableName)
  | InsertSession (sessionID : string) (confidential : bool)
  | SelectSession (sessionID : string) (confidential : bool)
  | InsertAccount (accountID username email passwordBlob : string)
  | SelectAccountByUsername (username : string)
  | UpdateAccountPassword (accountID passwordBlob : string)
  | InsertAccountSession (accountID sessionID : string)
  | DeleteAccountSession (sessionID : string)
  | SelectAuthenticatedAccounts (sessionID : string)
  | InsertSessionIP (sessionID ip_address address_family : string)
                    (last_used : Z)
  | UpdateSessionIP (sessionID ip_address address_family : string)
                    (last_used : Z).

Inductive ResultProxy : Type :=
  | NoRows
  | SessionRows (rows : list SessionRow)
  | AccountRows (rows : list AccountRow)
  | JoinedRows (rows : list (AccountSessionRow * AccountRow)).

Definition set_session_table (t : option (list SessionRow)) (d : Database) :=
  {| session_table := t; account_table := account_table d;
     account_session_table := account_session_table d;
     session_ip_table := session_ip_table d; foreign_keys := foreign_keys d |}.

Definition set_account_table (t : option (list AccountRow)) (d : Database) :=
  {| session_table := session_table d; account_table := t;
     account_session_table := account_session_table d;
     session_ip_table := session_ip_table d; foreign_keys := foreign_keys d |}.

Definition set_account_session_table (t : option (list AccountSessionRow))
    (d : Database) :=
  {| session_table := session_table d; account_table := account_table d;
     account_session_table := t;
     session_ip_table := session_ip_table d; foreign_keys := foreign_keys d |}.

Definition set_session_ip_table (t : option (list SessionIPRow))
    (d : Database) :=
  {| session_table := session_table d; account_table := account_table d;
     account_session_table := account_session_table d;
     session_ip_table := t; foreign_keys := foreign_keys d |}.

Definition no_such_table (name : string) : Exn :=
  OperationalError ("no such table: " +:+ name).

Definition already_exists (name : string) : Exn :=
  OperationalError ("table " +:+ name +:+ " already exists").

Definition same_ip_key (sid ip fam : string) (r : SessionIPRow) : bool :=
  String.eqb (ip_sessionID r) sid && String.eqb (ip_ip_address r) ip
  && String.eqb (ip_address_family r) fam.

Definition has_session (d : Database) (sid : string) : bool :=
  match session_table d with
  | Some rows => existsb (fun r => String.eqb (s_sessionID r) sid) rows
  | None => false
  end.

Definition has_account (d : Database) (aid : string) : bool :=
  match account_table d with
  | Some rows => existsb (fun r => String.eqb (a_accountID r) aid) rows
  | None => false
  end.

(** A foreign key is violated when the engine enforces it and the parent row
    is missing. *)
Definition fk_violation (d : Database) (parent_present : bool) : bool :=
  foreign_keys d && negb parent_present.

(** What the database does with one statement: the new contents and the
    fetched rows, or the exception the driver raises.  The constraints are
    the ones of the [Table] declarations: primary keys, [unique=True],
    [UniqueConstraint] and [ForeignKey]. *)
Definition run_statement (st : Statement) (d : Database)
    : Exn + (ResultProxy * Database) :=
  match st with
  | CreateTable T_session =>
      match session_table d with
      | Some _ => inl (already_exists "session")
      | None => inr (NoRows, set_session_table (Some []) d)
      end
  | CreateTable T_account =>
      match account_table d with
      | Some _ => inl (already_exists "account")
      | None => inr (NoRows, set_account_table (Some []) d)
      end
  | CreateTable T_account_session =>
      match account_session_table d with
      | Some _ => inl (already_exists "account_session")
      | None => inr (NoRows, set_account_session_table (Some []) d)
      end
  | CreateTable T_session_ip =>
      match session_ip_table d with
      | Some _ => inl (already_exists "session_ip")
      | None => inr (NoRows, set_session_ip_table (Some []) d)
      end
  | InsertSession sid conf =>
      match session_table d with
      | None => inl (no_such_table "session")
      | Some rows =>
          if existsb (fun r => String.eqb (s_sessionID r) sid) rows
          then inl (IntegrityError "session.sessionID")
          else inr (NoRows,
                    set_session_table
                      (Some (rows ++ [{| s_sessionID := sid;
                                         s_confidential := conf |}])) d)
      end
  | SelectSession sid conf =>
      match session_table d with
      | None => inl (no_such_table "session")
      | Some rows =>
          inr (SessionRows
                 (List.filter
                    (fun r => String.eqb (s_sessionID r) sid
                              && Bool.eqb (s_confidential r) conf) rows), d)
      end
  | InsertAccount aid uname email blob =>
      match account_table d with
      | None => inl (no_such_table "account")
      | Some rows =>
          if existsb (fun r => String.eqb (a_accountID r) aid) rows
          then inl (IntegrityError "account.accountID")
          else if existsb (fun r => String.eqb (a_username r) uname) rows
          then inl (IntegrityError "account.username")
          else inr (NoRows,
                    set_account_table
                      (Some (rows ++ [{| a_accountID := aid;
                                         a_username := uname;
                                         a_email := email;
                                         a_passwordBlob := blob |}])) d)
      end
  | SelectAccountByUsername uname =>
      match account_table d with
      | None => inl (no_such_table "account")
      | Some rows =>
          inr (AccountRows
                 (List.filter (fun r => String.eqb (a_username r) uname) rows),
               d)
      end
  | UpdateAccountPassword aid blob =>
      match account_table d with
      | None => inl (no_such_table "account")
      | Some rows =>
          inr (NoRows,
               set_account_table
                 (Some (map (fun r =>
                               if String.eqb (a_accountID r) aid
                               then {| a_accountID := a_accountID r;
                                       a_username := a_username r;
                                       a_email := a_email r;
                                       a_passwordBlob := blob |}
                               else r) rows)) d)
      end
  | InsertAccountSession aid sid =>
      match account_session_table d with
      | None => inl (no_such_table "account_session")
      | Some rows =>
          if existsb (fun r => String.eqb (as_accountID r) aid
                               && String.eqb (as_sessionID r) sid) rows
          then inl (IntegrityError "account_session.accountID, sessionID")
          else if fk_violation d (has_account d aid && has_session d sid)
          then inl (IntegrityError "FOREIGN KEY constraint failed")
          else inr (NoRows,
                    set_account_session_table
                      (Some (rows ++ [{| as_accountID := aid;
                                         as_sessionID := sid |}])) d)
      end
  | DeleteAccountSession sid =>
      match account_session_table d with
      | None => inl (no_such_table "account_session")
      | Some rows =>
          inr (NoRows,
               set_account_session_table
                 (Some (List.filter
                          (fun r => negb (String.eqb (as_sessionID r) sid))
                          rows)) d)
      end
  | SelectAuthenticatedAccounts sid =>
      match account_session_table d, account_table d with
      | None, _ => inl (no_such_table "account_session")
      | _, None => inl (no_such_table "account")
      | Some asts, Some accs =>
          inr (JoinedRows
                 (flat_map
                    (fun b =>
                       if String.eqb (as_sessionID b) sid
                       then map (fun a => (b, a))
                              (List.filter
                                 (fun a => String.eqb (as_accountID b)
                                             (a_accountID a)) accs)
                       else []) asts), d)
      end
  | InsertSessionIP sid ip fam used =>
      match session_ip_table d with
      | None => inl (no_such_table "session_ip")
      | Some rows =>
          if existsb (same_ip_key sid ip fam) rows
          then inl (IntegrityError
                      "session_ip.sessionID, ip_address, address_family")
          else if fk_violation d (has_session d sid)
          then inl (IntegrityError "FOREIGN KEY constraint failed")
          else inr (NoRows,
                    set_session_ip_table
                      (Some (rows ++ [{| ip_sessionID := sid;
                                         ip_ip_address := ip;
                                         ip_address_family := fam;
                                         ip_last_used := used |}])) d)
      end
  | UpdateSessionIP sid ip fam used =>
      match session_ip_table d with
      | None => inl (no_such_table "session_ip")
      | Some rows =>
          inr (NoRows,
               set_session_ip_table
                 (Some (map (fun r =>
                               if same_ip_key sid ip fam r
                               then {| ip_sessionID := ip_sessionID r;
                                       ip_ip_address := ip_ip_address r;
                                       ip_address_family :=
                                         ip_address_family r;
                                       ip_last_used := used |}
                               else r) rows)) d)
      end
  end.

(** ** The world the module runs in *)

Definition Connection := nat.

(** How the driver's calls turn out.  A fault is the exception the call
    raises; [None] is a call that completes. *)
Record Driver := {
  connect_fault : option Exn;
  begin_fault : option Exn;
  commit_fault : option Exn;
  rollback_fault : option Exn }.

(** The calls made on the driver, in the order they are made. *)
Inductive Event : Type :=
  | EvConnect (c : Connection)
  | EvBegin (c : Connection)
  | EvExecute (c : Connection) (st : Statement)
  | EvCommit (c : Connection)
  | EvRollback (c : Connection).

Record World := {
  db : Database;
  driver : Driver;
  (* AlchimiaDataStore._free_connections, a deque: the head of the list is
     its left end *)
  free_connections : list Connection;
  next_connection : Connection;
  (* the _stopped attribute of every Transaction object, by object identity;
     an object without an entry still has the default, False *)
  stopped : gmap nat string;
  next_transaction : nat;
  trace : list Event;
  (* datetime.utcnow() *)
  clock : Z;
  (* os.urandom and uuid.uuid4 read from these at the given positions *)
  urandom_source : nat -> Byte.byte;
  urandom_position : nat;
  uuid4_source : nat -> string;
  uuid4_position : nat }.

Definition set_db (d : Database) (w : World) : World :=
  {| db := d; driver := driver w; free_connections := free_connections w;
     next_connection := next_connection w; stopped := stopped w;
     next_transaction := next_transaction w; trace := trace w;
     clock := clock w; urandom_source := urandom_source w;
     urandom_position := urandom_position w;
     uuid4_source := uuid4_source w; uuid4_position := uuid4_position w |}.

Definition set_free_connections (l : list Connection) (w : World) : World :=
  {| db := db w; driver := driver w; free_connections := l;
     next_connection := next_connection w; stopped := stopped w;
     next_transaction := next_transaction w; trace := trace w;
     clock := clock w; urandom_source := urandom_source w;
     urandom_position := urandom_position w;
     uuid4_source := uuid4_source w; uuid4_position := uuid4_position w |}.

Definition set_next_connection (c : Connection) (w : World) : World :=
  {| db := db w; driver := driver w; free_connections := free_connections w;
     next_connection := c; stopped := stopped w;
     next_transaction := next_transaction w; trace := trace w;
     clock := clock w; urandom_source := urandom_source w;
     urandom_position := urandom_position w;
     uuid4_source := uuid4_source w; uuid4_position := uuid4_position w |}.

Definition set_stopped (m : gmap nat string) (w : World) : World :=
  {| db := db w; driver := driver w; free_connections := free_connections w;
     next_connection := next_connection w; stopped := m;
     next_transaction := next_transaction w; trace := trace w;
     clock := clock w; urandom_source := urandom_source w;
     urandom_position := urandom_position w;
     uuid4_source := uuid4_source w; uuid4_position := uuid4_position w |}.

Definition set_next_transaction (n : nat) (w : World) : World :=
  {| db := db w; driver := driver w; free_connections := free_connections w;
     next_connection := next_connection w; stopped := stopped w;
     next_transaction := n; trace := trace w;
     clock := clock w; urandom_source := urandom_source w;
     urandom_position := urandom_position w;
     uuid4_source := uuid4_source w; uuid4_position := uuid4_position w |}.

Definition set_trace (t : list Event) (w : World) : World :=
  {| db := db w; driver := driver w; free_connections := free_connections w;
     next_connection := next_connection w; stopped := stopped w;
     next_transaction := next_transaction w; trace := t;
     clock := clock w; urandom_source := urandom_source w;
     urandom_position := urandom_position w;
     uuid4_source := uuid4_source w; uuid4_position := uuid4_position w |}.

Definition set_clock (t : Z) (w : World) : World :=
  {| db := db w; driver := driver w; free_connections := free_connections w;
     next_connection := next_connection w; stopped := stopped w;
     next_transaction := next_transaction w; trace := trace w;
     clock := t; urandom_source := urandom_source w;
     urandom_position := urandom_position w;
     uuid4_source := uuid4_source w; uuid4_position := uuid4_position w |}.

Definition set_urandom_position (n : nat) (w : World) : World :=
  {| db := db w; driver := driver w; free_connections := free_connections w;
     next_connection := next_connection w; stopped := stopped w;
     next_transaction := next_transaction w; trace := trace w;
     clock := clock w; urandom_source := urandom_source w;
     urandom_position := n;
     uuid4_source := uuid4_source w; uuid4_position := uuid4_position w |}.

Definition set_uuid4_position (n : nat) (w : World) : World :=
  {| db := db w; driver := driver w; free_connections := free_connections w;
     next_connection := next_connection w; stopped := stopped w;
     next_transaction := next_transaction w; trace := trace w;
     clock := clock w; urandom_source := urandom_source w;
     urandom_position := urandom_position w;
     uuid4_source := uuid4_source w; uuid4_position := n |}.

(** ** The monad: state over [World], exceptions as [Raise] *)

Definition M (A : Type) : Type := World -> result A * World.

Definition ret {A} (a : A) : M A := fun w => (Ok a, w).

Definition raise {A} (e : Exn) : M A := fun w => (Raise e, w).

Definition bind {A B} (m : M A) (k : A -> M B) : M B :=
  fun w =>
    match m w with
    | (Ok a, w') => k a w'
    | (Raise e, w') => (Raise e, w')
    end.

Notation "x <- m ;; k" := (bind m (fun x => k))
  (at level 100, m at next level, right associativity).
Notation "m ;;; k" := (bind m (fun _ => k))
  (at level 100, right associativity).

(** The outcome of a computation as a value: a Deferred that has fired with
    a result or with a Failure ([maybeDeferred], or a [try] around a
    [yield]). *)
Definition attempt {A} (m : M A) : M (result A) :=
  fun w => let (r, w') := m w in (Ok r, w').

(** [try: m finally: cleanup]; an exception of the cleanup replaces the
    pending outcome. *)
Definition try_finally {A} (m : M A) (cleanup : M unit) : M A :=
  fun w =>
    let (r, w') := m w in
    match cleanup w' with
    | (Ok _, w'') => (r, w'')
    | (Raise e, w'') => (Raise e, w'')
    end.

Definition emit (e : Event) : M unit :=
  fun w => (Ok tt, set_trace (trace w ++ [e]) w).

Definition get_db : M Database := fun w => (Ok (db w), w).

Definition put_db (d : Database) : M unit := fun w => (Ok tt, set_db d w).

(** ** The driver: engine, connections and SQLAlchemy transactions *)

Module Engine.

  (** [engine.connect()]: a connection nobody holds yet. *)
Definition connect : M Connection :=
    fun w =>
      let c := next_connection w in
      let w1 := set_trace (trace w ++ [EvConnect c]) w in
      match connect_fault (driver w) with
      | Some e => (Raise e, w1)
      | None => (Ok c, set_next_connection (S c) w1)
      end.

End Engine.

(** The object [cxn.begin()] returns; rolling back restores the contents the
    database had when the transaction began.  The embedding keeps one
    database for all connections, so this is what the connection's rollback
    leaves when nothing was written through another connection in the
    meantime. *)
Record SqlaTransaction := {
  sqla_connection : Connection;
  sqla_snapshot : Database }.

Module Conn.

Definition begin (cxn : Connection) : M SqlaTransaction :=
    fun w =>
      let w1 := set_trace (trace w ++ [EvBegin cxn]) w in
      match begin_fault (driver w) with
      | Some e => (Raise e, w1)
      | None => (Ok {| sqla_connection := cxn; sqla_snapshot := db w |}, w1)
      end.

Definition execute (cxn : Connection) (statement : Statement)
      : M ResultProxy :=
    fun w =>
      let w1 := set_trace (trace w ++ [EvExecute cxn statement]) w in
      match run_statement statement (db w) with
      | inl e => (Raise e, w1)
      | inr (rows, d) => (Ok rows, set_db d w1)
      end.

  (** A commit that fails leaves nothing committed. *)
Definition commit (t : SqlaTransaction) : M unit :=
    fun w =>
      let w1 := set_trace (trace w ++ [EvCommit (sqla_connection t)]) w in
      match commit_fault (driver w) with
      | Some e => (Raise e, set_db (sqla_snapshot t) w1)
      | None => (Ok tt, w1)
      end.

Definition rollback (t : SqlaTransaction) : M unit :=
    fun w =>
      let w1 := set_db (sqla_snapshot t)
                  (set_trace (trace w ++ [EvRollback (sqla_connection t)]) w) in
      match rollback_fault (driver w) with
      | Some e => (Raise e, w1)
      | None => (Ok tt, w1)
      end.

End Conn.

(** ** class Transaction *)

(** A [Transaction] object: its identity and its [_connection]; the mutable
    [_stopped] attribute lives in the world. *)
Record Transaction := {
  txn_id : nat;
  _connection : Connection }.

Module Txn.

  (** [Transaction(cxn)]: a new object with [_stopped=False]. *)
Definition new (cxn : Connection) : M Transaction :=
    fun w =>
      let n := next_transaction w in
      (Ok {| txn_id := n; _connection := cxn |},
       set_next_transaction (S n) (set_stopped (delete n (stopped w)) w)).

  (** [txn._stopped = reason] *)
Definition set__stopped (self : Transaction) (reason : string) : M unit :=
    fun w => (Ok tt, set_stopped (<[txn_id self := reason]> (stopped w)) w).

  (** Python's truth value of [_stopped]: [False] and the empty string are
      false, any other string is true. *)
Definition truthy (v : option string) : bool :=
    match v with
    | None => false
    | Some s => negb (String.eqb s "")
    end.

Definition execute (self : Transaction) (statement : Statement)
      : M ResultProxy :=
    fun w =>
      let _stopped := stopped w !! txn_id self in
      if truthy _stopped
      then (Raise (TransactionEnded (default "" _stopped)), w)
      else Conn.execute (_connection self) statement w.

End Txn.

(** ** class AlchimiaDataStore: the connection pool and [sql] *)

Module Pool.

  (** [deque.popleft()] *)
Definition popleft {A} (q : list A) : option (A * list A) :=
    match q with
    | [] => None
    | x :: rest => Some (x, rest)
    end.

  (** [deque.append(x)] *)
Definition append {A} (q : list A) (x : A) : list A := q ++ [x].

End Pool.

Module AlchimiaDataStore.

  (** [self._free_connections.popleft() if self._free_connections
       else (yield self._engine.connect())] *)
Definition acquire : M Connection :=
    fun w =>
      match Pool.popleft (free_connections w) with
      | Some (cxn, rest) => (Ok cxn, set_free_connections rest w)
      | None => Engine.connect w
      end.

  (** [self._free_connections.append(cxn)] *)
Definition release (cxn : Connection) : M unit :=
    fun w =>
      (Ok tt, set_free_connections (Pool.append (free_connections w) cxn) w).

  (** [sqla_txn = yield cxn.begin()] and [txn = Transaction(cxn)] *)
Definition begin_transaction (cxn : Connection)
      : M (SqlaTransaction * Transaction) :=
    sqla_txn <- Conn.begin cxn ;;
    txn <- Txn.new cxn ;;
    ret (sqla_txn, txn).

  (** The body of the outer [try] of [sql], once [cxn] is bound. *)
Definition in_transaction {A} (cxn : Connection)
      (callable : Transaction -> M A) : M A :=
    begun <- begin_transaction cxn ;;
    let sqla_txn := fst begun in
    let txn := snd begun in
    outcome <- attempt (callable txn) ;;
    match outcome with
    | Raise failure =>
        Txn.set__stopped txn "rolled back" ;;;
        Conn.rollback sqla_txn ;;;
        raise failure
    | Ok result =>
        Txn.set__stopped txn "committed" ;;;
        Conn.commit sqla_txn ;;;
        ret result
    end.

  (** [sql(callable)].  When [connect()] raises, [cxn] was never assigned and
      the [finally] clause itself raises [UnboundLocalError]. *)
Definition sql {A} (callable : Transaction -> M A) : M A :=
    fun w =>
      match acquire w with
      | (Raise _, w1) => (Raise (UnboundLocalError "cxn"), w1)
      | (Ok cxn, w1) =>
          try_finally (in_transaction cxn callable) (release cxn) w1
      end.

End AlchimiaDataStore.

Import AlchimiaDataStore.

(** ** Entropy and the clock *)

(** [os.urandom(n)] *)
Definition urandom (n : nat) : M (list Byte.byte) :=
  fun w =>
    let p := urandom_position w in
    (Ok (map (fun i => urandom_source w (p + i)%nat) (seq 0 n)),
     set_urandom_position (p + n)%nat w).

(** [unicode(uuid4())] *)
Definition uuid4 : M string :=
  fun w =>
    let p := uuid4_position w in
    (Ok (uuid4_source w p), set_uuid4_position (S p) w).

(** [datetime.utcnow()] *)
Definition utcnow : M Z := fun w => (Ok (clock w), w).

Definition hexdigit (n : nat) : ascii :=
  nth n (list_ascii_of_string "0123456789abcdef") "0"%char.

(** [binascii.hexlify(data).decode('ascii')] *)
Fixpoint hexlify (data : list Byte.byte) : string :=
  match data with
  | [] => ""
  | b :: rest =>
      String (hexdigit (Byte.to_nat b / 16)%nat)
        (String (hexdigit (Byte.to_nat b mod 16)%nat) (hexlify rest))
  end.

(** ** class SQLSession, class AlchimiaSessionStore *)

Record SQLSession := {
  identifier : string;
  isConfidential : bool;
  authenticatedBy : string }.

Definition session_rows (r : ResultProxy) : list SessionRow :=
  match r with SessionRows rows => rows | _ => [] end.

Definition account_rows (r : ResultProxy) : list AccountRow :=
  match r with AccountRows rows => rows | _ => [] end.

Definition joined_rows (r : ResultProxy)
    : list (AccountSessionRow * AccountRow) :=
  match r with JoinedRows rows => rows | _ => [] end.

(** [try: yield m except OperationalError as oe: print(...)] *)
Definition except_OperationalError {A} (m : M A) : M unit :=
  outcome <- attempt m ;;
  match outcome with
  | Ok _ => ret tt
  | Raise (OperationalError _) => ret tt
  | Raise e => raise e
  end.

Module AlchimiaSessionStore.

Definition initialize_schema (transaction : Transaction) : M unit :=
    except_OperationalError (Txn.execute transaction (CreateTable T_session)).

Definition newSession (isConfidential : bool) (authenticatedBy : string)
      : M SQLSession :=
    sql (fun txn =>
      random <- urandom 32 ;;
      let identifier := hexlify random in
      Txn.execute txn (InsertSession identifier isConfidential) ;;;
      ret {| identifier := identifier;
             isConfidential := isConfidential;
             authenticatedBy := authenticatedBy |}).

Definition loadSession (identifier : string) (isConfidential : bool)
      (authenticatedBy : string) : M SQLSession :=
    sql (fun engine =>
      result <- Txn.execute engine (SelectSession identifier isConfidential) ;;
      let results := session_rows result in
      match results with
      | [] => raise NoSuchSession
      | row :: _ =>
          let fetched_identifier := s_sessionID row in
          ret {| identifier := fetched_identifier;
                 isConfidential := isConfidential;
                 authenticatedBy := authenticatedBy |}
      end).

End AlchimiaSessionStore.

(** ** The password primitives of klein/storage/security.py *)

(** What the module imports from [.security]: the hashing scheme itself is
    passlib's.  [verifies stored password] tells whether the password
    matches the stored text, [upgrade stored password] is the replacement
    text when the stored one is in an outdated format. *)
Record Security := {
  computeKeyText : string -> string;
  verifies : string -> string -> bool;
  upgrade : string -> string -> option string }.

(** Modelled from the spec: [checkAndReset] of klein/storage/security.py,
    which is not among the sources.  The spec's
    [verifyAndMaybeRehash(storedHash, plaintext, onRehash) -> bool]: "if
    verification succeeds but the stored hash is in a weaker/legacy format,
    the primitive triggers a rehash-and-store callback"; a failed
    verification answers false and never calls back. *)
Definition checkAndReset (sec : Security) (storedPasswordText : string)
    (providedPasswordText : string) (resetter : string -> M unit) : M bool :=
  if verifies sec storedPasswordText providedPasswordText then
    match upgrade sec storedPasswordText providedPasswordText with
    | Some newHash => resetter newHash ;;; ret true
    | None => ret true
    end
  else ret false.

(** ** class SQLAccount, class AccountSessionBinding *)

Record SQLAccount := {
  accountID : string;
  username : string;
  email : string }.

Module SQLAccount.

Definition add_session (self : SQLAccount) (session : SQLSession)
      : M ResultProxy :=
    sql (fun engine =>
      Txn.execute engine
        (InsertAccountSession (accountID self) (identifier session))).

End SQLAccount.

(** The binding's [_plugin] and [_datastore] only lead to the tables and to
    [sql]; what distinguishes one binding from another is its [_session]. *)
Record AccountSessionBinding := {
  _session : SQLSession }.

Module AccountSessionBinding.

Definition _account (accountID username email : string) : SQLAccount :=
    {| accountID := accountID; username := username; email := email |}.

Definition create_account (sec : Security) (self : AccountSessionBinding)
      (username email password : string) : M (option SQLAccount) :=
    let computedHash := computeKeyText sec password in
    accountID <- sql (fun engine =>
      newAccountID <- uuid4 ;;
      let insert := InsertAccount newAccountID username email computedHash in
      outcome <- attempt (Txn.execute engine insert) ;;
      match outcome with
      | Raise (IntegrityError _) => ret None
      | Raise e => raise e
      | Ok _ => ret (Some newAccountID)
      end) ;;
    match accountID with
    | None => ret None
    | Some accountID => ret (Some (_account accountID username email))
    end.

Definition log_in (sec : Security) (self : AccountSessionBinding)
      (username password : string) : M (option SQLAccount) :=
    accountsInfo <- sql (fun engine =>
      result <- Txn.execute engine (SelectAccountByUsername username) ;;
      ret (account_rows result)) ;;
    match accountsInfo with
    | [] => ret None           (* no account, bye *)
    | [row] =>
        let stored_password_text := a_passwordBlob row in
        let accountID := a_accountID row in
        let reset_password (newPWText : string) : M unit :=
          sql (fun engine =>
            Txn.execute engine (UpdateAccountPassword accountID newPWText)) ;;;
          ret tt in
        valid <- checkAndReset sec stored_password_text password
                   reset_password ;;
        if valid : bool then
          let account := _account accountID (a_username row) (a_email row) in
          SQLAccount.add_session account (_session self) ;;;
          ret (Some account)
        else ret None
    | _ => raise (ValueError "too many values to unpack")
    end.

Definition authenticated_accounts (self : AccountSessionBinding)
      : M (list SQLAccount) :=
    sql (fun engine =>
      result <- Txn.execute engine
                  (SelectAuthenticatedAccounts (identifier (_session self))) ;;
      ret (map (fun it => _account (as_accountID (fst it))
                            (a_username (snd it)) (a_email (snd it)))
             (joined_rows result))).

Definition log_out (self : AccountSessionBinding) : M ResultProxy :=
    sql (fun engine =>
      Txn.execute engine (DeleteAccountSession (identifier (_session self)))).

End AccountSessionBinding.

(** ** [upsert] and class IPTrackingProcurer *)

(** The [to_query] and [to_change] dictionaries of [upsert]'s one call,
    on the session_ip table. *)
Record SessionIPKey := {
  k_sessionID : string;
  k_ip_address : string;
  k_address_family : string }.

(** Try inserting, if inserting fails, then update. *)
Definition upsert (engine : Transaction) (to_query : SessionIPKey)
    (last_used : Z) : M ResultProxy :=
  outcome <- attempt (Txn.execute engine
                        (InsertSessionIP (k_sessionID to_query)
                           (k_ip_address to_query)
                           (k_address_family to_query) last_used)) ;;
  match outcome with
  | Ok result => ret result
  | Raise (IntegrityError _) =>
      Txn.execute engine
        (UpdateSessionIP (k_sessionID to_query) (k_ip_address to_query)
           (k_address_family to_query) last_used)
  | Raise e => raise e
  end.

(** The part of the request the procurer reads: [request.client.host]. *)
Record Request := {
  client : option (option (list Byte.byte)) }.

(** [bytes.decode("ascii")]; [None] is UnicodeDecodeError. *)
Definition decode_ascii (data : list Byte.byte) : option string :=
  if forallb (fun b => (Byte.to_nat b <? 128)%nat) data
  then Some (string_of_list_ascii (map ascii_of_byte data))
  else None.

(** [(request.client.host or b"").decode("ascii")], with the bare [except]
    that turns every failure into the empty string. *)
Definition client_ip (request : Request) : string :=
  match client request with
  | None => ""                           (* request.client is None *)
  | Some host => default "" (decode_ascii (default [] host))
  end.

(** [u":" in ip_address] *)
Definition has_colon (ip_address : string) : bool :=
  existsb (Ascii.eqb ":"%char) (list_ascii_of_string ip_address).

Definition Procurer : Type := Request -> bool -> bool -> M (option SQLSession).

Module IPTrackingProcurer.

Definition initialize_schema (transaction : Transaction) : M unit :=
    except_OperationalError
      (Txn.execute transaction (CreateTable T_session_ip)).

  (** The [touch] transaction of [procureSession]. *)
Definition touch (sessionID ip_address : string) : M ResultProxy :=
    sql (fun engine =>
      let address_family :=
        if has_colon ip_address then "AF_INET6" else "AF_INET" in
      last_used <- utcnow ;;
      upsert engine
        {| k_sessionID := sessionID; k_ip_address := ip_address;
           k_address_family := address_family |} last_used).

Definition procureSession (_procurer : Procurer) (request : Request)
      (forceInsecure alwaysCreate : bool) : M (option SQLSession) :=
    session <- _procurer request forceInsecure alwaysCreate ;;
    match session with
    | None => ret None
    | Some session =>
        let sessionID := identifier session in
        let ip_address := client_ip request in
        touch sessionID ip_address ;;;
        ret (Some session)
    end.

End IPTrackingProcurer.

(** ** Components, interfaces and the registry *)

Definition Interface := string.

Definition ISessionStore : Interface := "ISessionStore".
Definition ISessionProcurer : Interface := "ISessionProcurer".
Definition ISQLSchemaComponent : Interface := "ISQLSchemaComponent".
Definition ISQLAuthorizer : Interface := "ISQLAuthorizer".
Definition ISimpleAccount : Interface := "ISimpleAccount".
Definition ISimpleAccountBinding : Interface := "ISimpleAccountBinding".

(** What an authorizer hands out for a session. *)
Inductive Authorization : Type :=
  | NoAuthorization                                  (* None *)
  | BindingAuthorization (b : AccountSessionBinding)
  | AccountAuthorization (a : SQLAccount)
  | OtherAuthorization (tag : string).

(** The components the module defines: its four classes and the class
    [authorizerFor] builds around a decorated function. *)
Inductive Component : Type :=
  | AlchimiaSessionStore
  | AccountBindingStorePlugin
  | IPTrackingProcurer (_procurer : Procurer)
  | AccountLoginAuthorizer
  | AnAuthorizer (an_authzn : Interface)
      (schema : Transaction -> M unit)
      (decorated : Transaction -> SQLSession -> M Authorization).

(** The [@implementer(...)] declarations. *)
Definition implements (c : Component) : list Interface :=
  match c with
  | AlchimiaSessionStore => [ISessionStore; ISQLSchemaComponent]
  | AccountBindingStorePlugin => [ISQLAuthorizer; ISQLSchemaComponent]
  | IPTrackingProcurer _ => [ISessionProcurer; ISQLSchemaComponent]
  | AccountLoginAuthorizer => [ISQLAuthorizer]
  | AnAuthorizer _ _ _ => [ISQLAuthorizer; ISQLSchemaComponent]
  end.

Definition providedBy (interface : Interface) (c : Component) : bool :=
  existsb (String.eqb interface) (implements c).

(** The [authzn_for] class attribute of the authorizers; the other classes
    have none and it is never read on them. *)
Definition authzn_for (c : Component) : Interface :=
  match c with
  | AccountBindingStorePlugin => ISimpleAccountBinding
  | AccountLoginAuthorizer => ISimpleAccount
  | AnAuthorizer an_authzn _ _ => an_authzn
  | _ => ""
  end.

Record DataStore := {
  _components : list Component }.

(** Get all the components providing the given interface, in the order of
    registration. *)
Definition componentsProviding (self : DataStore) (interface : Interface)
    : list Component :=
  List.filter (providedBy interface) (_components self).

(** [next(generator)] *)
Definition next {A} (generator : list A) : M A :=
  match generator with
  | [] => raise StopIteration
  | x :: _ => ret x
  end.

(** A component creator is called with the datastore under construction; the
    list it sees holds the components created before it, because
    [components.extend] appends to the very list the datastore holds. *)
Definition Creator : Type := DataStore -> result Component.

Fixpoint extend (components : list Component) (creators : list Creator)
    : result (list Component) :=
  match creators with
  | [] => Ok components
  | creator :: rest =>
      match creator {| _components := components |} with
      | Ok c => extend (components ++ [c]) rest
      | Raise e => Raise e
      end
  end.

(** [AlchimiaDataStore.open]: a datastore with an empty deque of free
    connections and the components of the creators, in order. *)
Definition open (db_url : string) (component_creators : list Creator)
    : M DataStore :=
  fun w =>
    let w1 := set_free_connections [] w in
    match extend [] component_creators with
    | Ok components => (Ok {| _components := components |}, w1)
    | Raise e => (Raise e, w1)
    end.

Module AccountBindingStorePlugin.

Fixpoint create_tables (transaction : Transaction)
      (tables : list TableName) : M unit :=
    match tables with
    | [] => ret tt
    | table :: rest =>
        Txn.execute transaction (CreateTable table) ;;;
        create_tables transaction rest
    end.

Definition initialize_schema (transaction : Transaction) : M unit :=
    create_tables transaction [T_account; T_account_session].

Definition authzn_for_session (transaction : Transaction)
      (session : SQLSession) : M Authorization :=
    ret (BindingAuthorization {| _session := session |}).

End AccountBindingStorePlugin.

(** [component.initialize_schema(transaction)], by the component's class. *)
Definition initialize_schema (c : Component) (transaction : Transaction)
    : M unit :=
  match c with
  | AlchimiaSessionStore => AlchimiaSessionStore.initialize_schema transaction
  | AccountBindingStorePlugin =>
      AccountBindingStorePlugin.initialize_schema transaction
  | IPTrackingProcurer _ => IPTrackingProcurer.initialize_schema transaction
  | AccountLoginAuthorizer => raise (AttributeError "initialize_schema")
  | AnAuthorizer _ schema _ => schema transaction
  end.

Fixpoint populate (transaction : Transaction) (components : list Component)
    : M unit :=
  match components with
  | [] => ret tt
  | component :: rest =>
      except_OperationalError (initialize_schema component transaction) ;;;
      populate transaction rest
  end.

(** Populate the schema. *)
Definition _populate_schema (self : DataStore) : M unit :=
  sql (fun transaction =>
    populate transaction (componentsProviding self ISQLSchemaComponent)).

(** [openSessionStore]; [procurer_from_store] stands for the
    [SessionProcurer] class of the parent package. *)
Definition session_store_creators
    (component_creators : list Creator)
    (procurer_from_store : Component -> Procurer) : list Creator :=
  [ (fun _ => Ok AlchimiaSessionStore);
    (fun _ => Ok AccountBindingStorePlugin);
    (fun store =>
       match componentsProviding store ISessionStore with
       | [] => Raise StopIteration
       | session_store :: _ =>
           Ok (IPTrackingProcurer (procurer_from_store session_store))
       end);
    (fun _ => Ok AccountLoginAuthorizer) ] ++ component_creators.

Definition openSessionStore (db_uri : string)
    (component_creators : list Creator)
    (procurer_from_store : Component -> Procurer) : M Component :=
  datastore <- open db_uri
                 (session_store_creators component_creators
                    procurer_from_store) ;;
  next (componentsProviding datastore ISessionProcurer).

(** ** SQLSession.authorize *)

(** The dictionary [authorize] builds: under each interface the value its
    authorizer's Deferred fired with, or the failed Deferred itself. *)
Abbreviation Authorizations := (gmap Interface (result Authorization)).

(** [gatherResults(ds)]: the results, or [FirstError] around the first
    failure and its index. *)
Fixpoint first_failure {A} (index : nat) (ds : list (result A))
    : option (Exn * nat) :=
  match ds with
  | [] => None
  | Ok _ :: rest => first_failure (S index) rest
  | Raise e :: _ => Some (e, index)
  end.

Definition gatherResults {A} (ds : list (result A)) : M unit :=
  match first_failure 0 ds with
  | Some (e, index) => raise (FirstError e index)
  | None => ret tt
  end.

(** The result a Deferred is left with once the callback that stores its
    value in the dictionary has run: [__setitem__] returns [None]. *)
Definition after_setitem {A} (v : result A) : result unit :=
  match v with
  | Ok _ => Ok tt
  | Raise e => Raise e
  end.

Module SQLSession.

Section Authzn.

    (** [a.authzn_for_session(self._sessionStore, txn, self)] *)
Variable authzn_for_session :
      Component -> Transaction -> SQLSession -> M Authorization.
Variable datastore : DataStore.
Variable self : SQLSession.
Variable interfaces : gset Interface.
Variable txn : Transaction.

    (** The [for a in authorizers] loop, with its two accumulators.  As
        everywhere in the embedding a Deferred has fired when the call that
        makes it returns; the order in which Deferreds still pending would
        fire is not represented. *)
Fixpoint for_authorizers (authorizers : list Component)
        (res : Authorizations) (ds : list (result unit))
        : M (Authorizations * list (result unit)) :=
      match authorizers with
      | [] => ret (res, ds)
      | a :: rest =>
          if bool_decide (authzn_for a ∈ interfaces) then
            v <- attempt (authzn_for_session a txn self) ;;
            for_authorizers rest (<[authzn_for a := v]> res)
              (ds ++ [after_setitem v])
          else for_authorizers rest res ds
      end.

Definition authzn : M Authorizations :=
      let authorizers := componentsProviding datastore ISQLAuthorizer in
      acc <- for_authorizers authorizers ∅ [] ;;
      gatherResults (snd acc) ;;;
      ret (fst acc).

End Authzn.

Definition authorize_with
      (authzn_for_session :
         Component -> Transaction -> SQLSession -> M Authorization)
      (datastore : DataStore) (self : SQLSession)
      (interfaces : list Interface) : M Authorizations :=
    let interfaces : gset Interface := list_to_set interfaces in
    sql (authzn authzn_for_session datastore self interfaces).

End SQLSession.

Module AccountLoginAuthorizer.

Definition authzn_for_session
      (authorize : SQLSession -> list Interface -> M Authorizations)
      (transaction : Transaction) (session : SQLSession) : M Authorization :=
    granted <- authorize session [ISimpleAccountBinding] ;;
    match granted !! ISimpleAccountBinding with
    | None => raise (KeyError ISimpleAccountBinding)
    | Some (Ok (BindingAuthorization binding)) =>
        accounts <- AccountSessionBinding.authenticated_accounts binding ;;
        ret (match accounts with
             | account :: _ => AccountAuthorization account
             | [] => NoAuthorization
             end)
    | Some _ => raise (AttributeError "authenticated_accounts")
    end.

End AccountLoginAuthorizer.

(** [a.authzn_for_session(...)], by the authorizer's class.  The method of
    [AccountLoginAuthorizer] calls back into [authorize]. *)
Definition authzn_for_session
    (authorize : SQLSession -> list Interface -> M Authorizations)
    (a : Component) (transaction : Transaction) (session : SQLSession)
    : M Authorization :=
  match a with
  | AccountBindingStorePlugin =>
      AccountBindingStorePlugin.authzn_for_session transaction session
  | AccountLoginAuthorizer =>
      AccountLoginAuthorizer.authzn_for_session authorize transaction session
  | AnAuthorizer _ _ decorated => decorated transaction session
  | _ => raise (AttributeError "authzn_for_session")
  end.

(** [session.authorize(interfaces)]; [depth] bounds the nesting of
    [authorize] inside authorizers, as the interpreter's recursion limit
    does. *)
Fixpoint authorize (depth : nat) (datastore : DataStore) (self : SQLSession)
    (interfaces : list Interface) : M Authorizations :=
  match depth with
  | O => raise RecursionError
  | S depth' =>
      SQLSession.authorize_with
        (authzn_for_session (authorize depth' datastore))
        datastore self interfaces
  end.

(** * Vocabulary of the statements *)

(** ** Worlds in normal operation

    The statements about sessions and accounts are about a database that
    answers: every call on the driver completes. *)

Definition healthy (w : World) : Prop :=
  connect_fault (driver w) = None /\ begin_fault (driver w) = None
  /\ commit_fault (driver w) = None /\ rollback_fault (driver w) = None.

(** Two worlds with the same surroundings: driver, clock and entropy. *)
Definition same_surroundings (w w' : World) : Prop :=
  driver w' = driver w /\ clock w' = clock w
  /\ urandom_source w' = urandom_source w
  /\ uuid4_source w' = uuid4_source w.

(** What [sql] makes of the callable's outcome when the driver's commit and
    rollback complete. *)
Definition concluded {A} (cxn : Connection) (snapshot : Database)
    (txn : Transaction) (o : result A * World) : result A * World :=
  match o with
  | (Ok r, w3) =>
      (Ok r,
       set_free_connections (free_connections w3 ++ [cxn])
         (set_trace (trace w3 ++ [EvCommit cxn])
            (set_stopped (<[txn_id txn := "committed"]> (stopped w3)) w3)))
  | (Raise failure, w3) =>
      (Raise failure,
       set_free_connections (free_connections w3 ++ [cxn])
         (set_db snapshot
            (set_trace (trace w3 ++ [EvRollback cxn])
               (set_stopped (<[txn_id txn := "rolled back"]> (stopped w3))
                  w3))))
  end.

(** ** Sessions, accounts and tracked addresses *)

Definition is_hexdigit (c : ascii) : bool :=
  existsb (Ascii.eqb c) (list_ascii_of_string "0123456789abcdef").

(** The identifier the next [newSession] draws from the entropy source. *)
Definition drawn_identifier (w : World) : string :=
  hexlify (map (fun i => urandom_source w (urandom_position w + i)%nat)
             (seq 0 32)).

(** The account identifier the next [create_account] draws. *)
Definition drawn_uuid (w : World) : string :=
  uuid4_source w (uuid4_position w).

Definition username_taken (uname : string) (rows : list AccountRow) : bool :=
  existsb (fun r => String.eqb (a_username r) uname) rows.

Definition accountID_taken (aid : string) (rows : list AccountRow) : bool :=
  existsb (fun r => String.eqb (a_accountID r) aid) rows.

Definition with_username (uname : string) (rows : list AccountRow)
    : list AccountRow :=
  List.filter (fun r => String.eqb (a_username r) uname) rows.

(** [address_family] as [touch] classifies it. *)
Definition family_of (ip_address : string) : string :=
  if has_colon ip_address then "AF_INET6" else "AF_INET".

Definition touched (used : Z) (r : SessionIPRow) : SessionIPRow :=
  {| ip_sessionID := ip_sessionID r; ip_ip_address := ip_ip_address r;
     ip_address_family := ip_address_family r; ip_last_used := used |}.

(** The session_ip rows after one [touch] of the key at time [used]. *)
Definition rows_after_touch (d : Database) (sid ip : string) (used : Z)
    (rows : list SessionIPRow) : list SessionIPRow :=
  if existsb (same_ip_key sid ip (family_of ip)) rows
     || fk_violation d (has_session d sid)
  then map (fun r => if same_ip_key sid ip (family_of ip) r
                     then touched used r else r) rows
  else rows ++ [{| ip_sessionID := sid; ip_ip_address := ip;
                   ip_address_family := family_of ip;
                   ip_last_used := used |}].

(** ** [authorize], as the specification words it

    "Queries the Authorizer registry for providers of any requested
    capability, invokes each matched Authorizer's [authzn_for_session]
    inside one shared transaction, and assembles a mapping
    capability -> result." *)

Definition matched (datastore : DataStore) (interfaces : gset Interface)
    : list Component :=
  List.filter (fun a => bool_decide (authzn_for a ∈ interfaces))
    (componentsProviding datastore ISQLAuthorizer).

Fixpoint invoke_all
    (authzn_for_session :
       Component -> Transaction -> SQLSession -> M Authorization)
    (txn : Transaction) (self : SQLSession) (authorizers : list Component)
    : M (list (Interface * result Authorization)) :=
  match authorizers with
  | [] => ret []
  | a :: rest =>
      v <- attempt (authzn_for_session a txn self) ;;
      vs <- invoke_all authzn_for_session txn self rest ;;
      ret ((authzn_for a, v) :: vs)
  end.

Definition assemble (granted : list (Interface * result Authorization))
    (res : Authorizations) : Authorizations :=
  fold_left (fun m p => <[fst p := snd p]> m) granted res.

Definition authorize_in_one_transaction
    (authzn_for_session :
       Component -> Transaction -> SQLSession -> M Authorization)
    (datastore : DataStore) (self : SQLSession)
    (interfaces : list Interface) : M Authorizations :=
  sql (fun txn =>
    granted <- invoke_all authzn_for_session txn self
                 (matched datastore (list_to_set interfaces)) ;;
    gatherResults (map (fun p => after_setitem (snd p)) granted) ;;;
    ret (assemble granted ∅)).

Definition has_provider (datastore : DataStore) (i : Interface) : bool :=
  existsb (fun a => String.eqb (authzn_for a) i)
    (componentsProviding datastore ISQLAuthorizer).

(** The four components [openSessionStore] always creates. *)
Definition default_components (procurer_from_store : Component -> Procurer)
    : list Component :=
  [ AlchimiaSessionStore; AccountBindingStorePlugin;
    IPTrackingProcurer (procurer_from_store AlchimiaSessionStore);
    AccountLoginAuthorizer ].

(** * Sample worlds *)

Definition healthy_driver : Driver :=
  {| connect_fault := None; begin_fault := None;
     commit_fault := None; rollback_fault := None |}.

Definition rollback_fails : Driver :=
  {| connect_fault := None; begin_fault := None; commit_fault := None;
     rollback_fault := Some (DriverError "rollback failed") |}.

(** A database in which no table has been created yet. *)
Definition empty_db : Database :=
  {| session_table := None; account_table := None;
     account_session_table := None; session_ip_table := None;
     foreign_keys := true |}.

Definition all_tables_empty : Database :=
  {| session_table := Some []; account_table := Some [];
     account_session_table := Some []; session_ip_table := Some [];
     foreign_keys := true |}.

Definition sample_bytes (n : nat) : Byte.byte :=
  default Byte.x00 (Byte.of_nat ((n * 37) mod 256)%nat).

Definition sample_uuid (n : nat) : string :=
  String (ascii_of_nat (97 + n)) "0000000-0000-4000-8000-000000000000".

Definition fresh_world : World :=
  {| db := empty_db; driver := healthy_driver; free_connections := [];
     next_connection := 0%nat; stopped := ∅; next_transaction := 0%nat;
     trace := []; clock := 1000%Z;
     urandom_source := sample_bytes; urandom_position := 0%nat;
     uuid4_source := sample_uuid; uuid4_position := 0%nat |}.

Definition set_driver (d : Driver) (w : World) : World :=
  {| db := db w; driver := d; free_connections := free_connections w;
     next_connection := next_connection w; stopped := stopped w;
     next_transaction := next_transaction w; trace := trace w;
     clock := clock w; urandom_source := urandom_source w;
     urandom_position := urandom_position w;
     uuid4_source := uuid4_source w; uuid4_position := uuid4_position w |}.

Definition two_free_connections : World :=
  set_next_connection 9%nat (set_free_connections [7%nat; 8%nat] fresh_world).

Definition failing_callable : Transaction -> M unit :=
  fun _ => raise (ApplicationError "boom").

Definition idle_callable : Transaction -> M unit := fun _ => ret tt.

(** A database whose four tables exist, with one account, two sessions
    and their bindings. *)
Definition alice : AccountRow :=
  {| a_accountID := "a-1"; a_username := "alice";
     a_email := "alice@example.com"; a_passwordBlob := "hash:secret" |}.

Definition ready_db : Database :=
  {| session_table :=
       Some [ {| s_sessionID := "s-1"; s_confidential := true |};
              {| s_sessionID := "s-2"; s_confidential := true |} ];
     account_table := Some [alice];
     account_session_table :=
       Some [ {| as_accountID := "a-1"; as_sessionID := "s-1" |};
              {| as_accountID := "a-1"; as_sessionID := "s-2" |} ];
     session_ip_table := Some [];
     foreign_keys := true |}.

Definition ready_world : World := set_db ready_db fresh_world.

Definition sample_security : Security :=
  {| computeKeyText := fun password => "hash:" +:+ password;
     verifies := fun stored password =>
                   String.eqb stored ("hash:" +:+ password);
     upgrade := fun _ _ => None |}.

Definition session_1 : SQLSession :=
  {| identifier := "s-1"; isConfidential := true;
     authenticatedBy := "cookie" |}.

Definition binding_1 : AccountSessionBinding := {| _session := session_1 |}.

(** A base procurer that hands out [session_1] for every request. *)
Definition sample_procurer (store : Component) : Procurer :=
  fun _ _ _ => ret (Some session_1).

Definition sample_datastore : DataStore :=
  {| _components := default_components sample_procurer |}.

(** * Vocabulary and samples of the further properties *)


(** The world in which [sql] calls the callable when the driver answers:
    after the acquisition, [cxn.begin()] and [Transaction(cxn)]. *)
Definition after_begin (cxn : Connection) (w : World) : World :=
  set_next_transaction (S (next_transaction w))
    (set_stopped (delete (next_transaction w) (stopped w))
       (set_trace (trace w ++ [EvBegin cxn]) w)).

Definition entered (w : World) : Connection * World :=
  match free_connections w with
  | cxn :: rest => (cxn, after_begin cxn (set_free_connections rest w))
  | [] =>
      let cxn := next_connection w in
      (cxn, after_begin cxn
              (set_next_connection (S cxn)
                 (set_trace (trace w ++ [EvConnect cxn]) w)))
  end.

(** The free connections are distinct and were all handed out by the
    engine. *)
Definition pool_wf (w : World) : Prop :=
  List.NoDup (free_connections w)
  /\ forall c, In c (free_connections w) -> (c < next_connection w)%nat.

(** A callable that opens a transaction of its own and returns both
    handles. *)
Definition nesting_callable (outer : Transaction)
    : M (Transaction * Transaction) :=
  sql (fun inner => ret (outer, inner)).

Definition commit_fails : Driver :=
  {| connect_fault := None; begin_fault := None;
     commit_fault := Some (DriverError "commit failed");
     rollback_fault := None |}.

Definition connect_fails : Driver :=
  {| connect_fault := Some (DriverError "connection refused");
     begin_fault := None; commit_fault := None; rollback_fault := None |}.

(** A callable that leaves the pool, the engine and the driver alone: it may
    run any statement on the handles it has. *)
Definition leaves_the_pool_alone {A} (m : M A) : Prop :=
  forall w,
    driver (snd (m w)) = driver w
    /\ free_connections (snd (m w)) = free_connections w
    /\ next_connection (snd (m w)) = next_connection w.


(** The account rows after [UPDATE account SET passwordBlob = blob WHERE
    accountID = aid]. *)
Definition with_password (aid blob : string) (rows : list AccountRow)
    : list AccountRow :=
  map (fun r => if String.eqb (a_accountID r) aid
                then {| a_accountID := a_accountID r;
                        a_username := a_username r;
                        a_email := a_email r;
                        a_passwordBlob := blob |}
                else r) rows.

Definition bound (aid sid : string) (bindings : list AccountSessionRow)
    : bool :=
  existsb (fun r => String.eqb (as_accountID r) aid
                    && String.eqb (as_sessionID r) sid) bindings.

Definition account_of (row : AccountRow) : SQLAccount :=
  {| accountID := a_accountID row; username := a_username row;
     email := a_email row |}.

(** A world whose session table already holds the identifier that the next
    [newSession] draws. *)
Definition collision_world : World :=
  set_db (set_session_table
            (Some [{| s_sessionID := drawn_identifier fresh_world;
                      s_confidential := false |}]) all_tables_empty)
    fresh_world.

(** A scheme in which every stored text is outdated and is replaced on a
    successful verification. *)
Definition upgrading_security : Security :=
  {| computeKeyText := fun password => "hash:" +:+ password;
     verifies := fun stored password =>
                   String.eqb stored ("hash:" +:+ password);
     upgrade := fun _ password => Some ("v2:" +:+ password) |}.

Definition session_3 : SQLSession :=
  {| identifier := "s-3"; isConfidential := true;
     authenticatedBy := "cookie" |}.

(** A database like [ready_db] with a third session that is bound to no
    account. *)
Definition three_sessions_db : Database :=
  set_session_table
    (Some [ {| s_sessionID := "s-1"; s_confidential := true |};
            {| s_sessionID := "s-2"; s_confidential := true |};
            {| s_sessionID := "s-3"; s_confidential := true |} ]) ready_db.

Definition three_sessions_world : World := set_db three_sessions_db fresh_world.

(** The rows of [account_session JOIN account] for one session. *)
Definition joined (sid : string) (asts : list AccountSessionRow)
    (accs : list AccountRow) : list (AccountSessionRow * AccountRow) :=
  flat_map
    (fun b =>
       if String.eqb (as_sessionID b) sid
       then map (fun a => (b, a))
              (List.filter
                 (fun a => String.eqb (as_accountID b) (a_accountID a)) accs)
       else []) asts.


(** The outcome recorded last under an interface. *)
Fixpoint last_for (i : Interface)
    (outcomes : list (Interface * result Authorization))
    : option (result Authorization) :=
  match outcomes with
  | [] => None
  | (k, v) :: rest =>
      match last_for i rest with
      | Some v' => Some v'
      | None => if String.eqb k i then Some v else None
      end
  end.

(** Two authorizers for one interface, and one that raises. *)
Definition first_provider : Component :=
  AnAuthorizer "IGreeting" (fun _ => ret tt)
    (fun _ _ => ret (OtherAuthorization "first")).

Definition second_provider : Component :=
  AnAuthorizer "IGreeting" (fun _ => ret tt)
    (fun _ _ => ret (OtherAuthorization "second")).

Definition broken_provider : Component :=
  AnAuthorizer "IBroken" (fun _ => ret tt)
    (fun _ _ => raise (ApplicationError "no authorization")).

Definition two_providers : DataStore :=
  {| _components := [first_provider; second_provider] |}.

Definition broken_datastore : DataStore :=
  {| _components := [first_provider; broken_provider; second_provider] |}.


(** The database after [CREATE TABLE t], when the table was missing, and
    unchanged when it was there. *)
Definition created (t : TableName) (d : Database) : Database :=
  match run_statement (CreateTable t) d with
  | inr (_, d') => d'
  | inl _ => d
  end.

(** The database after the [initialize_schema] of the account binding
    store, inside the [try] of [_populate_schema]: the second table is not
    attempted when the first one exists. *)
Definition accounts_created (d : Database) : Database :=
  match account_table d with
  | Some _ => d
  | None => created T_account_session (created T_account d)
  end.

Definition rows_or_empty {A} (t : option (list A)) : option (list A) :=
  match t with
  | Some rows => Some rows
  | None => Some []
  end.

(** A database in which only the account table exists. *)
Definition accounts_only_db : Database :=
  {| session_table := None; account_table := Some [alice];
     account_session_table := None; session_ip_table := None;
     foreign_keys := true |}.

Definition accounts_only_world : World := set_db accounts_only_db fresh_world.

(** A caller's creator of another session procurer, and one that raises. *)
Definition another_procurer : Creator :=
  fun _ => Ok (IPTrackingProcurer (fun _ _ _ => ret None)).

Definition broken_creator : Creator :=
  fun _ => Raise (ValueError "cannot create").


(** A request whose [client.host] is the byte string of the given text, and
    an inner procurer that loads session "s-1". *)
Definition bytes_of_string (s : string) : list Byte.byte :=
  map byte_of_ascii (list_ascii_of_string s).

Definition request_from (host : string) : Request :=
  {| client := Some (Some (bytes_of_string host)) |}.

Definition loading_procurer : Procurer :=
  fun _ _ _ =>
    s <- AlchimiaSessionStore.loadSession "s-1" true "cookie" ;;
    ret (Some s).

(** A database in which the session table exists and session_ip does not. *)
Definition untracked_db : Database :=
  set_session_ip_table None ready_db.

Definition untracked_world : World := set_db untracked_db fresh_world.


(** What [AccountLoginAuthorizer] hands out: the first account joined to the
    session, or [None]. *)
Definition current_account (sid : string) (asts : list AccountSessionRow)
    (accs : list AccountRow) : Authorization :=
  match joined sid asts accs with
  | it :: _ =>
      AccountAuthorization
        {| accountID := as_accountID (fst it);
           username := a_username (snd it);
           email := a_email (snd it) |}
  | [] => NoAuthorization
  end.

(** * Theorems *)


(** * Datastore.sql *)

Section SqlFacts.

Context {A : Type}.
Variable callable : Transaction -> M A.

Lemma acquire_db w cxn w1 :
    acquire w = (Ok cxn, w1) -> db w1 = db w /\ driver w1 = driver w.
  Proof.
    unfold acquire, Engine.connect.
    destruct (Pool.popleft (free_connections w)) as [[c rest]|].
    - intros [= <- <-]. auto.
    - destruct (connect_fault (driver w)); intros [= <- <-]. auto.
  Qed.

Lemma begin_transaction_inv cxn w1 sqla txn w2 :
    begin_transaction cxn w1 = (Ok (sqla, txn), w2) ->
    sqla = {| sqla_connection := cxn; sqla_snapshot := db w1 |}
    /\ txn = {| txn_id := next_transaction w1; _connection := cxn |}
    /\ stopped w2 !! txn_id txn = None
    /\ db w2 = db w1 /\ free_connections w2 = free_connections w1.
  Proof.
    unfold begin_transaction, bind, Conn.begin, Txn.new, ret.
    destruct (begin_fault (driver w1)); [discriminate|].
    cbn. intros [= <- <- <-]. cbn.
    repeat split. apply lookup_delete_eq.
  Qed.

  (** The run of [sql] when the callable, called with [txn], raises. *)
Lemma sql_on_failure w cxn w1 sqla txn w2 failure w3 :
    acquire w = (Ok cxn, w1) ->
    begin_transaction cxn w1 = (Ok (sqla, txn), w2) ->
    callable txn w2 = (Raise failure, w3) ->
    sql callable w =
      (match rollback_fault (driver w3) with
       | Some e => Raise e
       | None => Raise failure
       end,
       set_free_connections (free_connections w3 ++ [cxn])
         (set_db (sqla_snapshot sqla)
            (set_trace (trace w3 ++ [EvRollback (sqla_connection sqla)])
               (set_stopped (<[txn_id txn := "rolled back"]> (stopped w3))
                  w3)))).
  Proof.
    intros Hacq Hbegin Hcall.
    unfold sql. rewrite Hacq.
    unfold try_finally, in_transaction, bind at 1. rewrite Hbegin. cbn.
    unfold bind at 1, attempt. rewrite Hcall.
    unfold bind, Txn.set__stopped, Conn.rollback, raise, release, Pool.append.
    cbn. destruct (rollback_fault (driver w3)); reflexivity.
  Qed.

Lemma sql_on_success w cxn w1 sqla txn w2 r w3 :
    acquire w = (Ok cxn, w1) ->
    begin_transaction cxn w1 = (Ok (sqla, txn), w2) ->
    callable txn w2 = (Ok r, w3) ->
    sql callable w =
      (match commit_fault (driver w3) with
       | Some e => Raise e
       | None => Ok r
       end,
       set_free_connections (free_connections w3 ++ [cxn])
         (match commit_fault (driver w3) with
          | Some _ => set_db (sqla_snapshot sqla)
          | None => fun w => w
          end
            (set_trace (trace w3 ++ [EvCommit (sqla_connection sqla)])
               (set_stopped (<[txn_id txn := "committed"]> (stopped w3))
                  w3)))).
  Proof.
    intros Hacq Hbegin Hcall.
    unfold sql. rewrite Hacq.
    unfold try_finally, in_transaction, bind at 1. rewrite Hbegin. cbn.
    unfold bind at 1, attempt. rewrite Hcall.
    unfold bind, Txn.set__stopped, Conn.commit, ret, release, Pool.append.
    cbn. destruct (commit_fault (driver w3)); reflexivity.
  Qed.

End SqlFacts.

(** C2 (amended): when the callable that [sql] calls raises a failure, [sql]
    marks the Transaction ended with reason "rolled back", issues the
    rollback on its connection and gives the connection back to the pool.
    When the rollback itself completes, [sql] fails with the callable's
    original failure; when the rollback raises, [sql] fails with the
    rollback's error. *)
Theorem sql_failure_rolls_back {A} (callable : Transaction -> M A)
    w cxn w1 sqla txn w2 failure w3 :
  acquire w = (Ok cxn, w1) ->
  begin_transaction cxn w1 = (Ok (sqla, txn), w2) ->
  callable txn w2 = (Raise failure, w3) ->
  let w' := snd (sql callable w) in
  stopped w' !! txn_id txn = Some "rolled back"
  /\ trace w' = trace w3 ++ [EvRollback cxn]
  /\ free_connections w' = free_connections w3 ++ [cxn]
  /\ (rollback_fault (driver w3) = None ->
      fst (sql callable w) = Raise failure)
  /\ (forall e, rollback_fault (driver w3) = Some e ->
      fst (sql callable w) = Raise e).
Proof.
  intros Hacq Hbegin Hcall.
  rewrite (sql_on_failure callable _ _ _ _ _ _ _ _ Hacq Hbegin Hcall).
  destruct (begin_transaction_inv _ _ _ _ _ Hbegin) as (-> & -> & _ & _ & _).
  cbn. split; [apply lookup_insert_eq|]. split; [reflexivity|].
  split; [reflexivity|]. split.
  - intros ->. reflexivity.
  - intros e ->. reflexivity.
Qed.

(** C2 (amended), on the fresh world with a callable that raises. *)
Lemma sql_failure_rolls_back_witness :
  let w' := snd (sql failing_callable fresh_world) in
  stopped w' !! 0%nat = Some "rolled back"
  /\ trace w' = [EvConnect 0%nat; EvBegin 0%nat; EvRollback 0%nat]
  /\ fst (sql failing_callable fresh_world) = Raise (ApplicationError "boom").
Proof.
  destruct (sql_failure_rolls_back failing_callable fresh_world
              _ _ _ _ _ _ _ eq_refl eq_refl eq_refl)
    as (Hstopped & Htrace & _ & Hfails & _).
  exact (conj Hstopped (conj Htrace (Hfails eq_refl))).
Defined.

(** C2 as stated fails: the callable is called and raises
    [ApplicationError "boom"], the driver's rollback raises, and [sql] fails
    with the rollback's error, not with the callable's failure. *)
Lemma sql_failure_masked_by_rollback_error :
  let w := set_driver rollback_fails fresh_world in
  (exists cxn w1 sqla txn w2 w3,
      acquire w = (Ok cxn, w1)
      /\ begin_transaction cxn w1 = (Ok (sqla, txn), w2)
      /\ failing_callable txn w2 = (Raise (ApplicationError "boom"), w3))
  /\ fst (sql failing_callable w) = Raise (DriverError "rollback failed")
  /\ fst (sql failing_callable w) <> Raise (ApplicationError "boom").
Proof.
  cbn zeta. split; [|split].
  - do 6 eexists. repeat split; reflexivity.
  - reflexivity.
  - discriminate.
Qed.

Lemma acquire_head w cxn rest :
  free_connections w = cxn :: rest ->
  acquire w = (Ok cxn, set_free_connections rest w).
Proof. unfold acquire. intros ->. reflexivity. Qed.

Lemma sql_releases_at_the_tail {A} (callable : Transaction -> M A)
    w cxn w1 sqla txn w2 :
  acquire w = (Ok cxn, w1) ->
  begin_transaction cxn w1 = (Ok (sqla, txn), w2) ->
  free_connections (snd (sql callable w))
  = free_connections (snd (callable txn w2)) ++ [cxn].
Proof.
  intros Hacq Hbegin.
  destruct (callable txn w2) as [[r|failure] w3] eqn:Hcall.
  - rewrite (sql_on_success callable _ _ _ _ _ _ _ _ Hacq Hbegin Hcall).
    cbn. reflexivity.
  - rewrite (sql_on_failure callable _ _ _ _ _ _ _ _ Hacq Hbegin Hcall).
    reflexivity.
Qed.

(** C8 (amended): the pool of free connections is used as a queue.  Every
    acquisition of [sql] takes the connection at the left end of the deque
    when the pool is not empty, and otherwise asks the engine for a new
    connection, which is one the pool has never held, the pool staying
    empty.  Every release appends the connection at the right end: on every
    path on which [sql] has obtained a connection, whether [begin], the
    callable, the commit or the rollback fails or not, the pool [sql] leaves
    is the pool its body left with the connection added at the right; when
    [begin] completes, the callable runs on that connection with the rest of
    the pool free, and the pool [sql] leaves is the callable's with the
    connection at the right end. *)
Theorem sql_pool_is_a_queue {A} (callable : Transaction -> M A) w :
  (forall cxn rest,
      free_connections w = cxn :: rest ->
      acquire w = (Ok cxn, set_free_connections rest w))
  /\ (free_connections w = [] ->
      acquire w = Engine.connect w
      /\ trace (snd (acquire w)) = trace w ++ [EvConnect (next_connection w)]
      /\ free_connections (snd (acquire w)) = []
      /\ (connect_fault (driver w) = None ->
          fst (acquire w) = Ok (next_connection w)))
  /\ (forall cxn w1,
      acquire w = (Ok cxn, w1) ->
      fst (sql callable w) = fst (in_transaction cxn callable w1)
      /\ free_connections (snd (sql callable w))
         = free_connections (snd (in_transaction cxn callable w1)) ++ [cxn])
  /\ (forall cxn w1 sqla txn w2,
      acquire w = (Ok cxn, w1) ->
      begin_transaction cxn w1 = (Ok (sqla, txn), w2) ->
      _connection txn = cxn
      /\ free_connections w2 = free_connections w1
      /\ free_connections (snd (sql callable w))
         = free_connections (snd (callable txn w2)) ++ [cxn]).
Proof.
  split; [|split; [|split]].
  - intros cxn rest Hfree. apply acquire_head, Hfree.
  - intros Hfree.
    assert (Hacq : acquire w = Engine.connect w)
      by (unfold acquire; rewrite Hfree; reflexivity).
    rewrite Hacq. unfold Engine.connect.
    destruct (connect_fault (driver w)) as [e|]; cbn; rewrite Hfree;
      repeat split; try reflexivity. discriminate.
  - intros cxn w1 Hacq. unfold sql. rewrite Hacq.
    unfold try_finally, release, Pool.append.
    destruct (in_transaction cxn callable w1) as [r w']. cbn.
    split; reflexivity.
  - intros cxn w1 sqla txn w2 Hacq Hbegin.
    destruct (begin_transaction_inv _ _ _ _ _ Hbegin)
      as (_ & Htxn & _ & _ & Hf).
    split; [rewrite Htxn; reflexivity|]. split; [exact Hf|].
    eapply sql_releases_at_the_tail; eauto.
Qed.

(** C8 (amended), on a pool of two connections and on an empty pool. *)
Lemma sql_pool_is_a_queue_witness :
  (exists w2,
      free_connections w2 = [8%nat]
      /\ free_connections (snd (sql idle_callable two_free_connections))
         = free_connections
             (snd (idle_callable {| txn_id := 0; _connection := 7 |} w2))
           ++ [7%nat])
  /\ fst (acquire fresh_world) = Ok 0%nat
  /\ free_connections (snd (sql failing_callable fresh_world)) = [0%nat].
Proof.
  destruct (sql_pool_is_a_queue idle_callable two_free_connections)
    as (Hleft & _ & _ & Hrun).
  destruct (sql_pool_is_a_queue failing_callable fresh_world)
    as (_ & Hnew & Hrelease & _).
  split; [|split].
  - destruct (Hrun 7%nat _ _ _ _ (Hleft 7%nat [8%nat] eq_refl) eq_refl)
      as (_ & Hfree & Hpool).
    eexists. split; [exact Hfree|exact Hpool].
  - destruct (Hnew eq_refl) as (_ & _ & _ & Hfirst). exact (Hfirst eq_refl).
  - destruct (Hrelease 0%nat _ eq_refl) as (_ & Hpool). exact Hpool.
Defined.

(** C8 as stated fails: with connections 7 and 8 free, [sql] takes 7 and
    gives it back at the other end, so that the next acquisition takes 8,
    not the connection released last. *)
Lemma sql_pool_is_not_a_stack :
  let w := two_free_connections in
  let w' := snd (sql idle_callable w) in
  fst (acquire w) = Ok 7%nat
  /\ free_connections w' = [8%nat; 7%nat]
  /\ fst (acquire w') = Ok 8%nat
  /\ fst (acquire w') <> Ok 7%nat.
Proof.
  cbn zeta. repeat split; try reflexivity. discriminate.
Qed.

Lemma execute_while_open (txn : Transaction) st w :
  stopped w !! txn_id txn = None ->
  Txn.execute txn st w = Conn.execute (_connection txn) st w.
Proof. unfold Txn.execute. intros ->. reflexivity. Qed.

Lemma execute_when_stopped (txn : Transaction) st w reason :
  stopped w !! txn_id txn = Some reason ->
  reason <> "" ->
  Txn.execute txn st w = (Raise (TransactionEnded reason), w).
Proof.
  unfold Txn.execute. intros -> Hne. cbn.
  destruct (String.eqb_spec reason ""); [contradiction|reflexivity].
Qed.

(** C9: while the transaction is open, that is when the callable starts
    and as long as [_stopped] is still false, [execute] runs the statement
    on the wrapped connection; once [sql] has concluded the transaction,
    [execute] on the same Transaction raises [TransactionEnded] with the
    reason "committed" when the callable returned and "rolled back" when it
    raised, and touches nothing. *)
Theorem execute_guarded_by_conclusion {A} (callable : Transaction -> M A)
    w cxn w1 sqla txn w2 outcome w3 st :
  acquire w = (Ok cxn, w1) ->
  begin_transaction cxn w1 = (Ok (sqla, txn), w2) ->
  callable txn w2 = (outcome, w3) ->
  Txn.execute txn st w2 = Conn.execute cxn st w2
  /\ (forall w_open, stopped w_open !! txn_id txn = None ->
        Txn.execute txn st w_open = Conn.execute cxn st w_open)
  /\ let w' := snd (sql callable w) in
     Txn.execute txn st w'
     = (Raise (TransactionEnded
                 match outcome with
                 | Ok _ => "committed"
                 | Raise _ => "rolled back"
                 end), w').
Proof.
  intros Hacq Hbegin Hcall.
  destruct (begin_transaction_inv _ _ _ _ _ Hbegin)
    as (_ & Htxn & Hopen & _ & _).
  assert (Hc : _connection txn = cxn) by (rewrite Htxn; reflexivity).
  split; [|split].
  - rewrite <- Hc. apply execute_while_open, Hopen.
  - intros w_open Ho. rewrite <- Hc. apply execute_while_open, Ho.
  - destruct outcome as [r|failure].
    + rewrite (sql_on_success callable _ _ _ _ _ _ _ _ Hacq Hbegin Hcall).
      cbn. apply execute_when_stopped; [|discriminate].
      destruct (commit_fault (driver w3)); cbn; apply lookup_insert_eq.
    + rewrite (sql_on_failure callable _ _ _ _ _ _ _ _ Hacq Hbegin Hcall).
      cbn. apply execute_when_stopped; [|discriminate].
      cbn; apply lookup_insert_eq.
Qed.

(** C9, on the fresh world, after a commit and after a rollback. *)
Lemma execute_guarded_by_conclusion_witness :
  let txn := {| txn_id := 0; _connection := 0 |} in
  let st := CreateTable T_session in
  Txn.execute txn st (snd (sql idle_callable fresh_world))
  = (Raise (TransactionEnded "committed"),
     snd (sql idle_callable fresh_world))
  /\ Txn.execute txn st (snd (sql failing_callable fresh_world))
     = (Raise (TransactionEnded "rolled back"),
        snd (sql failing_callable fresh_world)).
Proof.
  split.
  - exact (proj2 (proj2 (execute_guarded_by_conclusion idle_callable
             fresh_world _ _ _ _ _ _ _ (CreateTable T_session)
             eq_refl eq_refl eq_refl))).
  - exact (proj2 (proj2 (execute_guarded_by_conclusion failing_callable
             fresh_world _ _ _ _ _ _ _ (CreateTable T_session)
             eq_refl eq_refl eq_refl))).
Defined.

(** * Transactions in a healthy world *)

Lemma healthy_same_surroundings w w' :
  same_surroundings w w' -> healthy w -> healthy w'.
Proof. unfold same_surroundings, healthy. intros (-> & _). auto. Qed.

Lemma same_surroundings_refl w : same_surroundings w w.
Proof. unfold same_surroundings. auto. Qed.

Lemma same_surroundings_trans w1 w2 w3 :
  same_surroundings w1 w2 -> same_surroundings w2 w3 ->
  same_surroundings w1 w3.
Proof.
  unfold same_surroundings.
  intros (-> & -> & -> & ->) (-> & -> & -> & ->). auto.
Qed.

(** In a healthy world [sql] reaches the callable: it is called with a new
    [Transaction], in a world that differs from the caller's by the pool and
    the trace only. *)
Lemma sql_healthy {A} (callable : Transaction -> M A) w :
  healthy w ->
  exists cxn w2,
    let txn := {| txn_id := next_transaction w; _connection := cxn |} in
    stopped w2 !! next_transaction w = None
    /\ db w2 = db w
    /\ same_surroundings w w2
    /\ urandom_position w2 = urandom_position w
    /\ uuid4_position w2 = uuid4_position w
    /\ (driver (snd (callable txn w2)) = driver w ->
        sql callable w = concluded cxn (db w) txn (callable txn w2)).
Proof.
  intros (Hc & Hb & Hcm & Hr).
  destruct (acquire w) as [[cxn|e] w1] eqn:Hacq.
  2:{ exfalso. revert Hacq. unfold acquire, Engine.connect.
      destruct (Pool.popleft _) as [[? ?]|]; [discriminate|].
      rewrite Hc. discriminate. }
  assert (Hw1 : db w1 = db w /\ driver w1 = driver w /\ clock w1 = clock w
                /\ urandom_source w1 = urandom_source w
                /\ uuid4_source w1 = uuid4_source w
                /\ urandom_position w1 = urandom_position w
                /\ uuid4_position w1 = uuid4_position w
                /\ next_transaction w1 = next_transaction w
                /\ stopped w1 = stopped w).
  { revert Hacq. unfold acquire, Engine.connect.
    destruct (Pool.popleft _) as [[? ?]|].
    - intros [= <- <-]. cbn. repeat split.
    - rewrite Hc. intros [= <- <-]. cbn. repeat split. }
  destruct Hw1 as (Hdb & Hdr & Hck & Hus & Huu & Hup & Hupp & Hnt & Hst).
  destruct (begin_transaction cxn w1) as [[[sqla txn]|e] w2] eqn:Hbeg.
  2:{ exfalso. revert Hbeg. unfold begin_transaction, bind, Conn.begin.
      rewrite Hdr, Hb. discriminate. }
  exists cxn, w2.
  destruct (begin_transaction_inv _ _ _ _ _ Hbeg)
    as (Hsqla & Htxn & Hopen & Hdb2 & _).
  assert (Hw2 : driver w2 = driver w1 /\ clock w2 = clock w1
                /\ urandom_source w2 = urandom_source w1
                /\ uuid4_source w2 = uuid4_source w1
                /\ urandom_position w2 = urandom_position w1
                /\ uuid4_position w2 = uuid4_position w1).
  { revert Hbeg. unfold begin_transaction, bind, Conn.begin, Txn.new, ret.
    rewrite Hdr, Hb. intros [= _ _ <-]. cbn. repeat split; auto. }
  destruct Hw2 as (Hdr2 & Hck2 & Hus2 & Huu2 & Hup2 & Hupp2).
  rewrite Hnt in Htxn. subst txn.
  cbn zeta. split; [exact Hopen|].
  split; [congruence|].
  split; [unfold same_surroundings; repeat split; congruence|].
  split; [congruence|]. split; [congruence|].
  intros Hdrv.
  destruct (callable _ w2) as [[r|failure] w3] eqn:Hcall.
  - rewrite (sql_on_success callable _ _ _ _ _ _ _ _ Hacq Hbeg Hcall).
    cbn in Hdrv. rewrite Hdrv, Hcm. subst sqla. reflexivity.
  - rewrite (sql_on_failure callable _ _ _ _ _ _ _ _ Hacq Hbeg Hcall).
    cbn in Hdrv. rewrite Hdrv, Hr. subst sqla. cbn. rewrite Hdb. reflexivity.
Qed.

Lemma execute_open_ok (txn : Transaction) st w rows d :
  stopped w !! txn_id txn = None ->
  run_statement st (db w) = inr (rows, d) ->
  Txn.execute txn st w
  = (Ok rows,
     set_db d (set_trace (trace w ++ [EvExecute (_connection txn) st]) w)).
Proof.
  intros Hopen Hrun. rewrite (execute_while_open _ _ _ Hopen).
  unfold Conn.execute. rewrite Hrun. reflexivity.
Qed.

Lemma execute_open_raises (txn : Transaction) st w e :
  stopped w !! txn_id txn = None ->
  run_statement st (db w) = inl e ->
  Txn.execute txn st w
  = (Raise e, set_trace (trace w ++ [EvExecute (_connection txn) st]) w).
Proof.
  intros Hopen Hrun. rewrite (execute_while_open _ _ _ Hopen).
  unfold Conn.execute. rewrite Hrun. reflexivity.
Qed.

(** * Sessions *)

Lemma hexdigit_is_hexdigit n : (n < 16)%nat -> is_hexdigit (hexdigit n) = true.
Proof.
  intros H. do 16 (destruct n as [|n]; [reflexivity|]). lia.
Qed.

Lemma hexlify_length data : String.length (hexlify data) = (2 * length data)%nat.
Proof. induction data as [|b rest IH]; cbn; [reflexivity|]. rewrite IH. lia. Qed.

Lemma hexlify_hexdigits data :
  forallb is_hexdigit (list_ascii_of_string (hexlify data)) = true.
Proof.
  induction data as [|b rest IH]; [reflexivity|].
  pose proof (Byte.to_nat_bounded b) as Hb.
  change (hexlify (b :: rest))
    with (String (hexdigit (Byte.to_nat b / 16)%nat)
            (String (hexdigit (Byte.to_nat b mod 16)%nat) (hexlify rest))).
  cbn [list_ascii_of_string forallb].
  rewrite IH, !hexdigit_is_hexdigit; [reflexivity| |].
  - apply Nat.mod_upper_bound. lia.
  - apply Nat.Div0.div_lt_upper_bound. lia.
Qed.

Lemma newSession_inserts w rows conf mechanism :
  healthy w ->
  session_table (db w) = Some rows ->
  existsb (fun r => String.eqb (s_sessionID r) (drawn_identifier w)) rows
  = false ->
  exists w',
    AlchimiaSessionStore.newSession conf mechanism w
    = (Ok {| identifier := drawn_identifier w; isConfidential := conf;
             authenticatedBy := mechanism |}, w')
    /\ same_surroundings w w'
    /\ db w'
       = set_session_table
           (Some (rows ++ [{| s_sessionID := drawn_identifier w;
                              s_confidential := conf |}])) (db w).
Proof.
  intros Hh Hrows Hfresh.
  unfold AlchimiaSessionStore.newSession.
  match goal with |- context [sql ?c w] => set (callable := c) end.
  destruct (sql_healthy callable w Hh)
    as (cxn & w2 & Hopen & Hdb & Hsur & Hup & _ & Hsql).
  cbn zeta in *.
  set (txn := {| txn_id := next_transaction w; _connection := cxn |}) in *.
  assert (Hid : hexlify (map (fun i => urandom_source w2
                                         (urandom_position w2 + i)%nat)
                           (seq 0 32)) = drawn_identifier w).
  { destruct Hsur as (_ & _ & -> & _). rewrite Hup. reflexivity. }
  assert (Hcall : exists w3,
             callable txn w2
             = (Ok {| identifier := drawn_identifier w;
                      isConfidential := conf;
                      authenticatedBy := mechanism |}, w3)
             /\ same_surroundings w w3
             /\ db w3 = set_session_table
                          (Some (rows ++ [{| s_sessionID := drawn_identifier w;
                                             s_confidential := conf |}]))
                          (db w)).
  { unfold callable, bind, urandom. rewrite Hid.
    erewrite execute_open_ok.
    - eexists. split; [reflexivity|]. cbn. split; [exact Hsur|reflexivity].
    - exact Hopen.
    - cbn [db set_urandom_position]. rewrite Hdb. unfold run_statement.
      rewrite Hrows, Hfresh. reflexivity. }
  destruct Hcall as (w3 & Hcall & Hsur3 & Hdb3).
  rewrite Hsql, Hcall.
  - cbn. eexists. split; [reflexivity|]. cbn. split; [exact Hsur3|exact Hdb3].
  - rewrite Hcall. cbn. apply Hsur3.
Qed.

(** The rule for [sql] in a healthy world: what holds of the callable's
    outcome holds of the transaction's, and a failure leaves the database as
    it was. *)
Lemma sql_healthy_outcome {A} (callable : Transaction -> M A) w
    (post : result A -> Database -> Prop) :
  healthy w ->
  (forall txn w2,
      stopped w2 !! txn_id txn = None ->
      db w2 = db w ->
      same_surroundings w w2 ->
      urandom_position w2 = urandom_position w ->
      uuid4_position w2 = uuid4_position w ->
      exists o w3,
        callable txn w2 = (o, w3) /\ same_surroundings w w3
        /\ post o (db w3)) ->
  exists o w' d3,
    sql callable w = (o, w') /\ same_surroundings w w' /\ post o d3
    /\ db w' = match o with Ok _ => d3 | Raise _ => db w end.
Proof.
  intros Hh Hcallable.
  destruct (sql_healthy callable w Hh)
    as (cxn & w2 & Hopen & Hdb & Hsur & Hup & Huu & Hsql).
  cbn zeta in Hsql.
  destruct (Hcallable {| txn_id := next_transaction w; _connection := cxn |}
              w2 Hopen Hdb Hsur Hup Huu) as (o & w3 & Hcall & Hsur3 & Hpost).
  rewrite Hcall in Hsql. specialize (Hsql (proj1 Hsur3)).
  rewrite Hsql. destruct o as [r|failure]; cbn.
  - do 3 eexists. split; [reflexivity|]. split; [exact Hsur3|].
    split; [exact Hpost|reflexivity].
  - do 3 eexists. split; [reflexivity|]. split; [exact Hsur3|].
    split; [exact Hpost|reflexivity].
Qed.

Lemma loadSession_selects w rows id conf mechanism :
  healthy w ->
  session_table (db w) = Some rows ->
  exists w',
    AlchimiaSessionStore.loadSession id conf mechanism w
    = (match List.filter (fun r => String.eqb (s_sessionID r) id
                                   && Bool.eqb (s_confidential r) conf) rows
       with
       | [] => Raise NoSuchSession
       | row :: _ => Ok {| identifier := s_sessionID row;
                           isConfidential := conf;
                           authenticatedBy := mechanism |}
       end, w')
    /\ same_surroundings w w' /\ db w' = db w.
Proof.
  intros Hh Hrows. unfold AlchimiaSessionStore.loadSession.
  match goal with |- context [sql ?c w] => set (callable := c) end.
  destruct (sql_healthy_outcome callable w
              (fun o d => d = db w
                 /\ o = match List.filter
                                (fun r => String.eqb (s_sessionID r) id
                                          && Bool.eqb (s_confidential r) conf)
                                rows with
                        | [] => Raise NoSuchSession
                        | row :: _ => Ok {| identifier := s_sessionID row;
                                            isConfidential := conf;
                                            authenticatedBy := mechanism |}
                        end) Hh)
    as (o & w' & d3 & Hsql & Hsur & (Hd3 & Ho) & Hdb).
  - intros txn w2 Hopen Hdb Hsur _ _.
    unfold callable, bind.
    erewrite execute_open_ok; [|exact Hopen|].
    2:{ rewrite Hdb. unfold run_statement. rewrite Hrows. reflexivity. }
    cbn [session_rows].
    destruct (List.filter _ rows) as [|row ?];
      (do 2 eexists; split; [reflexivity|]; split; [exact Hsur|];
       split; reflexivity).
  - exists w'. rewrite Hsql, <- Ho. split; [reflexivity|].
    split; [exact Hsur|]. rewrite Hdb, Hd3. destruct o; reflexivity.
Qed.

(** C6: in a healthy world whose session table exists and does not yet
    hold the identifier drawn, [newSession] returns a session whose
    identifier is 64 hexadecimal characters; [loadSession] with that
    identifier, the same confidentiality flag and [authenticatedBy] returns
    the same session; and [loadSession] with an identifier that no stored
    session has fails with [NoSuchSession]. *)
Theorem newSession_loadSession_roundtrip w rows conf mechanism :
  healthy w ->
  session_table (db w) = Some rows ->
  existsb (fun r => String.eqb (s_sessionID r) (drawn_identifier w)) rows
  = false ->
  exists s w',
    AlchimiaSessionStore.newSession conf mechanism w = (Ok s, w')
    /\ String.length (identifier s) = 64%nat
    /\ forallb is_hexdigit (list_ascii_of_string (identifier s)) = true
    /\ isConfidential s = conf /\ authenticatedBy s = mechanism
    /\ fst (AlchimiaSessionStore.loadSession (identifier s) conf mechanism w')
       = Ok s
    /\ forall other,
         has_session (db w') other = false ->
         fst (AlchimiaSessionStore.loadSession other conf mechanism w')
         = Raise NoSuchSession.
Proof.
  intros Hh Hrows Hfresh.
  destruct (newSession_inserts w rows conf mechanism Hh Hrows Hfresh)
    as (w' & Hnew & Hsur & Hdb).
  pose proof (healthy_same_surroundings _ _ Hsur Hh) as Hh'.
  assert (Hrows' : session_table (db w')
                   = Some (rows ++ [{| s_sessionID := drawn_identifier w;
                                       s_confidential := conf |}]))
    by (rewrite Hdb; reflexivity).
  eexists _, w'. split; [exact Hnew|]. cbn [identifier isConfidential authenticatedBy].
  split; [unfold drawn_identifier; rewrite hexlify_length, length_map, length_seq; reflexivity|].
  split; [apply hexlify_hexdigits|].
  split; [reflexivity|]. split; [reflexivity|].
  split.
  - destruct (loadSession_selects w' _ (drawn_identifier w) conf mechanism
                Hh' Hrows') as (w'' & -> & _).
    cbn [fst]. rewrite List.filter_app.
    assert (Hnone : List.filter
                      (fun r => String.eqb (s_sessionID r) (drawn_identifier w)
                                && Bool.eqb (s_confidential r) conf) rows = []).
    { clear -Hfresh. induction rows as [|r rows IH]; [reflexivity|].
      cbn in Hfresh |- *. apply orb_false_iff in Hfresh as [-> Hrest].
      cbn. auto. }
    rewrite Hnone. cbn [app List.filter s_sessionID s_confidential].
    rewrite String.eqb_refl, Bool.eqb_reflx. reflexivity.
  - intros other Hother.
    destruct (loadSession_selects w' _ other conf mechanism Hh' Hrows')
      as (w'' & -> & _).
    cbn [fst]. unfold has_session in Hother. rewrite Hrows' in Hother.
    assert (Hnone : List.filter
                      (fun r => String.eqb (s_sessionID r) other
                                && Bool.eqb (s_confidential r) conf)
                      (rows ++ [{| s_sessionID := drawn_identifier w;
                                   s_confidential := conf |}]) = []).
    { revert Hother. generalize (rows ++ [{| s_sessionID := drawn_identifier w;
                                   s_confidential := conf |}]).
      intros l. induction l as [|r l IH]; [reflexivity|].
      cbn. intros Hother. apply orb_false_iff in Hother as [-> Hrest].
      cbn. auto. }
    rewrite Hnone. reflexivity.
Qed.

(** * Accounts *)

Lemma sql_ok_inv {A} (callable : Transaction -> M A) w r w' :
  sql callable w = (Ok r, w') ->
  exists cxn w1 sqla txn w2 w3,
    acquire w = (Ok cxn, w1)
    /\ begin_transaction cxn w1 = (Ok (sqla, txn), w2)
    /\ callable txn w2 = (Ok r, w3)
    /\ db w' = db w3.
Proof.
  intros Hsql.
  destruct (acquire w) as [[cxn|e] w1] eqn:Hacq.
  2:{ unfold sql in Hsql. rewrite Hacq in Hsql. discriminate. }
  destruct (begin_transaction cxn w1) as [[[sqla txn]|e] w2] eqn:Hbeg.
  2:{ unfold sql in Hsql. rewrite Hacq in Hsql.
      unfold try_finally, in_transaction, bind at 1 in Hsql.
      rewrite Hbeg in Hsql. cbn in Hsql. discriminate. }
  destruct (callable txn w2) as [[r'|failure] w3] eqn:Hcall.
  - rewrite (sql_on_success callable _ _ _ _ _ _ _ _ Hacq Hbeg Hcall) in Hsql.
    destruct (commit_fault (driver w3)); [discriminate|].
    injection Hsql as <- <-.
    exists cxn, w1, sqla, txn, w2, w3. repeat split; auto.
  - rewrite (sql_on_failure callable _ _ _ _ _ _ _ _ Hacq Hbeg Hcall) in Hsql.
    destruct (rollback_fault (driver w3)); discriminate.
Qed.

(** C10: a [log_out] that succeeds leaves in account_session exactly the
    rows of the other sessions, every one of which is still there, and
    leaves the account, session and session_ip tables as they were. *)
Theorem log_out_deletes_only_own_bindings (self : AccountSessionBinding)
    w r w' :
  AccountSessionBinding.log_out self w = (Ok r, w') ->
  exists bindings,
    account_session_table (db w) = Some bindings
    /\ account_session_table (db w')
       = Some (List.filter
                 (fun b => negb (String.eqb (as_sessionID b)
                                   (identifier (_session self)))) bindings)
    /\ account_table (db w') = account_table (db w)
    /\ session_table (db w') = session_table (db w)
    /\ session_ip_table (db w') = session_ip_table (db w)
    /\ forall b, In b bindings ->
         as_sessionID b <> identifier (_session self) ->
         In b (List.filter
                 (fun b => negb (String.eqb (as_sessionID b)
                                   (identifier (_session self)))) bindings).
Proof.
  unfold AccountSessionBinding.log_out. intros Hsql.
  apply sql_ok_inv in Hsql
    as (cxn & w1 & sqla & txn & w2 & w3 & Hacq & Hbeg & Hcall & Hdb').
  destruct (acquire_db _ _ _ Hacq) as [Hdb1 _].
  destruct (begin_transaction_inv _ _ _ _ _ Hbeg)
    as (_ & _ & Hopen & Hdb2 & _).
  rewrite (execute_while_open _ _ _ Hopen) in Hcall.
  unfold Conn.execute, run_statement in Hcall.
  rewrite Hdb2, Hdb1 in Hcall.
  destruct (account_session_table (db w)) as [bindings|]; [|discriminate].
  injection Hcall as _ <-. exists bindings. rewrite Hdb'. cbn.
  repeat split.
  intros b Hin Hne. apply filter_In. split; [exact Hin|].
  apply negb_true_iff, String.eqb_neq, Hne.
Qed.

(** The [store] transaction of [create_account], then the account handle:
    a taken username or account identifier gives [None] and changes
    nothing. *)
Lemma create_account_run sec self uname mail password w rows :
  healthy w ->
  account_table (db w) = Some rows ->
  exists w',
    same_surroundings w w'
    /\ if accountID_taken (drawn_uuid w) rows || username_taken uname rows
       then AccountSessionBinding.create_account sec self uname mail password w
            = (Ok None, w')
            /\ db w' = db w
       else AccountSessionBinding.create_account sec self uname mail password w
            = (Ok (Some {| accountID := drawn_uuid w; username := uname;
                           email := mail |}), w')
            /\ db w'
               = set_account_table
                   (Some (rows ++ [{| a_accountID := drawn_uuid w;
                                      a_username := uname;
                                      a_email := mail;
                                      a_passwordBlob :=
                                        computeKeyText sec password |}]))
                   (db w).
Proof.
  intros Hh Hrows. unfold AccountSessionBinding.create_account.
  cbn zeta.
  match goal with |- context [sql ?c] => set (callable := c) end.
  destruct (sql_healthy_outcome callable w
              (fun o d =>
                 if accountID_taken (drawn_uuid w) rows
                    || username_taken uname rows
                 then o = Ok None /\ d = db w
                 else o = Ok (Some (drawn_uuid w))
                      /\ d = set_account_table
                               (Some (rows ++ [{| a_accountID := drawn_uuid w;
                                      a_username := uname;
                                      a_email := mail;
                                      a_passwordBlob :=
                                        computeKeyText sec password |}]))
                               (db w)) Hh)
    as (o & w' & d3 & Hsql & Hsur & Hpost & Hdb).
  - intros txn w2 Hopen Hdb Hsur _ Huu.
    assert (Hid : uuid4_source w2 (uuid4_position w2) = drawn_uuid w).
    { destruct Hsur as (_ & _ & _ & ->). rewrite Huu. reflexivity. }
    unfold callable, bind at 1, uuid4. rewrite Hid.
    unfold bind, attempt.
    unfold accountID_taken, username_taken.
    destruct (existsb (fun r => String.eqb (a_accountID r) (drawn_uuid w)) rows)
      eqn:Haid; [|destruct (existsb (fun r => String.eqb (a_username r) uname)
                              rows) eqn:Hun]; cbn [orb].
    + erewrite execute_open_raises; [|exact Hopen|].
      2:{ cbn [db set_uuid4_position]. rewrite Hdb. unfold run_statement.
          rewrite Hrows, Haid. reflexivity. }
      do 2 eexists. split; [reflexivity|]. split; [exact Hsur|].
      split; [reflexivity|exact Hdb].
    + erewrite execute_open_raises; [|exact Hopen|].
      2:{ cbn [db set_uuid4_position]. rewrite Hdb. unfold run_statement.
          rewrite Hrows, Haid, Hun. reflexivity. }
      do 2 eexists. split; [reflexivity|]. split; [exact Hsur|].
      split; [reflexivity|exact Hdb].
    + erewrite execute_open_ok; [|exact Hopen|].
      2:{ cbn [db set_uuid4_position]. rewrite Hdb. unfold run_statement.
          rewrite Hrows, Haid, Hun. reflexivity. }
      do 2 eexists. split; [reflexivity|]. split; [exact Hsur|].
      split; reflexivity.
  - exists w'. split; [exact Hsur|].
    destruct (accountID_taken (drawn_uuid w) rows || username_taken uname rows);
      destruct Hpost as [-> ->];
      (split; [unfold bind; rewrite Hsql; reflexivity|exact Hdb]).
Qed.

Lemma with_username_absent uname rows :
  username_taken uname rows = false -> with_username uname rows = [].
Proof.
  unfold username_taken, with_username.
  induction rows as [|r rows IH]; [reflexivity|].
  cbn. intros H. apply orb_false_iff in H as [-> Hrest]. auto.
Qed.

(** C5: in a healthy world whose account table holds neither the username
    nor the account identifier drawn, the first [create_account] returns an
    account, the second [create_account] with the same username returns
    [None] without raising and without changing the database, and one
    account row with that username exists afterwards. *)
Theorem create_account_twice sec self self' uname mail password
    mail' password' w rows :
  healthy w ->
  account_table (db w) = Some rows ->
  username_taken uname rows = false ->
  accountID_taken (drawn_uuid w) rows = false ->
  exists account w1 w2 rows2,
    AccountSessionBinding.create_account sec self uname mail password w
    = (Ok (Some account), w1)
    /\ username account = uname
    /\ AccountSessionBinding.create_account sec self' uname mail' password' w1
       = (Ok None, w2)
    /\ account_table (db w2) = Some rows2
    /\ db w2 = db w1
    /\ length (with_username uname rows2) = 1%nat.
Proof.
  intros Hh Hrows Hun Haid.
  destruct (create_account_run sec self uname mail password w rows Hh Hrows)
    as (w1 & Hsur1 & Hfirst).
  rewrite Haid, Hun in Hfirst. cbn [orb] in Hfirst.
  destruct Hfirst as [Hfirst Hdb1].
  pose proof (healthy_same_surroundings _ _ Hsur1 Hh) as Hh1.
  set (row := {| a_accountID := drawn_uuid w; a_username := uname;
                 a_email := mail;
                 a_passwordBlob := computeKeyText sec password |}) in *.
  assert (Hrows1 : account_table (db w1) = Some (rows ++ [row]))
    by (rewrite Hdb1; reflexivity).
  destruct (create_account_run sec self' uname mail' password' w1 _ Hh1 Hrows1)
    as (w2 & _ & Hsecond).
  assert (Htaken : username_taken uname (rows ++ [row]) = true).
  { unfold username_taken. rewrite existsb_app. cbn.
    rewrite String.eqb_refl. apply orb_true_iff. right. reflexivity. }
  rewrite Htaken, orb_true_r in Hsecond. destruct Hsecond as [Hsecond Hdb2].
  eexists _, w1, w2, (rows ++ [row]).
  split; [exact Hfirst|]. split; [reflexivity|]. split; [exact Hsecond|].
  split; [rewrite Hdb2; exact Hrows1|]. split; [exact Hdb2|].
  unfold with_username. rewrite List.filter_app.
  fold (with_username uname rows). rewrite (with_username_absent _ _ Hun).
  cbn. rewrite String.eqb_refl. reflexivity.
Qed.

Lemma with_username_none uname rows :
  ~ In uname (map a_username rows) -> with_username uname rows = [].
Proof.
  unfold with_username. induction rows as [|r rows IH]; [reflexivity|].
  cbn. intros Hnot.
  destruct (String.eqb_spec (a_username r) uname) as [Heq|Hne].
  - exfalso. apply Hnot. left. exact Heq.
  - apply IH. intros Hin. apply Hnot. right. exact Hin.
Qed.

Lemma with_username_unique row rows :
  List.NoDup (map a_username rows) ->
  In row rows ->
  with_username (a_username row) rows = [row].
Proof.
  unfold with_username. induction rows as [|r rows IH]; [contradiction|].
  cbn. intros Hnd Hin. inversion Hnd as [|u us Hnotin Hnd' Heq]; subst.
  destruct Hin as [<-|Hin].
  - rewrite String.eqb_refl. f_equal. apply with_username_none, Hnotin.
  - destruct (String.eqb_spec (a_username r) (a_username row)) as [Heq|Hne].
    + exfalso. apply Hnotin. rewrite Heq. apply in_map, Hin.
    + apply IH; assumption.
Qed.

(** The [retrieve] transaction of [log_in]. *)
Lemma log_in_retrieve uname w rows :
  healthy w ->
  account_table (db w) = Some rows ->
  exists w1,
    sql (fun engine =>
           result <- Txn.execute engine (SelectAccountByUsername uname) ;;
           ret (account_rows result)) w
    = (Ok (with_username uname rows), w1)
    /\ same_surroundings w w1 /\ db w1 = db w.
Proof.
  intros Hh Hrows.
  match goal with |- context [sql ?c] => set (callable := c) end.
  destruct (sql_healthy_outcome callable w
              (fun o d => o = Ok (with_username uname rows) /\ d = db w) Hh)
    as (o & w1 & d3 & Hsql & Hsur & (-> & ->) & Hdb).
  - intros txn w2 Hopen Hdb Hsur _ _. unfold callable, bind.
    erewrite execute_open_ok; [|exact Hopen|].
    2:{ rewrite Hdb. unfold run_statement. rewrite Hrows. reflexivity. }
    do 2 eexists. split; [reflexivity|]. split; [exact Hsur|].
    split; reflexivity.
  - exists w1. auto.
Qed.

(** C4: in a healthy world whose account table respects the uniqueness of
    usernames, [log_in] with the username of an existing account and a
    password that fails verification against its stored text returns
    [None] and leaves the database, hence every stored password text, as it
    was; so does [log_in] with a username that no account has. *)
Theorem log_in_rejects sec self w rows :
  healthy w ->
  account_table (db w) = Some rows ->
  List.NoDup (map a_username rows) ->
  (forall row password,
      In row rows ->
      verifies sec (a_passwordBlob row) password = false ->
      exists w',
        AccountSessionBinding.log_in sec self (a_username row) password w
        = (Ok None, w')
        /\ db w' = db w)
  /\ (forall uname password,
        ~ In uname (map a_username rows) ->
        exists w',
          AccountSessionBinding.log_in sec self uname password w
          = (Ok None, w')
          /\ db w' = db w).
Proof.
  intros Hh Hrows Hnd. split.
  - intros row password Hin Hwrong.
    destruct (log_in_retrieve (a_username row) w rows Hh Hrows)
      as (w1 & Hret & _ & Hdb1).
    exists w1. unfold AccountSessionBinding.log_in, bind at 1.
    rewrite Hret, (with_username_unique _ _ Hnd Hin).
    unfold bind, checkAndReset. rewrite Hwrong. cbn. auto.
  - intros uname password Hnone.
    destruct (log_in_retrieve uname w rows Hh Hrows) as (w1 & Hret & _ & Hdb1).
    exists w1. unfold AccountSessionBinding.log_in, bind at 1.
    rewrite Hret, (with_username_none _ _ Hnone). cbn. auto.
Qed.

(** * IP tracking *)

Lemma touch_run sid ip w rows :
  healthy w ->
  session_ip_table (db w) = Some rows ->
  exists w',
    IPTrackingProcurer.touch sid ip w = (Ok NoRows, w')
    /\ same_surroundings w w'
    /\ db w'
       = set_session_ip_table
           (Some (rows_after_touch (db w) sid ip (clock w) rows)) (db w).
Proof.
  intros Hh Hrows. unfold IPTrackingProcurer.touch.
  match goal with |- context [sql ?c] => set (callable := c) end.
  destruct (sql_healthy_outcome callable w
              (fun o d => o = Ok NoRows
                 /\ d = set_session_ip_table
                          (Some (rows_after_touch (db w) sid ip (clock w) rows))
                          (db w)) Hh)
    as (o & w' & d3 & Hsql & Hsur & (-> & ->) & Hdb).
  - intros txn w2 Hopen Hdb Hsur _ _.
    assert (Hclock : clock w2 = clock w) by apply Hsur.
    unfold callable, bind at 1, utcnow. rewrite Hclock.
    unfold upsert, bind, attempt. cbn [k_sessionID k_ip_address k_address_family].
    fold (family_of ip). unfold rows_after_touch.
    destruct (existsb (same_ip_key sid ip (family_of ip)) rows) eqn:Hkey;
      [|destruct (fk_violation (db w) (has_session (db w) sid)) eqn:Hfk];
      cbn [orb].
    + erewrite execute_open_raises; [|exact Hopen|].
      2:{ rewrite Hdb. unfold run_statement. rewrite Hrows, Hkey.
          reflexivity. }
      cbv beta iota.
      erewrite execute_open_ok; [|exact Hopen|].
      2:{ cbn [db set_trace]. rewrite Hdb. unfold run_statement.
          rewrite Hrows. reflexivity. }
      do 2 eexists. split; [reflexivity|]. split; [exact Hsur|].
      split; reflexivity.
    + erewrite execute_open_raises; [|exact Hopen|].
      2:{ rewrite Hdb. unfold run_statement. rewrite Hrows, Hkey, Hfk.
          reflexivity. }
      cbv beta iota.
      erewrite execute_open_ok; [|exact Hopen|].
      2:{ cbn [db set_trace]. rewrite Hdb. unfold run_statement.
          rewrite Hrows. reflexivity. }
      do 2 eexists. split; [reflexivity|]. split; [exact Hsur|].
      split; reflexivity.
    + erewrite execute_open_ok; [|exact Hopen|].
      2:{ rewrite Hdb. unfold run_statement. rewrite Hrows, Hkey, Hfk.
          reflexivity. }
      do 2 eexists. split; [reflexivity|]. split; [exact Hsur|].
      split; reflexivity.
  - exists w'. auto.
Qed.

Lemma same_ip_key_touched sid ip fam used r :
  same_ip_key sid ip fam (touched used r) = same_ip_key sid ip fam r.
Proof. reflexivity. Qed.

Lemma filter_key_touch sid ip fam used rows :
  List.filter (same_ip_key sid ip fam)
    (map (fun r => if same_ip_key sid ip fam r then touched used r else r)
       rows)
  = map (touched used) (List.filter (same_ip_key sid ip fam) rows).
Proof.
  induction rows as [|r rows IH]; [reflexivity|]. cbn [map List.filter].
  destruct (same_ip_key sid ip fam r) eqn:Hk.
  - rewrite same_ip_key_touched, Hk. cbn [map]. f_equal. exact IH.
  - rewrite Hk. exact IH.
Qed.

Lemma filter_key_absent sid ip fam rows :
  existsb (same_ip_key sid ip fam) rows = false ->
  List.filter (same_ip_key sid ip fam) rows = [].
Proof.
  induction rows as [|r rows IH]; [reflexivity|]. cbn.
  intros H. apply orb_false_iff in H as [-> Hrest]. auto.
Qed.

Lemma filter_key_present sid ip fam rows :
  existsb (same_ip_key sid ip fam) rows = true ->
  List.filter (same_ip_key sid ip fam) rows <> [].
Proof.
  induction rows as [|r rows IH]; [discriminate|]. cbn.
  destruct (same_ip_key sid ip fam r); [discriminate|]. exact IH.
Qed.

Lemma existsb_key_filter sid ip fam rows :
  existsb (same_ip_key sid ip fam) rows
  = negb (Nat.eqb (length (List.filter (same_ip_key sid ip fam) rows)) 0).
Proof.
  induction rows as [|r rows IH]; [reflexivity|]. cbn.
  destruct (same_ip_key sid ip fam r); [reflexivity|]. exact IH.
Qed.

(** C7: in a healthy world whose session_ip table holds at most one row
    for the key and where the foreign key to the session is not violated,
    two [touch] transactions for the same session and address, at clock
    readings [t1] then [t2], both succeed and leave exactly one row for the
    key (sessionID, ip_address, address_family), whose [last_used] is [t2],
    the later of the two readings when the clock does not run backwards. *)
Theorem ip_tracking_upsert_twice sid ip t1 t2 w rows :
  healthy w ->
  session_ip_table (db w) = Some rows ->
  (length (List.filter (same_ip_key sid ip (family_of ip)) rows) <= 1)%nat ->
  fk_violation (db w) (has_session (db w) sid) = false ->
  exists w1 w2 rows2 row,
    IPTrackingProcurer.touch sid ip (set_clock t1 w) = (Ok NoRows, w1)
    /\ IPTrackingProcurer.touch sid ip (set_clock t2 w1) = (Ok NoRows, w2)
    /\ session_ip_table (db w2) = Some rows2
    /\ List.filter (same_ip_key sid ip (family_of ip)) rows2 = [row]
    /\ ip_last_used row = t2
    /\ ((t1 <= t2)%Z -> ip_last_used row = Z.max t1 t2).
Proof.
  intros Hh Hrows Huniq Hfk.
  assert (Hh1 : healthy (set_clock t1 w)) by exact Hh.
  destruct (touch_run sid ip (set_clock t1 w) rows Hh1 Hrows)
    as (w1 & Hfirst & Hsur1 & Hdb1).
  cbn [db clock set_clock] in Hdb1.
  set (rows1 := rows_after_touch (db w) sid ip t1 rows) in *.
  assert (Hrows1 : session_ip_table (db w1) = Some rows1)
    by (rewrite Hdb1; reflexivity).
  assert (Hh2 : healthy (set_clock t2 w1)).
  { apply (healthy_same_surroundings _ _ Hsur1) in Hh1. exact Hh1. }
  destruct (touch_run sid ip (set_clock t2 w1) rows1 Hh2 Hrows1)
    as (w2 & Hsecond & _ & Hdb2).
  cbn [db clock set_clock] in Hdb2.
  (* one row carries the key after the first touch *)
  assert (Hone : exists r1,
             List.filter (same_ip_key sid ip (family_of ip)) rows1 = [r1]).
  { unfold rows1, rows_after_touch. rewrite Hfk, orb_false_r.
    destruct (existsb (same_ip_key sid ip (family_of ip)) rows) eqn:Hkey.
    - rewrite filter_key_touch.
      pose proof (filter_key_present _ _ _ _ Hkey) as Hne.
      destruct (List.filter (same_ip_key sid ip (family_of ip)) rows)
        as [|r [|r' rest]]; [contradiction| |cbn in Huniq; lia].
      eexists. reflexivity.
    - rewrite List.filter_app, (filter_key_absent _ _ _ _ Hkey).
      cbn. unfold same_ip_key. cbn. rewrite !String.eqb_refl.
      eexists. reflexivity. }
  destruct Hone as (r1 & Hone).
  assert (Hkey1 : existsb (same_ip_key sid ip (family_of ip)) rows1 = true)
    by (rewrite existsb_key_filter, Hone; reflexivity).
  exists w1, w2, (rows_after_touch (db w1) sid ip t2 rows1), (touched t2 r1).
  split; [exact Hfirst|]. split; [exact Hsecond|].
  split; [rewrite Hdb2; reflexivity|].
  split.
  - unfold rows_after_touch at 1. rewrite Hkey1. cbn [orb].
    rewrite filter_key_touch, Hone. reflexivity.
  - split; [reflexivity|]. intros Hle. cbn. lia.
Qed.

(** * Authorization *)

Section AuthorizeFacts.

Variable afs : Component -> Transaction -> SQLSession -> M Authorization.
Variable self : SQLSession.
Variable txn : Transaction.

Lemma invoke_all_total authorizers w :
    exists granted w',
      invoke_all afs txn self authorizers w = (Ok granted, w')
      /\ map fst granted = map authzn_for authorizers.
  Proof.
    revert w. induction authorizers as [|a rest IH]; intros w.
    - exists [], w. split; reflexivity.
    - cbn [invoke_all]. unfold bind at 1, attempt.
      destruct (afs a txn self w) as [v w1].
      destruct (IH w1) as (vs & w' & Hrest & Hkeys).
      unfold bind. rewrite Hrest.
      exists ((authzn_for a, v) :: vs), w'. split; [reflexivity|].
      cbn. f_equal. exact Hkeys.
  Qed.

  (** The loop with its accumulators is the invocation of the matched
      authorizers, in order. *)
Lemma for_authorizers_invoke_all interfaces authorizers res ds w :
    SQLSession.for_authorizers afs self interfaces txn authorizers res ds w
    = (granted <- invoke_all afs txn self
                    (List.filter
                       (fun a => bool_decide (authzn_for a ∈ interfaces))
                       authorizers) ;;
       ret (assemble granted res,
            ds ++ map (fun p => after_setitem (snd p)) granted)) w.
  Proof.
    revert res ds w. induction authorizers as [|a rest IH]; intros res ds w.
    - cbn. unfold bind, ret. cbn. rewrite app_nil_r. reflexivity.
    - cbn [SQLSession.for_authorizers List.filter].
      destruct (bool_decide (authzn_for a ∈ interfaces)).
      + cbn [invoke_all]. unfold bind, attempt.
        destruct (afs a txn self w) as [v w1]. rewrite IH.
        unfold bind. destruct (invoke_all afs txn self _ w1) as [[vs|e] w2].
        * unfold ret. cbn [map assemble fold_left fst snd].
          rewrite <- app_assoc. reflexivity.
        * reflexivity.
      + apply IH.
  Qed.

Lemma for_authorizers_ext interfaces interfaces' authorizers res ds w :
    (forall a, In a authorizers ->
               bool_decide (authzn_for a ∈ interfaces)
               = bool_decide (authzn_for a ∈ interfaces')) ->
    SQLSession.for_authorizers afs self interfaces txn authorizers res ds w
    = SQLSession.for_authorizers afs self interfaces' txn authorizers res ds w.
  Proof.
    revert res ds w. induction authorizers as [|a rest IH];
      intros res ds w Hagree; [reflexivity|].
    cbn [SQLSession.for_authorizers].
    rewrite <- (Hagree a (or_introl eq_refl)).
    destruct (bool_decide (authzn_for a ∈ interfaces)).
    - unfold bind. destruct (attempt (afs a txn self) w) as [[v|e] w1];
        [|reflexivity].
      apply IH. intros a' Hin. apply Hagree. right. exact Hin.
    - apply IH. intros a' Hin. apply Hagree. right. exact Hin.
  Qed.

End AuthorizeFacts.

Lemma sql_ext {A} (c1 c2 : Transaction -> M A) w :
  (forall txn w2, c1 txn w2 = c2 txn w2) ->
  sql c1 w = sql c2 w.
Proof.
  intros Hext. unfold sql. destruct (acquire w) as [[cxn|e] w1]; [|reflexivity].
  unfold try_finally, in_transaction, bind.
  destruct (begin_transaction cxn w1) as [[begun|e] w2]; [|reflexivity].
  unfold attempt. rewrite Hext. reflexivity.
Qed.

Lemma assemble_lookup granted (res : Authorizations) i :
  is_Some (assemble granted res !! i)
  <-> In i (map fst granted) \/ is_Some (res !! i).
Proof.
  revert res. induction granted as [|[k v] granted IH]; intros res.
  - cbn. tauto.
  - cbn [assemble fold_left map fst snd]. fold (assemble granted (<[k:=v]> res)).
    rewrite IH. cbn [In].
    destruct (decide (k = i)) as [->|Hne].
    + rewrite lookup_insert_eq. split; [intros _|intros _; right; eauto].
      left. left. reflexivity.
    + rewrite lookup_insert_ne by exact Hne. tauto.
Qed.

Lemma authzn_in_one_transaction afs ds self interfaces txn w :
  SQLSession.authzn afs ds self interfaces txn w
  = (granted <- invoke_all afs txn self (matched ds interfaces) ;;
     gatherResults (map (fun p => after_setitem (snd p)) granted) ;;;
     ret (assemble granted ∅)) w.
Proof.
  unfold SQLSession.authzn. cbn zeta. unfold bind at 1.
  rewrite for_authorizers_invoke_all. fold (matched ds interfaces).
  unfold bind. destruct (invoke_all afs txn self (matched ds interfaces) w)
    as [[granted|e] w1]; reflexivity.
Qed.

Lemma matched_providers ds (interfaces : list Interface) i :
  In i (map authzn_for (matched ds (list_to_set interfaces)))
  <-> In i interfaces
      /\ exists a, In a (componentsProviding ds ISQLAuthorizer)
                   /\ authzn_for a = i.
Proof.
  unfold matched. rewrite in_map_iff. split.
  - intros (a & <- & Hin). apply filter_In in Hin as [Hin Hreq].
    apply bool_decide_eq_true in Hreq.
    apply elem_of_list_to_set, list_elem_of_In in Hreq. eauto.
  - intros (Hreq & a & Hin & <-). exists a. split; [reflexivity|].
    apply filter_In. split; [exact Hin|].
    apply bool_decide_eq_true, elem_of_list_to_set, list_elem_of_In, Hreq.
Qed.

(** C3: [authorize] is one [sql] call whose callable invokes the
    [authzn_for_session] of every matched authorizer, in registration
    order, on the Transaction of that call; when it succeeds, the mapping
    has an entry exactly under the requested interfaces that some
    registered authorizer declares as its [authzn_for]; and requesting
    interfaces without a provider changes nothing, neither the outcome nor
    the world. *)
Theorem authorize_shared_transaction depth ds self interfaces w :
  authorize (S depth) ds self interfaces w
  = authorize_in_one_transaction (authzn_for_session (authorize depth ds))
      ds self interfaces w
  /\ (forall granted w',
         authorize (S depth) ds self interfaces w = (Ok granted, w') ->
         forall i,
           is_Some (granted !! i)
           <-> In i interfaces
               /\ exists a, In a (componentsProviding ds ISQLAuthorizer)
                            /\ authzn_for a = i)
  /\ authorize (S depth) ds self interfaces w
     = authorize (S depth) ds self
         (List.filter (has_provider ds) interfaces) w.
Proof.
  set (afs := authzn_for_session (authorize depth ds)).
  assert (Hrefine : forall l w0,
             authorize (S depth) ds self l w0
             = authorize_in_one_transaction afs ds self l w0).
  { intros l w0. cbn [authorize]. unfold SQLSession.authorize_with,
      authorize_in_one_transaction. cbn zeta.
    apply sql_ext. intros txn w2. apply authzn_in_one_transaction. }
  split; [apply Hrefine|]. split.
  - intros granted w' Hok i. rewrite Hrefine in Hok.
    unfold authorize_in_one_transaction in Hok.
    apply sql_ok_inv in Hok
      as (cxn & w1 & sqla & txn & w2 & w3 & _ & _ & Hcall & _).
    unfold bind in Hcall.
    destruct (invoke_all_total afs self txn
                (matched ds (list_to_set interfaces)) w2)
      as (vs & w2' & Hinv & Hkeys).
    rewrite Hinv in Hcall. unfold gatherResults in Hcall.
    destruct (first_failure 0 _) as [[e index]|]; [discriminate|].
    injection Hcall as <- _.
    rewrite assemble_lookup, Hkeys, matched_providers, lookup_empty.
    split; [intros [H|[x Hx]]; [exact H|discriminate]|auto].
  - cbn [authorize]. unfold SQLSession.authorize_with. cbn zeta.
    apply sql_ext. intros txn w2. unfold SQLSession.authzn. cbn zeta.
    unfold bind at 1 3.
    rewrite (for_authorizers_ext afs self txn (list_to_set interfaces)
               (list_to_set (List.filter (has_provider ds) interfaces)));
      [reflexivity|].
    intros a Hin. apply bool_decide_ext.
    rewrite !elem_of_list_to_set, !list_elem_of_In, filter_In.
    split; [|tauto]. intros Hreq. split; [exact Hreq|].
    unfold has_provider. apply existsb_exists. exists a.
    split; [exact Hin|apply String.eqb_refl].
Qed.

(** * openSessionStore *)

(** C1: [openSessionStore] creates the session store, the account binding
    store, the IP-tracking procurer around the base procurer and the login
    authorizer, then the caller's components, and returns the first
    session procurer; but it never calls [_populate_schema]: whatever the
    arguments, no statement reaches the database.  On a database without
    tables the procurer it returns is therefore not ready: [newSession]
    fails with "no such table", where [_populate_schema] on the same
    components would have created the four tables. *)
Theorem openSessionStore_runs_no_schema_initialization :
  (forall creators procurer_from_store,
      extend [] (session_store_creators creators procurer_from_store)
      = extend (default_components procurer_from_store) creators)
  /\ (forall db_uri creators procurer_from_store w,
      trace (snd (openSessionStore db_uri creators procurer_from_store w))
      = trace w
      /\ db (snd (openSessionStore db_uri creators procurer_from_store w))
         = db w)
  /\ (forall procurer_from_store,
        let opened :=
          openSessionStore "sqlite://" [] procurer_from_store fresh_world in
        fst opened
        = Ok (IPTrackingProcurer (procurer_from_store AlchimiaSessionStore))
        /\ db (snd opened) = empty_db
        /\ trace (snd opened) = []
        /\ fst (AlchimiaSessionStore.newSession true "cookie" (snd opened))
           = Raise (OperationalError "no such table: session")
        /\ db (snd (_populate_schema
                      {| _components :=
                           default_components procurer_from_store |}
                      (snd opened)))
           = all_tables_empty).
Proof.
  split; [reflexivity|]. split.
  - intros db_uri creators pfs w. unfold openSessionStore, bind, open.
    destruct (extend [] (session_store_creators creators pfs)) as [l|e];
      [|split; reflexivity].
    unfold next. destruct (componentsProviding _ ISessionProcurer);
      split; reflexivity.
  - intros pfs. cbn zeta. repeat split.
Qed.

(** * The theorems on the sample worlds *)

Lemma fresh_world_healthy : healthy fresh_world.
Proof. repeat split. Qed.

Lemma ready_world_healthy : healthy ready_world.
Proof. repeat split. Qed.

(** C6, on the sample world. *)
Lemma newSession_loadSession_roundtrip_witness :
  exists s w',
    AlchimiaSessionStore.newSession true "cookie" ready_world = (Ok s, w')
    /\ String.length (identifier s) = 64%nat
    /\ forallb is_hexdigit (list_ascii_of_string (identifier s)) = true
    /\ isConfidential s = true /\ authenticatedBy s = "cookie"
    /\ fst (AlchimiaSessionStore.loadSession (identifier s) true "cookie" w')
       = Ok s
    /\ forall other,
         has_session (db w') other = false ->
         fst (AlchimiaSessionStore.loadSession other true "cookie" w')
         = Raise NoSuchSession.
Proof.
  exact (newSession_loadSession_roundtrip ready_world _ true "cookie"
           ready_world_healthy eq_refl eq_refl).
Defined.

(** C4, on the sample world. *)
Lemma log_in_rejects_witness :
  (exists w',
      AccountSessionBinding.log_in sample_security binding_1
        "alice" "guess" ready_world = (Ok None, w')
      /\ db w' = db ready_world)
  /\ (exists w',
        AccountSessionBinding.log_in sample_security binding_1
          "bob" "secret" ready_world = (Ok None, w')
        /\ db w' = db ready_world).
Proof.
  assert (Hnd : List.NoDup (map a_username [alice])).
  { constructor; [intros []|constructor]. }
  destruct (log_in_rejects sample_security binding_1 ready_world [alice]
              ready_world_healthy eq_refl Hnd) as [Hwrong Hnone].
  split.
  - exact (Hwrong alice "guess" (or_introl eq_refl) eq_refl).
  - apply Hnone. cbn. intros [H|[]]. discriminate H.
Defined.

(** C5, on the sample world. *)
Lemma create_account_twice_witness :
  exists account w1 w2 rows2,
    AccountSessionBinding.create_account sample_security binding_1
      "bob" "bob@example.com" "hunter2" ready_world
    = (Ok (Some account), w1)
    /\ username account = "bob"
    /\ AccountSessionBinding.create_account sample_security binding_1
         "bob" "robert@example.com" "hunter3" w1
       = (Ok None, w2)
    /\ account_table (db w2) = Some rows2
    /\ db w2 = db w1
    /\ length (with_username "bob" rows2) = 1%nat.
Proof.
  exact (create_account_twice sample_security binding_1 binding_1
           "bob" "bob@example.com" "hunter2" "robert@example.com" "hunter3"
           ready_world [alice] ready_world_healthy eq_refl eq_refl eq_refl).
Defined.

(** C7, on the sample world. *)
Lemma ip_tracking_upsert_twice_witness :
  exists w1 w2 rows2 row,
    IPTrackingProcurer.touch "s-1" "10.0.0.7" (set_clock 100 ready_world)
    = (Ok NoRows, w1)
    /\ IPTrackingProcurer.touch "s-1" "10.0.0.7" (set_clock 200 w1)
       = (Ok NoRows, w2)
    /\ session_ip_table (db w2) = Some rows2
    /\ List.filter (same_ip_key "s-1" "10.0.0.7" (family_of "10.0.0.7")) rows2
       = [row]
    /\ ip_last_used row = 200%Z
    /\ ((100 <= 200)%Z -> ip_last_used row = Z.max 100 200).
Proof.
  apply (ip_tracking_upsert_twice "s-1" "10.0.0.7" 100 200 ready_world []
           ready_world_healthy eq_refl).
  - cbn. lia.
  - reflexivity.
Defined.

(** C10, on the sample world. *)
Lemma log_out_deletes_only_own_bindings_witness :
  exists w' bindings,
    fst (AccountSessionBinding.log_out binding_1 ready_world) = Ok NoRows
    /\ account_session_table (db ready_world) = Some bindings
    /\ account_session_table (db w')
       = Some (List.filter
                 (fun b => negb (String.eqb (as_sessionID b) "s-1")) bindings)
    /\ account_table (db w') = account_table (db ready_world)
    /\ session_table (db w') = session_table (db ready_world)
    /\ session_ip_table (db w') = session_ip_table (db ready_world).
Proof.
  destruct (AccountSessionBinding.log_out binding_1 ready_world)
    as [[r|e] w'] eqn:Hrun.
  - destruct (log_out_deletes_only_own_bindings binding_1 ready_world r w'
                Hrun) as (bindings & Hb & Hdel & Ha & Hs & Hip & _).
    exists w', bindings.
    assert (Hr : r = NoRows).
    { vm_compute in Hrun. injection Hrun as <- _. reflexivity. }
    rewrite Hr. repeat split; assumption.
  - vm_compute in Hrun. discriminate Hrun.
Defined.

(** C3, on the sample world. *)
Lemma authorize_shared_transaction_witness :
  exists granted w',
    authorize 2 sample_datastore session_1
      [ISimpleAccountBinding; "IUnknown"] ready_world = (Ok granted, w')
    /\ is_Some (granted !! ISimpleAccountBinding)
    /\ ~ is_Some (granted !! "IUnknown").
Proof.
  destruct (authorize_shared_transaction 1 sample_datastore session_1
              [ISimpleAccountBinding; "IUnknown"] ready_world)
    as (_ & Hkeys & _).
  destruct (authorize 2 sample_datastore session_1
              [ISimpleAccountBinding; "IUnknown"] ready_world)
    as [[granted|e] w'] eqn:Hrun.
  - exists granted, w'. split; [reflexivity|]. split.
    + apply (Hkeys _ _ eq_refl). split; [left; reflexivity|].
      exists AccountBindingStorePlugin.
      split; [left; reflexivity|reflexivity].
    + intros Hsome.
      apply (Hkeys _ _ eq_refl) in Hsome as (_ & a & Hin & Ha).
      cbn in Hin. destruct Hin as [<-|[<-|[]]]; discriminate Ha.
  - vm_compute in Hrun. discriminate Hrun.
Defined.

(** * Further properties of the code *)


(** * More on Datastore.sql *)

Lemma sql_healthy_run {A} (callable : Transaction -> M A) w :
  healthy w ->
  let txn := {| txn_id := next_transaction w; _connection := fst (entered w) |} in
  driver (snd (callable txn (snd (entered w)))) = driver w ->
  sql callable w
  = concluded (fst (entered w)) (db w) txn (callable txn (snd (entered w))).
Proof.
  intros (Hc & Hb & Hcm & Hr). cbn zeta. intros Hdrv.
  unfold sql, acquire, Engine.connect, Pool.popleft, entered in *.
  destruct (free_connections w) as [|cxn rest].
  - rewrite Hc. unfold try_finally, in_transaction, begin_transaction, bind,
      Conn.begin, Txn.new, ret, attempt. cbn. rewrite Hb. cbn in *.
    fold (after_begin (next_connection w)
            (set_next_connection (S (next_connection w))
               (set_trace (trace w ++ [EvConnect (next_connection w)]) w))).
    destruct (callable _ _) as [[r|failure] w3]; cbn in *.
    + unfold Conn.commit, Txn.set__stopped, release, Pool.append. cbn.
      rewrite Hdrv, Hcm. reflexivity.
    + unfold Conn.rollback, Txn.set__stopped, release, Pool.append, raise.
      cbn. rewrite Hdrv, Hr. reflexivity.
  - unfold try_finally, in_transaction, begin_transaction, bind,
      Conn.begin, Txn.new, ret, attempt. cbn. rewrite Hb. cbn in *.
    fold (after_begin cxn (set_free_connections rest w)).
    destruct (callable _ _) as [[r|failure] w3]; cbn in *.
    + unfold Conn.commit, Txn.set__stopped, release, Pool.append. cbn.
      rewrite Hdrv, Hcm. reflexivity.
    + unfold Conn.rollback, Txn.set__stopped, release, Pool.append, raise.
      cbn. rewrite Hdrv, Hr. reflexivity.
Qed.


(** X1: Whenever [sql] has obtained a connection, the world it leaves has that
    connection at the right end of [_free_connections], whatever happened in
    between: [begin] failing, the callable raising, the commit or the rollback
    failing (the [finally] clause). *)
Theorem sql_always_releases {A} (callable : Transaction -> M A) w cxn w1 :
  acquire w = (Ok cxn, w1) ->
  exists rest, free_connections (snd (sql callable w)) = rest ++ [cxn].
Proof.
  intros Hacq. unfold sql. rewrite Hacq.
  unfold try_finally, release, Pool.append.
  destruct (in_transaction cxn callable w1) as [r w']. cbn.
  exists (free_connections w'). reflexivity.
Qed.

(** X1, on the sample world. *)
Lemma sql_always_releases_witness :
  exists rest,
    free_connections (snd (sql failing_callable two_free_connections))
    = rest ++ [7%nat].
Proof.
  exact (sql_always_releases failing_callable two_free_connections 7%nat _
           eq_refl).
Defined.

(** X2: With an empty pool and an [engine.connect()] that fails, [sql] does not
    fail with the connection error: the [finally] clause reads the unbound
    local [cxn], so the Deferred fails with [UnboundLocalError], and nothing
    is put into the pool. *)
Theorem sql_connect_failure_is_masked {A} (callable : Transaction -> M A)
    w e :
  free_connections w = [] ->
  connect_fault (driver w) = Some e ->
  sql callable w
  = (Raise (UnboundLocalError "cxn"),
     set_trace (trace w ++ [EvConnect (next_connection w)]) w).
Proof.
  intros Hfree Hfault.
  unfold sql, acquire, Engine.connect, Pool.popleft.
  rewrite Hfree, Hfault. reflexivity.
Qed.

(** X2, on the sample world. *)
Lemma sql_connect_failure_is_masked_witness :
  sql idle_callable (set_driver connect_fails fresh_world)
  = (Raise (UnboundLocalError "cxn"),
     set_trace [EvConnect 0%nat] (set_driver connect_fails fresh_world)).
Proof.
  exact (sql_connect_failure_is_masked idle_callable
           (set_driver connect_fails fresh_world) _ eq_refl eq_refl).
Defined.

(** X3: When the callable returns and the commit then fails, [sql] fails with
    the commit's error; the handle was already marked "committed" (so a
    later [execute] on it raises [TransactionEnded "committed"]), the commit
    was the last call sent to the driver, and the connection is back in the
    pool. *)
Theorem sql_commit_failure {A} (callable : Transaction -> M A)
    w cxn w1 sqla txn w2 r w3 e st :
  acquire w = (Ok cxn, w1) ->
  begin_transaction cxn w1 = (Ok (sqla, txn), w2) ->
  callable txn w2 = (Ok r, w3) ->
  commit_fault (driver w3) = Some e ->
  let w' := snd (sql callable w) in
  fst (sql callable w) = Raise e
  /\ stopped w' !! txn_id txn = Some "committed"
  /\ Txn.execute txn st w' = (Raise (TransactionEnded "committed"), w')
  /\ trace w' = trace w3 ++ [EvCommit cxn]
  /\ free_connections w' = free_connections w3 ++ [cxn].
Proof.
  intros Hacq Hbegin Hcall Hfault.
  rewrite (sql_on_success callable _ _ _ _ _ _ _ _ Hacq Hbegin Hcall).
  destruct (begin_transaction_inv _ _ _ _ _ Hbegin) as (-> & -> & _ & _ & _).
  rewrite Hfault. cbn.
  assert (Hs : <[next_transaction w1:="committed"]> (stopped w3)
               !! next_transaction w1 = Some "committed")
    by apply lookup_insert_eq.
  repeat split; auto.
  apply execute_when_stopped; [exact Hs|discriminate].
Qed.

(** X3, on the sample world. *)
Lemma sql_commit_failure_witness :
  let w := set_driver commit_fails fresh_world in
  fst (sql idle_callable w) = Raise (DriverError "commit failed")
  /\ stopped (snd (sql idle_callable w)) !! 0%nat = Some "committed".
Proof.
  destruct (sql_commit_failure idle_callable
              (set_driver commit_fails fresh_world)
              _ _ _ _ _ _ _ _ (CreateTable T_session)
              eq_refl eq_refl eq_refl eq_refl) as (Hr & Hs & _).
  exact (conj Hr Hs).
Defined.


Lemma entered_driver w : driver (snd (entered w)) = driver w.
Proof. unfold entered. destruct (free_connections w); reflexivity. Qed.

Lemma entered_healthy w : healthy w -> healthy (snd (entered w)).
Proof. unfold healthy. rewrite entered_driver. auto. Qed.

Lemma concluded_driver {A} cxn snapshot txn (o : result A * World) :
  driver (snd (concluded cxn snapshot txn o)) = driver (snd o).
Proof. destruct o as [[r|e] w]; reflexivity. Qed.

Lemma concluded_outcome {A} cxn snapshot txn (o : result A * World) :
  fst (concluded cxn snapshot txn o) = fst o.
Proof. destruct o as [[r|e] w]; reflexivity. Qed.

Lemma concluded_pool {A} cxn snapshot txn (o : result A * World) :
  free_connections (snd (concluded cxn snapshot txn o))
  = free_connections (snd o) ++ [cxn]
  /\ next_connection (snd (concluded cxn snapshot txn o))
     = next_connection (snd o).
Proof. destruct o as [[r|e] w]; split; reflexivity. Qed.

Lemma entered_open w :
  stopped (snd (entered w)) !! next_transaction w = None
  /\ next_transaction (snd (entered w)) = S (next_transaction w).
Proof.
  unfold entered, after_begin.
  destruct (free_connections w); cbn; split; try reflexivity;
    apply lookup_delete_eq.
Qed.

Lemma entered_fst w :
  (free_connections w = [] /\ fst (entered w) = next_connection w)
  \/ (exists rest, free_connections w = fst (entered w) :: rest).
Proof.
  unfold entered. destruct (free_connections w) as [|c rest].
  - left. split; reflexivity.
  - right. exists rest. reflexivity.
Qed.

(** The pool while a transaction begun in a well-formed pool is running: the
    connection in use is not in it. *)
Lemma entered_pool w :
  pool_wf w ->
  pool_wf (snd (entered w))
  /\ ~ In (fst (entered w)) (free_connections (snd (entered w)))
  /\ (fst (entered w) < next_connection (snd (entered w)))%nat
  /\ (forall c, In c (free_connections (snd (entered w))) ->
        In c (free_connections w)).
Proof.
  intros [Hnd Hlt]. unfold entered, after_begin, pool_wf.
  destruct (free_connections w) as [|c rest] eqn:Hfree; cbn.
  - rewrite Hfree. cbn.
    split; [split; [constructor|intros c []]|].
    split; [tauto|]. split; [lia|]. intros c [].
  - inversion Hnd as [|? ? Hnotin Hnd']; subst.
    split; [split; [exact Hnd'|]|].
    { intros x Hx. apply Hlt. right. exact Hx. }
    split; [exact Hnotin|]. split; [apply Hlt; left; reflexivity|].
    intros x Hx. right. exact Hx.
Qed.

(** X4: When the callable given to [sql] calls [sql] again, the inner callable
    runs with two handles, the outer and the inner one, that are different
    [Transaction] objects on different connections, both still open and
    neither connection in the pool.  This holds for every inner callable [f]
    that leaves the pool, the engine and the driver alone, whatever it
    executes and whether it returns or raises: the outcome of the whole is
    the outcome of [f], the inner connection is released first and the outer
    one last, and the pool stays duplicate-free with only connections the
    engine has handed out. *)
Theorem nested_sql_takes_another_connection {A}
    (f : Transaction -> Transaction -> M A) w :
  healthy w ->
  pool_wf w ->
  (forall outer inner, leaves_the_pool_alone (f outer inner)) ->
  exists outer inner w2,
    _connection outer <> _connection inner
    /\ txn_id outer <> txn_id inner
    /\ stopped w2 !! txn_id outer = None
    /\ stopped w2 !! txn_id inner = None
    /\ ~ In (_connection outer) (free_connections w2)
    /\ ~ In (_connection inner) (free_connections w2)
    /\ fst (sql (fun outer => sql (f outer)) w) = fst (f outer inner w2)
    /\ free_connections (snd (sql (fun outer => sql (f outer)) w))
       = free_connections w2 ++ [_connection inner; _connection outer]
    /\ pool_wf (snd (sql (fun outer => sql (f outer)) w)).
Proof.
  intros Hh Hwf Hframe.
  set (wo := snd (entered w)).
  set (outer := {| txn_id := next_transaction w;
                   _connection := fst (entered w) |}).
  set (wi := snd (entered wo)).
  set (inner := {| txn_id := next_transaction wo;
                   _connection := fst (entered wo) |}).
  pose proof (entered_healthy w Hh) as Hho. fold wo in Hho.
  destruct (Hframe outer inner wi) as (Hdrv & Hfree & Hnext).
  assert (Hinner : sql (f outer) wo
                   = concluded (fst (entered wo)) (db wo) inner
                       (f outer inner wi)).
  { apply sql_healthy_run; [exact Hho|]. fold inner wi. rewrite Hdrv.
    apply entered_driver. }
  assert (Houter : sql (fun outer => sql (f outer)) w
                   = concluded (fst (entered w)) (db w) outer
                       (sql (f outer) wo)).
  { apply sql_healthy_run; [exact Hh|]. fold outer wo.
    rewrite Hinner, concluded_driver, Hdrv. unfold wi, wo.
    rewrite !entered_driver. reflexivity. }
  destruct (entered_pool w Hwf) as (Hwfo & Hout_o & Hlt_o & _).
  fold wo in Hwfo, Hout_o, Hlt_o.
  destruct (entered_pool wo Hwfo) as (Hwfi & Hout_i & Hlt_i & Hsub).
  fold wi in Hwfi, Hout_i, Hlt_i, Hsub.
  destruct (entered_open w) as [Hopen_o Hnt_o]. fold wo in Hopen_o, Hnt_o.
  destruct (entered_open wo) as [Hopen_i Hnt_i]. fold wi in Hopen_i, Hnt_i.
  assert (Hnc : (next_connection wo <= next_connection wi)%nat).
  { unfold wi, entered, after_begin.
    destruct (free_connections wo); cbn; lia. }
  assert (Hne : fst (entered w) <> fst (entered wo)).
  { destruct (entered_fst wo) as [[_ Hnew]|[rest Hhead]].
    - rewrite Hnew. lia.
    - intros Heq. apply Hout_o. rewrite Hhead, Heq. left. reflexivity. }
  exists outer, inner, wi. cbn [_connection txn_id outer inner].
  split; [exact Hne|]. split; [lia|]. split.
  { unfold wi, entered, after_begin.
    destruct (free_connections wo); cbn;
      (rewrite lookup_delete_ne by lia); exact Hopen_o. }
  split; [exact Hopen_i|].
  split; [intros Hin; apply Hout_o, Hsub, Hin|].
  split; [exact Hout_i|].
  rewrite Houter, Hinner, !concluded_outcome.
  split; [reflexivity|].
  destruct (concluded_pool (fst (entered w)) (db w) outer
              (concluded (fst (entered wo)) (db wo) inner (f outer inner wi)))
    as [Hp1 Hn1].
  destruct (concluded_pool (fst (entered wo)) (db wo) inner
              (f outer inner wi)) as [Hp2 Hn2].
  rewrite Hp1, Hp2, Hfree, <- app_assoc. cbn [app].
  split; [reflexivity|].
  unfold pool_wf. rewrite Hp1, Hp2, Hn1, Hn2, Hfree, Hnext, <- app_assoc.
  cbn [app]. destruct Hwfi as [Hndi Hlti]. split.
  - apply NoDup_ListNoDup, NoDup_app.
    split; [apply NoDup_ListNoDup, Hndi|]. split.
    + intros x Hx Hin. apply list_elem_of_In in Hx, Hin.
      destruct Hin as [<-|[<-|[]]]; [exact (Hout_i Hx)|].
      apply Hout_o, Hsub, Hx.
    + apply NoDup_ListNoDup. repeat constructor; cbn; [|tauto].
      intros [Heq|[]]. apply Hne. exact Heq.
  - intros x Hx. apply in_app_or in Hx as [Hx|[<-|[<-|[]]]].
    + apply Hlti, Hx.
    + exact Hlt_i.
    + lia.
Qed.


Lemma two_free_connections_healthy : healthy two_free_connections.
Proof. repeat split. Qed.

(** X4, on the sample world. *)
Lemma nested_sql_takes_another_connection_witness :
  exists outer inner w2,
    _connection outer <> _connection inner
    /\ fst (sql nesting_callable two_free_connections) = Ok (outer, inner)
    /\ free_connections (snd (sql nesting_callable two_free_connections))
       = free_connections w2 ++ [_connection inner; _connection outer].
Proof.
  destruct (nested_sql_takes_another_connection
              (fun outer inner => ret (outer, inner)) two_free_connections
              two_free_connections_healthy)
    as (outer & inner & w2 & Hne & _ & _ & _ & _ & _ & Hfst & Hpool & _).
  - split.
    + repeat constructor; cbn; intuition lia.
    + intros c [<-|[<-|[]]]; cbn; lia.
  - intros outer inner w. repeat split.
  - exists outer, inner, w2. split; [exact Hne|].
    split; [exact Hfst|exact Hpool].
Defined.

(** * More on sessions *)

Lemma select_session_unique conf rows row :
  List.NoDup (map s_sessionID rows) ->
  In row rows ->
  List.filter (fun r => String.eqb (s_sessionID r) (s_sessionID row)
                        && Bool.eqb (s_confidential r) conf) rows
  = if Bool.eqb (s_confidential row) conf then [row] else [].
Proof.
  induction rows as [|r rows IH]; [contradiction|].
  cbn [map List.filter]. intros Hnd Hin.
  inversion Hnd as [|? ? Hnotin Hnd']; subst.
  assert (Hnone : forall rs c,
             ~ In (s_sessionID row) (map s_sessionID rs) ->
             List.filter (fun r => String.eqb (s_sessionID r) (s_sessionID row)
                                   && Bool.eqb (s_confidential r) c) rs = []).
  { intros rs c. induction rs as [|r' rs IHrs]; [reflexivity|].
    cbn. intros Hn.
    destruct (String.eqb_spec (s_sessionID r') (s_sessionID row)) as [He|_].
    - exfalso. apply Hn. left. exact He.
    - cbn. apply IHrs. intros H. apply Hn. right. exact H. }
  destruct Hin as [<-|Hin].
  - rewrite String.eqb_refl. cbn [andb].
    rewrite (Hnone rows conf Hnotin).
    destruct (Bool.eqb (s_confidential r) conf); reflexivity.
  - destruct (String.eqb_spec (s_sessionID r) (s_sessionID row)) as [He|_].
    + exfalso. apply Hnotin. rewrite He. apply in_map, Hin.
    + cbn [andb]. apply IH; assumption.
Qed.

(** X5: [loadSession] of a stored identifier succeeds exactly under the
    confidentiality flag the row was stored with: with the stored flag it
    returns the session with the caller's [authenticatedBy], with the
    opposite flag it fails with [NoSuchSession], although the identifier
    exists. *)
Theorem loadSession_checks_confidentiality_only w rows row mechanism :
  healthy w ->
  session_table (db w) = Some rows ->
  List.NoDup (map s_sessionID rows) ->
  In row rows ->
  fst (AlchimiaSessionStore.loadSession (s_sessionID row)
         (s_confidential row) mechanism w)
  = Ok {| identifier := s_sessionID row;
          isConfidential := s_confidential row;
          authenticatedBy := mechanism |}
  /\ fst (AlchimiaSessionStore.loadSession (s_sessionID row)
            (negb (s_confidential row)) mechanism w)
     = Raise NoSuchSession.
Proof.
  intros Hh Hrows Hnd Hin. split.
  - destruct (loadSession_selects w rows (s_sessionID row)
                (s_confidential row) mechanism Hh Hrows) as (w' & -> & _).
    cbn [fst]. rewrite (select_session_unique _ _ _ Hnd Hin).
    rewrite Bool.eqb_reflx. reflexivity.
  - destruct (loadSession_selects w rows (s_sessionID row)
                (negb (s_confidential row)) mechanism Hh Hrows)
      as (w' & -> & _).
    cbn [fst]. rewrite (select_session_unique _ _ _ Hnd Hin).
    destruct (s_confidential row); reflexivity.
Qed.

(** X5, on the sample world. *)
Lemma loadSession_checks_confidentiality_only_witness :
  fst (AlchimiaSessionStore.loadSession "s-1" true "header" ready_world)
  = Ok {| identifier := "s-1"; isConfidential := true;
          authenticatedBy := "header" |}
  /\ fst (AlchimiaSessionStore.loadSession "s-1" false "header" ready_world)
     = Raise NoSuchSession.
Proof.
  apply (loadSession_checks_confidentiality_only ready_world _
           {| s_sessionID := "s-1"; s_confidential := true |} "header"
           ready_world_healthy eq_refl).
  - repeat constructor; cbn; intuition discriminate.
  - left. reflexivity.
Defined.

(** X6: When the identifier drawn by [newSession] is already a primary key of
    the session table, [newSession] does not draw again: it fails with the
    [IntegrityError] of the insert, the database is unchanged and the
    connection is back in the pool. *)
Theorem newSession_collision w rows conf mechanism :
  healthy w ->
  session_table (db w) = Some rows ->
  existsb (fun r => String.eqb (s_sessionID r) (drawn_identifier w)) rows
  = true ->
  exists w',
    AlchimiaSessionStore.newSession conf mechanism w
    = (Raise (IntegrityError "session.sessionID"), w')
    /\ db w' = db w
    /\ exists rest, free_connections w' = rest ++ [fst (entered w)].
Proof.
  intros Hh Hrows Htaken. unfold AlchimiaSessionStore.newSession.
  match goal with |- context [sql ?c] => set (callable := c) end.
  assert (Hopen : stopped (snd (entered w)) !! next_transaction w = None).
  { unfold entered, after_begin. destruct (free_connections w); cbn;
      apply lookup_delete_eq. }
  assert (Hw2 : db (snd (entered w)) = db w
                /\ urandom_source (snd (entered w)) = urandom_source w
                /\ urandom_position (snd (entered w)) = urandom_position w).
  { unfold entered. destruct (free_connections w); cbn; auto. }
  destruct Hw2 as (Hdb & Hus & Hup).
  set (txn := {| txn_id := next_transaction w;
                 _connection := fst (entered w) |}).
  assert (Hcall : exists w3,
             callable txn (snd (entered w))
             = (Raise (IntegrityError "session.sessionID"), w3)
             /\ driver w3 = driver w).
  { unfold callable, bind, urandom. rewrite Hus, Hup.
    fold (drawn_identifier w).
    erewrite execute_open_raises; [| exact Hopen |].
    - eexists. split; [reflexivity|]. cbn. apply entered_driver.
    - cbn [db set_urandom_position]. rewrite Hdb. unfold run_statement.
      rewrite Hrows, Htaken. reflexivity. }
  destruct Hcall as (w3 & Hcall & Hdrv).
  rewrite sql_healthy_run; [|exact Hh|fold txn; rewrite Hcall; exact Hdrv].
  fold txn. rewrite Hcall. cbn.
  eexists. split; [reflexivity|]. cbn. split; [reflexivity|].
  eexists. reflexivity.
Qed.


(** * More on accounts *)

(** A transaction of one statement, in a healthy world. *)
Lemma sql_execute_one st w :
  healthy w ->
  exists w',
    sql (fun engine => Txn.execute engine st) w
    = (match run_statement st (db w) with
       | inl e => Raise e
       | inr (rows, _) => Ok rows
       end, w')
    /\ same_surroundings w w'
    /\ db w' = match run_statement st (db w) with
               | inl _ => db w
               | inr (_, d) => d
               end.
Proof.
  intros Hh.
  destruct (sql_healthy_outcome (fun engine => Txn.execute engine st) w
              (fun o d =>
                 o = match run_statement st (db w) with
                     | inl e => Raise e
                     | inr (rows, _) => Ok rows
                     end
                 /\ d = match run_statement st (db w) with
                        | inl _ => db w
                        | inr (_, d) => d
                        end) Hh)
    as (o & w' & d3 & Hsql & Hsur & (-> & ->) & Hdb).
  - intros txn w2 Hopen Hdb Hsur _ _.
    destruct (run_statement st (db w)) as [e|[rows d]] eqn:Hrun.
    + erewrite execute_open_raises; [|exact Hopen|rewrite Hdb; exact Hrun].
      do 2 eexists. split; [reflexivity|]. split; [exact Hsur|].
      split; [reflexivity|exact Hdb].
    + erewrite execute_open_ok; [|exact Hopen|rewrite Hdb; exact Hrun].
      do 2 eexists. split; [reflexivity|]. split; [exact Hsur|].
      split; reflexivity.
  - exists w'. split; [exact Hsql|]. split; [exact Hsur|].
    rewrite Hdb. destruct (run_statement st (db w)) as [e|[rows d]];
      reflexivity.
Qed.

Lemma has_account_with_password aid blob rows a :
  existsb (fun r => String.eqb (a_accountID r) a) (with_password aid blob rows)
  = existsb (fun r => String.eqb (a_accountID r) a) rows.
Proof.
  unfold with_password. induction rows as [|r rows IH]; [reflexivity|].
  cbn. rewrite IH. destruct (String.eqb (a_accountID r) aid); reflexivity.
Qed.


(** [log_in] up to the binding of the session, when the password verifies:
    the stored text has been replaced if the scheme asked for it, whatever
    happens next. *)
Lemma log_in_verified sec self w rows row password :
  healthy w ->
  account_table (db w) = Some rows ->
  List.NoDup (map a_username rows) ->
  In row rows ->
  verifies sec (a_passwordBlob row) password = true ->
  exists w2,
    healthy w2
    /\ db w2 = match upgrade sec (a_passwordBlob row) password with
               | Some newHash =>
                   set_account_table
                     (Some (with_password (a_accountID row) newHash rows))
                     (db w)
               | None => db w
               end
    /\ AccountSessionBinding.log_in sec self (a_username row) password w
       = (SQLAccount.add_session (account_of row) (_session self) ;;;
          ret (Some (account_of row))) w2.
Proof.
  intros Hh Hrows Hnd Hin Hok.
  destruct (log_in_retrieve (a_username row) w rows Hh Hrows)
    as (w1 & Hret & Hsur1 & Hdb1).
  pose proof (healthy_same_surroundings _ _ Hsur1 Hh) as Hh1.
  unfold AccountSessionBinding.log_in, bind at 1.
  rewrite Hret, (with_username_unique _ _ Hnd Hin).
  cbn zeta. unfold bind at 1, checkAndReset. rewrite Hok.
  destruct (upgrade sec (a_passwordBlob row) password) as [newHash|].
  - destruct (sql_execute_one
                (UpdateAccountPassword (a_accountID row) newHash) w1 Hh1)
      as (w2 & Hupd & Hsur2 & Hdb2).
    unfold run_statement in Hupd, Hdb2. rewrite Hdb1, Hrows in Hupd, Hdb2.
    exists w2. split; [exact (healthy_same_surroundings _ _ Hsur2 Hh1)|].
    split; [exact Hdb2|].
    unfold bind at 1 2 3. rewrite Hupd. reflexivity.
  - exists w1. split; [exact Hh1|]. split; [exact Hdb1|]. reflexivity.
Qed.

Lemma log_in_binds sec self w rows bindings row password :
  healthy w ->
  account_table (db w) = Some rows ->
  List.NoDup (map a_username rows) ->
  In row rows ->
  verifies sec (a_passwordBlob row) password = true ->
  account_session_table (db w) = Some bindings ->
  bound (a_accountID row) (identifier (_session self)) bindings = false ->
  fk_violation (db w) (has_session (db w) (identifier (_session self)))
  = false ->
  exists w',
    AccountSessionBinding.log_in sec self (a_username row) password w
    = (Ok (Some (account_of row)), w')
    /\ account_session_table (db w')
       = Some (bindings ++ [{| as_accountID := a_accountID row;
                               as_sessionID := identifier (_session self) |}])
    /\ account_table (db w')
       = Some (match upgrade sec (a_passwordBlob row) password with
               | Some newHash => with_password (a_accountID row) newHash rows
               | None => rows
               end)
    /\ session_table (db w') = session_table (db w)
    /\ session_ip_table (db w') = session_ip_table (db w).
Proof.
  intros Hh Hrows Hnd Hin Hok Hbind Hfree Hfk.
  destruct (log_in_verified sec self w rows row password Hh Hrows Hnd Hin Hok)
    as (w2 & Hh2 & Hdb2 & ->).
  assert (Hacc : has_account (db w) (a_accountID row) = true).
  { unfold has_account. rewrite Hrows. apply existsb_exists.
    exists row. split; [exact Hin|apply String.eqb_refl]. }
  set (st := InsertAccountSession (a_accountID row)
               (identifier (_session self))).
  destruct (sql_execute_one st w2 Hh2) as (w3 & Hins & _ & Hdb3).
  assert (Hrun : run_statement st (db w2)
                 = inr (NoRows,
                        set_account_session_table
                          (Some (bindings
                                 ++ [{| as_accountID := a_accountID row;
                                        as_sessionID :=
                                          identifier (_session self) |}]))
                          (db w2))).
  { unfold st, run_statement.
    assert (Hb2 : account_session_table (db w2) = Some bindings)
      by (rewrite Hdb2; destruct (upgrade sec _ _); exact Hbind).
    assert (Hfk2 : fk_violation (db w2)
                     (has_account (db w2) (a_accountID row)
                      && has_session (db w2) (identifier (_session self)))
                   = false).
    { unfold fk_violation, has_account, has_session in *. rewrite Hdb2.
      destruct (upgrade sec _ _); cbn; rewrite ?has_account_with_password;
        rewrite Hrows in *; rewrite Hacc; exact Hfk. }
    rewrite Hb2. unfold bound in Hfree. rewrite Hfree, Hfk2. reflexivity. }
  rewrite Hrun in Hins, Hdb3.
  exists w3.
  unfold SQLAccount.add_session, account_of, bind. cbn [accountID].
  fold st. rewrite Hins. split; [reflexivity|].
  rewrite Hdb3, Hdb2. destruct (upgrade sec _ _); cbn; auto.
Qed.

(** X7: [log_in] with the password that verifies against the stored text, on a
    session not yet bound to that account, returns the account of the row
    and adds exactly the row (accountID, sessionID) at the end of
    account_session; the account table changes only by the rehash, when the
    scheme asks for one ([checkAndReset] as modelled for C4); the session and
    session_ip tables are unchanged. *)
Theorem log_in_accepts sec self w rows bindings row password :
  healthy w ->
  account_table (db w) = Some rows ->
  List.NoDup (map a_username rows) ->
  In row rows ->
  verifies sec (a_passwordBlob row) password = true ->
  account_session_table (db w) = Some bindings ->
  bound (a_accountID row) (identifier (_session self)) bindings = false ->
  fk_violation (db w) (has_session (db w) (identifier (_session self)))
  = false ->
  exists w',
    AccountSessionBinding.log_in sec self (a_username row) password w
    = (Ok (Some (account_of row)), w')
    /\ account_session_table (db w')
       = Some (bindings ++ [{| as_accountID := a_accountID row;
                               as_sessionID := identifier (_session self) |}])
    /\ account_table (db w')
       = Some (match upgrade sec (a_passwordBlob row) password with
               | Some newHash => with_password (a_accountID row) newHash rows
               | None => rows
               end)
    /\ session_table (db w') = session_table (db w)
    /\ session_ip_table (db w') = session_ip_table (db w).
Proof. apply log_in_binds. Qed.

(** X9: [log_in] on a session that is already bound to the account does not
    return the account: the second insert violates the unique constraint of
    account_session and [log_in] fails with that [IntegrityError]; the
    bindings are unchanged, but a password rehash done before it stays
    stored, since it ran in a transaction of its own. *)
Theorem log_in_again_raises sec self w rows bindings row password :
  healthy w ->
  account_table (db w) = Some rows ->
  List.NoDup (map a_username rows) ->
  In row rows ->
  verifies sec (a_passwordBlob row) password = true ->
  account_session_table (db w) = Some bindings ->
  bound (a_accountID row) (identifier (_session self)) bindings = true ->
  exists w',
    AccountSessionBinding.log_in sec self (a_username row) password w
    = (Raise (IntegrityError "account_session.accountID, sessionID"), w')
    /\ account_session_table (db w') = Some bindings
    /\ account_table (db w')
       = Some (match upgrade sec (a_passwordBlob row) password with
               | Some newHash => with_password (a_accountID row) newHash rows
               | None => rows
               end).
Proof.
  intros Hh Hrows Hnd Hin Hok Hbind Hbound.
  destruct (log_in_verified sec self w rows row password Hh Hrows Hnd Hin Hok)
    as (w2 & Hh2 & Hdb2 & ->).
  set (st := InsertAccountSession (a_accountID row)
               (identifier (_session self))).
  destruct (sql_execute_one st w2 Hh2) as (w3 & Hins & _ & Hdb3).
  assert (Hrun : run_statement st (db w2)
                 = inl (IntegrityError
                          "account_session.accountID, sessionID")).
  { unfold st, run_statement.
    assert (Hb2 : account_session_table (db w2) = Some bindings)
      by (rewrite Hdb2; destruct (upgrade sec _ _); exact Hbind).
    rewrite Hb2. unfold bound in Hbound. rewrite Hbound. reflexivity. }
  rewrite Hrun in Hins, Hdb3.
  exists w3.
  unfold SQLAccount.add_session, account_of, bind. cbn [accountID].
  fold st. rewrite Hins. split; [reflexivity|].
  rewrite Hdb3, Hdb2. destruct (upgrade sec _ _); cbn; auto.
Qed.


Lemma username_not_taken uname rows :
  username_taken uname rows = false -> ~ In uname (map a_username rows).
Proof.
  unfold username_taken. induction rows as [|r rows IH]; [tauto|].
  cbn. intros H [Heq|Hin]; apply orb_false_iff in H as [Hr Hrest].
  - rewrite Heq, String.eqb_refl in Hr. discriminate.
  - exact (IH Hrest Hin).
Qed.

(** X8: An account made by [create_account] can be logged into at once with the
    same username and password, provided the scheme verifies the texts it
    computes: [log_in] returns the same account (the accountID drawn by
    [uuid4]) and binds it to the session. *)
Theorem create_account_then_log_in sec self self' uname mail password
    w rows bindings :
  healthy w ->
  account_table (db w) = Some rows ->
  List.NoDup (map a_username rows) ->
  username_taken uname rows = false ->
  accountID_taken (drawn_uuid w) rows = false ->
  verifies sec (computeKeyText sec password) password = true ->
  account_session_table (db w) = Some bindings ->
  bound (drawn_uuid w) (identifier (_session self')) bindings = false ->
  fk_violation (db w) (has_session (db w) (identifier (_session self')))
  = false ->
  exists account w1 w2 bindings2,
    AccountSessionBinding.create_account sec self uname mail password w
    = (Ok (Some account), w1)
    /\ AccountSessionBinding.log_in sec self' uname password w1
       = (Ok (Some account), w2)
    /\ accountID account = drawn_uuid w
    /\ account_session_table (db w2) = Some bindings2
    /\ bound (accountID account) (identifier (_session self')) bindings2
       = true.
Proof.
  intros Hh Hrows Hnd Hun Haid Hscheme Hbind Hfree Hfk.
  destruct (create_account_run sec self uname mail password w rows Hh Hrows)
    as (w1 & Hsur1 & Hfirst).
  rewrite Haid, Hun in Hfirst. cbn [orb] in Hfirst.
  destruct Hfirst as [Hfirst Hdb1].
  pose proof (healthy_same_surroundings _ _ Hsur1 Hh) as Hh1.
  set (row := {| a_accountID := drawn_uuid w; a_username := uname;
                 a_email := mail;
                 a_passwordBlob := computeKeyText sec password |}) in *.
  assert (Hrows1 : account_table (db w1) = Some (rows ++ [row]))
    by (rewrite Hdb1; reflexivity).
  assert (Hnd1 : List.NoDup (map a_username (rows ++ [row]))).
  { rewrite map_app. cbn. apply NoDup_ListNoDup, NoDup_app.
    split; [apply NoDup_ListNoDup, Hnd|]. split.
    - intros x Hx Hin. apply list_elem_of_In in Hx, Hin.
      destruct Hin as [<-|[]]. exact (username_not_taken _ _ Hun Hx).
    - apply NoDup_ListNoDup. repeat constructor. intros []. }
  destruct (log_in_binds sec self' w1 (rows ++ [row]) bindings row password
              Hh1 Hrows1 Hnd1) as (w2 & Hlogin & Hb2 & _).
  - apply in_or_app. right. left. reflexivity.
  - exact Hscheme.
  - rewrite Hdb1. exact Hbind.
  - exact Hfree.
  - rewrite Hdb1. exact Hfk.
  - eexists _, w1, w2, _. split; [exact Hfirst|].
    split; [exact Hlogin|]. split; [reflexivity|]. split; [exact Hb2|].
    unfold bound. rewrite existsb_app. cbn. rewrite !String.eqb_refl.
    apply orb_true_iff. right. reflexivity.
Qed.

(** The [retrieve] transaction of [authenticated_accounts]. *)
Lemma authenticated_accounts_run self w asts accs :
  healthy w ->
  account_session_table (db w) = Some asts ->
  account_table (db w) = Some accs ->
  exists w',
    AccountSessionBinding.authenticated_accounts self w
    = (Ok (map (fun it => {| accountID := as_accountID (fst it);
                             username := a_username (snd it);
                             email := a_email (snd it) |})
             (joined (identifier (_session self)) asts accs)), w')
    /\ same_surroundings w w' /\ db w' = db w.
Proof.
  intros Hh Hasts Haccs. unfold AccountSessionBinding.authenticated_accounts.
  match goal with |- context [sql ?c] => set (callable := c) end.
  destruct (sql_healthy_outcome callable w
              (fun o d =>
                 o = Ok (map (fun it => {| accountID := as_accountID (fst it);
                                           username := a_username (snd it);
                                           email := a_email (snd it) |})
                           (joined (identifier (_session self)) asts accs))
                 /\ d = db w) Hh)
    as (o & w' & d3 & Hsql & Hsur & (-> & ->) & Hdb).
  - intros txn w2 Hopen Hdb Hsur _ _. unfold callable, bind.
    erewrite execute_open_ok; [|exact Hopen|].
    2:{ rewrite Hdb. unfold run_statement. rewrite Hasts, Haccs.
        reflexivity. }
    do 2 eexists. split; [reflexivity|]. split; [exact Hsur|].
    split; reflexivity.
  - exists w'. auto.
Qed.

Lemma joined_none sid asts accs :
  (forall b, In b asts -> as_sessionID b <> sid) ->
  joined sid asts accs = [].
Proof.
  unfold joined. induction asts as [|b asts IH]; [reflexivity|].
  intros Hnone. cbn.
  destruct (String.eqb_spec (as_sessionID b) sid) as [Heq|_].
  - exfalso. exact (Hnone b (or_introl eq_refl) Heq).
  - apply IH. intros b' Hin. apply Hnone. right. exact Hin.
Qed.

(** X10: After [log_out], [authenticated_accounts] of the same session is the
    empty list. *)
Theorem log_out_then_no_accounts self w asts accs :
  healthy w ->
  account_session_table (db w) = Some asts ->
  account_table (db w) = Some accs ->
  exists w1 w2,
    AccountSessionBinding.log_out self w = (Ok NoRows, w1)
    /\ AccountSessionBinding.authenticated_accounts self w1 = (Ok [], w2).
Proof.
  intros Hh Hasts Haccs. unfold AccountSessionBinding.log_out.
  destruct (sql_execute_one
              (DeleteAccountSession (identifier (_session self))) w Hh)
    as (w1 & Hout & Hsur1 & Hdb1).
  unfold run_statement in Hout, Hdb1. rewrite Hasts in Hout, Hdb1.
  pose proof (healthy_same_surroundings _ _ Hsur1 Hh) as Hh1.
  destruct (authenticated_accounts_run self w1
              (List.filter
                 (fun r => negb (String.eqb (as_sessionID r)
                                   (identifier (_session self)))) asts)
              accs Hh1) as (w2 & Hacc & _).
  - rewrite Hdb1. reflexivity.
  - rewrite Hdb1. exact Haccs.
  - exists w1, w2. split; [exact Hout|]. rewrite Hacc, joined_none;
      [reflexivity|].
    intros b Hin. apply filter_In in Hin as [_ Hne].
    apply negb_true_iff, String.eqb_neq in Hne. exact Hne.
Qed.


Lemma filter_accountID_unique row rows :
  List.NoDup (map a_accountID rows) ->
  In row rows ->
  List.filter (fun a => String.eqb (a_accountID row) (a_accountID a)) rows
  = [row].
Proof.
  induction rows as [|r rows IH]; [contradiction|].
  cbn [map List.filter]. intros Hnd Hin.
  inversion Hnd as [|? ? Hnotin Hnd']; subst.
  destruct Hin as [<-|Hin].
  - rewrite String.eqb_refl. f_equal.
    clear -Hnotin. induction rows as [|r' rows IH]; [reflexivity|].
    cbn. destruct (String.eqb_spec (a_accountID r) (a_accountID r'))
      as [Heq|_].
    + exfalso. apply Hnotin. left. symmetry. exact Heq.
    + apply IH. intros H. apply Hnotin. right. exact H.
  - destruct (String.eqb_spec (a_accountID row) (a_accountID r)) as [Heq|_].
    + exfalso. apply Hnotin. rewrite <- Heq. apply in_map, Hin.
    + apply IH; assumption.
Qed.

Lemma filter_accountID_with_password aid blob a rows :
  List.filter (fun r => String.eqb a (a_accountID r))
    (with_password aid blob rows)
  = with_password aid blob
      (List.filter (fun r => String.eqb a (a_accountID r)) rows).
Proof.
  unfold with_password. induction rows as [|r rows IH]; [reflexivity|].
  cbn [map List.filter].
  assert (Hid : a_accountID
                  (if String.eqb (a_accountID r) aid
                   then {| a_accountID := a_accountID r;
                           a_username := a_username r;
                           a_email := a_email r;
                           a_passwordBlob := blob |}
                   else r) = a_accountID r)
    by (destruct (String.eqb (a_accountID r) aid); reflexivity).
  rewrite Hid. destruct (String.eqb a (a_accountID r)).
  - cbn [map]. f_equal. exact IH.
  - exact IH.
Qed.

Lemma joined_app sid asts asts' accs :
  joined sid (asts ++ asts') accs = joined sid asts accs ++ joined sid asts' accs.
Proof. unfold joined. apply flat_map_app. Qed.

(** X11: After a successful [log_in] on a session bound to no account,
    [authenticated_accounts] of that session is exactly the account logged
    into (account identifiers being unique in the account table). *)
Theorem log_in_then_authenticated sec self w rows bindings row password :
  healthy w ->
  account_table (db w) = Some rows ->
  List.NoDup (map a_username rows) ->
  List.NoDup (map a_accountID rows) ->
  In row rows ->
  verifies sec (a_passwordBlob row) password = true ->
  account_session_table (db w) = Some bindings ->
  (forall b, In b bindings -> as_sessionID b <> identifier (_session self)) ->
  fk_violation (db w) (has_session (db w) (identifier (_session self)))
  = false ->
  exists w1 w2,
    AccountSessionBinding.log_in sec self (a_username row) password w
    = (Ok (Some (account_of row)), w1)
    /\ AccountSessionBinding.authenticated_accounts self w1
       = (Ok [account_of row], w2).
Proof.
  intros Hh Hrows Hndu Hndi Hin Hok Hbind Hunbound Hfk.
  assert (Hfree : bound (a_accountID row) (identifier (_session self)) bindings
                  = false).
  { unfold bound. apply not_true_is_false. intros Hex.
    apply existsb_exists in Hex as (b & Hb & Hkey).
    apply andb_true_iff in Hkey as [_ Hsid]. apply String.eqb_eq in Hsid.
    exact (Hunbound b Hb Hsid). }
  destruct (log_in_binds sec self w rows bindings row password
              Hh Hrows Hndu Hin Hok Hbind Hfree Hfk)
    as (w1 & Hlogin & Hb1 & Ha1 & _).
  assert (Hh1 : healthy w1).
  { destruct (log_in_verified sec self w rows row password Hh Hrows Hndu Hin
                Hok) as (w2 & Hh2 & _ & Heq).
    rewrite Heq in Hlogin. unfold bind, SQLAccount.add_session in Hlogin.
    destruct (sql_execute_one
                (InsertAccountSession (accountID (account_of row))
                   (identifier (_session self))) w2 Hh2)
      as (w3 & Hins & Hsur3 & _).
    rewrite Hins in Hlogin.
    destruct (run_statement _ (db w2)) as [e|[r d]]; [discriminate|].
    injection Hlogin as <-.
    exact (healthy_same_surroundings _ _ Hsur3 Hh2). }
  destruct (authenticated_accounts_run self w1 _ _ Hh1 Hb1 Ha1)
    as (w2 & Hacc & _).
  exists w1, w2. split; [exact Hlogin|]. rewrite Hacc. f_equal. f_equal.
  rewrite joined_app, (joined_none _ bindings _ Hunbound). cbn [app].
  unfold joined. cbn [flat_map as_sessionID as_accountID].
  rewrite String.eqb_refl, app_nil_r.
  destruct (upgrade sec (a_passwordBlob row) password) as [newHash|].
  - rewrite filter_accountID_with_password,
      (filter_accountID_unique _ _ Hndi Hin).
    cbn. rewrite String.eqb_refl. reflexivity.
  - rewrite (filter_accountID_unique _ _ Hndi Hin). reflexivity.
Qed.


(** * More on authorization *)

Lemma assemble_lookup_last outcomes (res : Authorizations) i :
  assemble outcomes res !! i
  = match last_for i outcomes with
    | Some v => Some v
    | None => res !! i
    end.
Proof.
  revert res. induction outcomes as [|[k v] outcomes IH]; intros res;
    [reflexivity|].
  cbn [assemble fold_left fst snd last_for].
  fold (assemble outcomes (<[k:=v]> res)). rewrite IH.
  destruct (last_for i outcomes); [reflexivity|].
  destruct (String.eqb_spec k i) as [->|Hne].
  - apply lookup_insert_eq.
  - apply lookup_insert_ne, Hne.
Qed.

Lemma first_failure_none_all_ok {A} (l : list (result A)) n :
  first_failure n l = None -> forall v, In v l -> exists a, v = Ok a.
Proof.
  revert n. induction l as [|[a|e] l IH]; intros n Hnone v Hin;
    [contradiction| |discriminate].
  destruct Hin as [<-|Hin]; [eauto|]. exact (IH _ Hnone v Hin).
Qed.

Lemma last_for_in i outcomes v :
  last_for i outcomes = Some v -> In (i, v) outcomes.
Proof.
  induction outcomes as [|[k v'] outcomes IH]; [discriminate|].
  cbn. destruct (last_for i outcomes).
  - intros [= <-]. right. apply IH. reflexivity.
  - destruct (String.eqb_spec k i) as [->|_]; [|discriminate].
    intros [= <-]. left. reflexivity.
Qed.

(** X13: When [authorize] succeeds, every matched authorizer was invoked, in the
    order of the components, and every value of the result is a success
    that an authorizer registered for that very interface has produced:
    never a failure, and never the authorization of another interface. *)
Theorem authorize_values_come_from_providers depth ds self interfaces
    w granted w' :
  authorize (S depth) ds self interfaces w = (Ok granted, w') ->
  exists txn w2 outcomes w3,
    invoke_all (authzn_for_session (authorize depth ds)) txn self
      (matched ds (list_to_set interfaces)) w2 = (Ok outcomes, w3)
    /\ map fst outcomes
       = map authzn_for (matched ds (list_to_set interfaces))
    /\ (forall i v, granted !! i = Some v ->
          exists a, v = Ok a /\ In (i, Ok a) outcomes).
Proof.
  intros Hok. cbn [authorize] in Hok. unfold SQLSession.authorize_with in Hok.
  cbn zeta in Hok.
  apply sql_ok_inv in Hok
    as (cxn & w1 & sqla & txn & w2 & w3 & _ & _ & Hcall & _).
  rewrite authzn_in_one_transaction in Hcall. unfold bind in Hcall.
  destruct (invoke_all_total (authzn_for_session (authorize depth ds)) self txn
              (matched ds (list_to_set interfaces)) w2)
    as (outcomes & w2' & Hinv & Hkeys).
  rewrite Hinv in Hcall. unfold gatherResults in Hcall.
  destruct (first_failure 0 _) as [[e index]|] eqn:Hff; [discriminate|].
  injection Hcall as <- _.
  exists txn, w2, outcomes, w2'. split; [exact Hinv|]. split; [exact Hkeys|].
  intros i v Hv. rewrite assemble_lookup_last, lookup_empty in Hv.
  destruct (last_for i outcomes) as [v'|] eqn:Hlast; [|discriminate].
  injection Hv as ->. apply last_for_in in Hlast.
  assert (Hin : In (after_setitem v)
                  (map (fun p => after_setitem (snd p)) outcomes)).
  { apply in_map_iff. exists (i, v). auto. }
  destruct (first_failure_none_all_ok _ _ Hff _ Hin) as (u & Hu).
  destruct v as [a|e]; [|discriminate].
  exists a. split; [reflexivity|exact Hlast].
Qed.

Lemma first_failure_nth {A} (l : list (result A)) n index e :
  nth_error l index = Some (Raise e) ->
  (forall j, (j < index)%nat -> exists a, nth_error l j = Some (Ok a)) ->
  first_failure n l = Some (e, (n + index)%nat).
Proof.
  revert n index. induction l as [|v l IH]; intros n index Hnth Hbefore.
  - destruct index; discriminate.
  - destruct index as [|index].
    + injection Hnth as ->. cbn. rewrite Nat.add_0_r. reflexivity.
    + destruct (Hbefore 0%nat ltac:(lia)) as (a & Ha). injection Ha as ->.
      cbn. rewrite (IH (S n) index Hnth).
      * f_equal. f_equal. lia.
      * intros j Hj. apply (Hbefore (S j)). lia.
Qed.

(** X12: When exactly one of the matched authorizers fails, the one at position
    [index] among them, [authorize] fails with [FirstError] carrying that
    failure and that position ([gatherResults]); every matched authorizer
    has been invoked, the handle is marked "rolled back", the rollback has
    been issued on the connection and the connection is back in the pool. *)
Theorem authorize_fails_with_first_error depth ds self interfaces
    w cxn w1 sqla txn w2 outcomes w3 index k e :
  acquire w = (Ok cxn, w1) ->
  begin_transaction cxn w1 = (Ok (sqla, txn), w2) ->
  invoke_all (authzn_for_session (authorize depth ds)) txn self
    (matched ds (list_to_set interfaces)) w2 = (Ok outcomes, w3) ->
  nth_error outcomes index = Some (k, Raise e) ->
  (forall j p v, j <> index -> nth_error outcomes j = Some (p, v) ->
     exists a, v = Ok a) ->
  rollback_fault (driver w3) = None ->
  let w' := snd (authorize (S depth) ds self interfaces w) in
  length outcomes = length (matched ds (list_to_set interfaces))
  /\ fst (authorize (S depth) ds self interfaces w)
     = Raise (FirstError e index)
  /\ stopped w' !! txn_id txn = Some "rolled back"
  /\ In (EvRollback cxn) (trace w')
  /\ exists rest, free_connections w' = rest ++ [cxn].
Proof.
  intros Hacq Hbegin Hinv Hnth Hothers Hrb. cbn zeta.
  split.
  { destruct (invoke_all_total (authzn_for_session (authorize depth ds)) self
                txn (matched ds (list_to_set interfaces)) w2)
      as (outcomes' & w3' & Hinv' & Hkeys).
    rewrite Hinv in Hinv'. injection Hinv' as <- <-.
    rewrite <- (length_map fst), Hkeys, length_map. reflexivity. }
  cbn [authorize]. unfold SQLSession.authorize_with. cbn zeta.
  match goal with |- context [sql ?c] => set (callable := c) end.
  assert (Hcall : callable txn w2 = (Raise (FirstError e index), w3)).
  { unfold callable. rewrite authzn_in_one_transaction. unfold bind.
    rewrite Hinv. unfold gatherResults.
    rewrite (first_failure_nth _ 0 index e); [reflexivity| |].
    - rewrite nth_error_map, Hnth. reflexivity.
    - intros j Hj. rewrite nth_error_map.
      destruct (nth_error outcomes j) as [[p v]|] eqn:Hj'.
      + destruct (Hothers j p v ltac:(lia) Hj') as (a & ->).
        exists tt. reflexivity.
      + apply nth_error_None in Hj'.
        assert (index < length outcomes)%nat
          by (apply nth_error_Some; rewrite Hnth; discriminate).
        lia. }
  rewrite (sql_on_failure callable _ _ _ _ _ _ _ _ Hacq Hbegin Hcall).
  rewrite Hrb.
  destruct (begin_transaction_inv _ _ _ _ _ Hbegin) as (-> & -> & _ & _ & _).
  cbn. split; [reflexivity|]. split; [apply lookup_insert_eq|].
  split; [apply in_or_app; right; left; reflexivity|].
  eexists. reflexivity.
Qed.


(** * More on the registry and the schema *)



Lemma create_table_if_missing txn t w :
  stopped w !! txn_id txn = None ->
  exists w',
    except_OperationalError (Txn.execute txn (CreateTable t)) w = (Ok tt, w')
    /\ db w' = created t (db w)
    /\ stopped w' = stopped w
    /\ same_surroundings w w'.
Proof.
  intros Hopen. unfold except_OperationalError, bind, attempt, created.
  destruct (run_statement (CreateTable t) (db w)) as [e|[rows d]] eqn:Hrun.
  - rewrite (execute_open_raises _ _ _ _ Hopen Hrun).
    assert (He : exists detail, e = OperationalError detail).
    { destruct t; cbn in Hrun;
        match type of Hrun with
        | match ?x with _ => _ end = _ => destruct x
        end; inversion Hrun; unfold already_exists; eauto. }
    destruct He as (detail & ->).
    eexists. split; [reflexivity|]. cbn.
    split; [reflexivity|]. split; [reflexivity|exact (same_surroundings_refl w)].
  - rewrite (execute_open_ok _ _ _ _ _ Hopen Hrun).
    eexists. split; [reflexivity|]. cbn.
    split; [reflexivity|]. split; [reflexivity|exact (same_surroundings_refl w)].
Qed.

Lemma create_account_tables txn w :
  stopped w !! txn_id txn = None ->
  exists w',
    except_OperationalError
      (AccountBindingStorePlugin.initialize_schema txn) w = (Ok tt, w')
    /\ db w' = accounts_created (db w)
    /\ stopped w' = stopped w
    /\ same_surroundings w w'.
Proof.
  intros Hopen.
  unfold except_OperationalError, AccountBindingStorePlugin.initialize_schema,
    AccountBindingStorePlugin.create_tables, accounts_created, created,
    bind, attempt.
  destruct (account_table (db w)) as [accs|] eqn:Hacc.
  - erewrite execute_open_raises; [|exact Hopen|].
    2:{ unfold run_statement. rewrite Hacc. reflexivity. }
    eexists. split; [reflexivity|]. cbn.
    split; [reflexivity|]. split; [reflexivity|exact (same_surroundings_refl w)].
  - erewrite execute_open_ok; [|exact Hopen|].
    2:{ unfold run_statement. rewrite Hacc. reflexivity. }
    cbv beta iota.
    destruct (account_session_table (db w)) as [asts|] eqn:Hast.
    + erewrite execute_open_raises; [|exact Hopen|].
      2:{ cbn. rewrite Hast. reflexivity. }
      eexists. split; [reflexivity|]. cbn. rewrite Hacc. cbn. rewrite Hast.
      split; [reflexivity|].
      split; [reflexivity|exact (same_surroundings_refl w)].
    + erewrite execute_open_ok; [|exact Hopen|].
      2:{ cbn. rewrite Hast. reflexivity. }
      eexists. split; [reflexivity|]. cbn. rewrite Hacc. cbn. rewrite Hast.
      split; [reflexivity|].
      split; [reflexivity|exact (same_surroundings_refl w)].
Qed.

Lemma populate_default_run procurer_from_store w :
  healthy w ->
  exists w',
    _populate_schema
      {| _components := default_components procurer_from_store |} w
    = (Ok tt, w')
    /\ same_surroundings w w'
    /\ db w'
       = created T_session_ip (accounts_created (created T_session (db w))).
Proof.
  intros Hh. unfold _populate_schema.
  match goal with |- context [sql ?c] => set (callable := c) end.
  destruct (sql_healthy_outcome callable w
              (fun o d =>
                 o = Ok tt
                 /\ d = created T_session_ip
                          (accounts_created (created T_session (db w)))) Hh)
    as (o & w' & d3 & Hsql & Hsur & (-> & ->) & Hdb).
  - intros txn w2 Hopen Hdb Hsur _ _. unfold callable.
    change (componentsProviding
              {| _components := default_components procurer_from_store |}
              ISQLSchemaComponent)
      with [AlchimiaSessionStore; AccountBindingStorePlugin;
            IPTrackingProcurer (procurer_from_store AlchimiaSessionStore)].
    cbn [populate initialize_schema].
    unfold AlchimiaSessionStore.initialize_schema,
      IPTrackingProcurer.initialize_schema.
    (* the store's own try, then the one of _populate_schema *)
    destruct (create_table_if_missing txn T_session w2 Hopen)
      as (wa & Ha & Hdba & Hsta & Hsura).
    assert (Ha' : except_OperationalError
                    (except_OperationalError
                       (Txn.execute txn (CreateTable T_session))) w2
                  = (Ok tt, wa)).
    { unfold except_OperationalError at 1. unfold bind, attempt.
      rewrite Ha. reflexivity. }
    unfold bind at 1. rewrite Ha'.
    assert (Hopena : stopped wa !! txn_id txn = None)
      by (rewrite Hsta; exact Hopen).
    destruct (create_account_tables txn wa Hopena)
      as (wb & Hb & Hdbb & Hstb & Hsurb).
    unfold bind at 1. rewrite Hb.
    assert (Hopenb : stopped wb !! txn_id txn = None)
      by (rewrite Hstb; exact Hopena).
    destruct (create_table_if_missing txn T_session_ip wb Hopenb)
      as (wc & Hc & Hdbc & Hstc & Hsurc).
    assert (Hc' : except_OperationalError
                    (except_OperationalError
                       (Txn.execute txn (CreateTable T_session_ip))) wb
                  = (Ok tt, wc)).
    { unfold except_OperationalError at 1. unfold bind, attempt.
      rewrite Hc. reflexivity. }
    unfold bind. rewrite Hc'.
    exists (Ok tt), wc. split; [reflexivity|].
    split.
    + eapply same_surroundings_trans; [exact Hsur|].
      eapply same_surroundings_trans; [exact Hsura|].
      eapply same_surroundings_trans; [exact Hsurb|exact Hsurc].
    + split; [reflexivity|]. rewrite Hdbc, Hdbb, Hdba, Hdb. reflexivity.
  - exists w'. auto.
Qed.

Lemma created_spec t d :
  session_table (created t d)
  = match t with
    | T_session => rows_or_empty (session_table d)
    | _ => session_table d
    end
  /\ account_table (created t d)
     = match t with
       | T_account => rows_or_empty (account_table d)
       | _ => account_table d
       end
  /\ account_session_table (created t d)
     = match t with
       | T_account_session => rows_or_empty (account_session_table d)
       | _ => account_session_table d
       end
  /\ session_ip_table (created t d)
     = match t with
       | T_session_ip => rows_or_empty (session_ip_table d)
       | _ => session_ip_table d
       end
  /\ foreign_keys (created t d) = foreign_keys d.
Proof.
  unfold created. destruct t; cbn [run_statement].
  - destruct (session_table d) eqn:H; cbn; rewrite ?H; auto.
  - destruct (account_table d) eqn:H; cbn; rewrite ?H; auto.
  - destruct (account_session_table d) eqn:H; cbn; rewrite ?H; auto.
  - destruct (session_ip_table d) eqn:H; cbn; rewrite ?H; auto.
Qed.

Lemma accounts_created_spec d :
  session_table (accounts_created d) = session_table d
  /\ account_table (accounts_created d) = rows_or_empty (account_table d)
  /\ account_session_table (accounts_created d)
     = match account_table d with
       | Some _ => account_session_table d
       | None => rows_or_empty (account_session_table d)
       end
  /\ session_ip_table (accounts_created d) = session_ip_table d
  /\ foreign_keys (accounts_created d) = foreign_keys d.
Proof.
  unfold accounts_created.
  destruct (account_table d) as [accs|] eqn:Hacc.
  - rewrite Hacc. auto.
  - destruct (created_spec T_account_session (created T_account d))
      as (-> & -> & -> & -> & ->).
    destruct (created_spec T_account d) as (-> & -> & -> & -> & ->).
    rewrite Hacc. auto.
Qed.

Lemma populated_spec d :
  let d' := created T_session_ip (accounts_created (created T_session d)) in
  session_table d' = rows_or_empty (session_table d)
  /\ account_table d' = rows_or_empty (account_table d)
  /\ session_ip_table d' = rows_or_empty (session_ip_table d)
  /\ account_session_table d'
     = match account_table d with
       | Some _ => account_session_table d
       | None => rows_or_empty (account_session_table d)
       end
  /\ foreign_keys d' = foreign_keys d.
Proof.
  cbn zeta.
  destruct (created_spec T_session_ip
              (accounts_created (created T_session d)))
    as (-> & -> & -> & -> & ->).
  destruct (accounts_created_spec (created T_session d))
    as (-> & -> & -> & -> & ->).
  destruct (created_spec T_session d) as (-> & -> & -> & -> & ->).
  auto.
Qed.

(** X16: [_populate_schema] on the default components succeeds on every
    database, whichever tables exist: afterwards session, account and
    session_ip exist, with their old rows when they existed and empty
    otherwise; account_session is created only when account was missing (the
    loop of the account store stops at the first [OperationalError]), and is
    otherwise left as it was, even missing. *)
Theorem populate_schema_creates_missing_tables procurer_from_store w :
  healthy w ->
  exists w',
    _populate_schema
      {| _components := default_components procurer_from_store |} w
    = (Ok tt, w')
    /\ session_table (db w') = rows_or_empty (session_table (db w))
    /\ account_table (db w') = rows_or_empty (account_table (db w))
    /\ session_ip_table (db w') = rows_or_empty (session_ip_table (db w))
    /\ account_session_table (db w')
       = match account_table (db w) with
         | Some _ => account_session_table (db w)
         | None => rows_or_empty (account_session_table (db w))
         end
    /\ foreign_keys (db w') = foreign_keys (db w).
Proof.
  intros Hh.
  destruct (populate_default_run procurer_from_store w Hh)
    as (w' & Hrun & _ & Hdb).
  exists w'. split; [exact Hrun|]. rewrite Hdb. apply populated_spec.
Qed.

Lemma database_ext (d d' : Database) :
  session_table d = session_table d' ->
  account_table d = account_table d' ->
  account_session_table d = account_session_table d' ->
  session_ip_table d = session_ip_table d' ->
  foreign_keys d = foreign_keys d' ->
  d = d'.
Proof. destruct d, d'. cbn. intros -> -> -> -> ->. reflexivity. Qed.

(** X17: Running [_populate_schema] a second time succeeds and changes nothing in
    the database. *)
Theorem populate_schema_twice procurer_from_store w :
  healthy w ->
  exists w1 w2,
    _populate_schema
      {| _components := default_components procurer_from_store |} w
    = (Ok tt, w1)
    /\ _populate_schema
         {| _components := default_components procurer_from_store |} w1
       = (Ok tt, w2)
    /\ db w2 = db w1.
Proof.
  intros Hh.
  destruct (populate_default_run procurer_from_store w Hh)
    as (w1 & Hrun1 & Hsur1 & Hdb1).
  pose proof (healthy_same_surroundings _ _ Hsur1 Hh) as Hh1.
  destruct (populate_default_run procurer_from_store w1 Hh1)
    as (w2 & Hrun2 & _ & Hdb2).
  exists w1, w2. split; [exact Hrun1|]. split; [exact Hrun2|].
  rewrite Hdb2.
  destruct (populated_spec (db w1)) as (Hs & Ha & Hi & Hb & Hf).
  cbn zeta in *.
  destruct (populated_spec (db w)) as (Hs1 & Ha1 & Hi1 & Hb1 & Hf1).
  cbn zeta in *. rewrite <- Hdb1 in Hs1, Ha1, Hi1, Hb1, Hf1.
  apply database_ext; [rewrite Hs, Hs1|rewrite Ha, Ha1|rewrite Hb, Ha1
                      |rewrite Hi, Hi1|exact Hf].
  - destruct (session_table (db w)); reflexivity.
  - destruct (account_table (db w)); reflexivity.
  - destruct (account_table (db w)); reflexivity.
  - destruct (session_ip_table (db w)); reflexivity.
Qed.


(** * More on IP tracking *)

(** The [touch] transaction on a database without the session_ip table. *)
Lemma touch_without_table sid ip w :
  healthy w ->
  session_ip_table (db w) = None ->
  exists w',
    IPTrackingProcurer.touch sid ip w
    = (Raise (no_such_table "session_ip"), w')
    /\ db w' = db w.
Proof.
  intros Hh Hnone. unfold IPTrackingProcurer.touch.
  match goal with |- context [sql ?c] => set (callable := c) end.
  destruct (sql_healthy_outcome callable w
              (fun o d => o = Raise (no_such_table "session_ip")) Hh)
    as (o & w' & d3 & Hsql & _ & -> & Hdb).
  - intros txn w2 Hopen Hdb Hsur _ _.
    unfold callable, bind at 1, utcnow, upsert, bind, attempt.
    erewrite execute_open_raises; [|exact Hopen|].
    2:{ rewrite Hdb. unfold run_statement. rewrite Hnone. reflexivity. }
    do 2 eexists. split; [reflexivity|]. split; [exact Hsur|reflexivity].
  - exists w'. auto.
Qed.

(** X18: When the decorated procurer returns a session, [procureSession] of
    [IPTrackingProcurer] returns that same session, after one [touch]
    transaction that records the session's identifier with the request's
    client address at the current time. *)
Theorem procureSession_decorates (procurer : Procurer) request
    forceInsecure alwaysCreate w s w1 rows :
  procurer request forceInsecure alwaysCreate w = (Ok (Some s), w1) ->
  healthy w1 ->
  session_ip_table (db w1) = Some rows ->
  exists w',
    IPTrackingProcurer.procureSession procurer request forceInsecure
      alwaysCreate w = (Ok (Some s), w')
    /\ db w'
       = set_session_ip_table
           (Some (rows_after_touch (db w1) (identifier s)
                    (client_ip request) (clock w1) rows)) (db w1).
Proof.
  intros Hinner Hh Hrows.
  unfold IPTrackingProcurer.procureSession, bind at 1. rewrite Hinner.
  destruct (touch_run (identifier s) (client_ip request) w1 rows Hh Hrows)
    as (w' & Htouch & _ & Hdb).
  exists w'. unfold bind. rewrite Htouch. split; [reflexivity|exact Hdb].
Qed.

(** X19: When the decorated procurer returns a session and the session_ip table
    does not exist, [procureSession] does not return the session: it fails
    with the [OperationalError] of the tracking insert. *)
Theorem procureSession_fails_when_tracking_fails (procurer : Procurer)
    request forceInsecure alwaysCreate w s w1 :
  procurer request forceInsecure alwaysCreate w = (Ok (Some s), w1) ->
  healthy w1 ->
  session_ip_table (db w1) = None ->
  fst (IPTrackingProcurer.procureSession procurer request forceInsecure
         alwaysCreate w)
  = Raise (OperationalError "no such table: session_ip").
Proof.
  intros Hinner Hh Hnone.
  unfold IPTrackingProcurer.procureSession, bind at 1. rewrite Hinner.
  destruct (touch_without_table (identifier s) (client_ip request) w1 Hh Hnone)
    as (w' & Htouch & _).
  unfold bind. rewrite Htouch. reflexivity.
Qed.

Lemma touch_nothing sid ip fam used rows :
  existsb (same_ip_key sid ip fam) rows = false ->
  map (fun r => if same_ip_key sid ip fam r then touched used r else r) rows
  = rows.
Proof.
  induction rows as [|r rows IH]; [reflexivity|]. cbn.
  intros H. apply orb_false_iff in H as [-> Hrest]. f_equal. exact (IH Hrest).
Qed.

(** X20: Where foreign keys are enforced, [touch] for an identifier that is not
    in the session table succeeds and records nothing: the insert's
    [IntegrityError] is taken for a duplicate key, and the update that
    follows matches no row. *)
Theorem touch_of_unknown_session_records_nothing sid ip w rows :
  healthy w ->
  session_ip_table (db w) = Some rows ->
  foreign_keys (db w) = true ->
  has_session (db w) sid = false ->
  existsb (same_ip_key sid ip (family_of ip)) rows = false ->
  exists w',
    IPTrackingProcurer.touch sid ip w = (Ok NoRows, w')
    /\ session_ip_table (db w') = Some rows.
Proof.
  intros Hh Hrows Hfk Hmissing Hnone.
  destruct (touch_run sid ip w rows Hh Hrows) as (w' & Htouch & _ & Hdb).
  exists w'. split; [exact Htouch|]. rewrite Hdb. cbn.
  unfold rows_after_touch, fk_violation.
  rewrite Hnone, Hfk, Hmissing. cbn [negb andb orb].
  rewrite (touch_nothing _ _ _ _ _ Hnone). reflexivity.
Qed.


(** * The two authorizers of the module *)

(** Settles the test [a.authzn_for in interfaces] on a set given by its
    elements. *)
Ltac decide_requested :=
  match goal with
  | |- context [bool_decide (?i ∈ ?S)] =>
      let H := fresh "Hreq" in
      destruct (bool_decide (i ∈ S)) eqn:H;
      [apply bool_decide_eq_true in H|apply bool_decide_eq_false in H];
      rewrite elem_of_list_to_set, list_elem_of_In in H; cbn in H;
      try (exfalso; first [ destruct H as [H|[]]; discriminate H
                          | apply H; left; reflexivity ])
  end.

(** [authorize([ISimpleAccountBinding])] on the default components. *)
Lemma authorize_binding depth procurer_from_store self w :
  healthy w ->
  exists w',
    authorize (S depth)
      {| _components := default_components procurer_from_store |}
      self [ISimpleAccountBinding] w
    = (Ok (<[ISimpleAccountBinding :=
               Ok (BindingAuthorization {| _session := self |})]> ∅), w')
    /\ same_surroundings w w' /\ db w' = db w.
Proof.
  intros Hh. cbn [authorize]. unfold SQLSession.authorize_with. cbn zeta.
  match goal with |- context [sql ?c] => set (callable := c) end.
  destruct (sql_healthy_outcome callable w
              (fun o d =>
                 o = Ok (<[ISimpleAccountBinding :=
                             Ok (BindingAuthorization {| _session := self |})]>
                           ∅)
                 /\ d = db w) Hh)
    as (o & w' & d3 & Hsql & Hsur & (-> & ->) & Hdb).
  - intros txn w2 Hopen Hdb Hsur _ _. unfold callable, SQLSession.authzn.
    cbn zeta.
    change (componentsProviding
              {| _components := default_components procurer_from_store |}
              ISQLAuthorizer)
      with [AccountBindingStorePlugin; AccountLoginAuthorizer].
    cbn [SQLSession.for_authorizers authzn_for].
    decide_requested. cbn [authzn_for_session].
    unfold AccountBindingStorePlugin.authzn_for_session.
    unfold bind at 1. unfold bind at 1. unfold attempt, ret at 1.
    cbv beta iota. decide_requested.
    exists (Ok (<[ISimpleAccountBinding :=
                    Ok (BindingAuthorization {| _session := self |})]> ∅)), w2.
    split; [reflexivity|]. split; [exact Hsur|]. split; [reflexivity|exact Hdb].
  - exists w'. auto.
Qed.

(** X14: On a datastore with the default components, [authorize([ISimpleAccount])]
    answers, under [ISimpleAccount], the first account joined to the session
    in account_session and account, or [None] when the session is logged in
    to no account; [ISimpleAccountBinding], which the login authorizer
    obtains through a nested [authorize], is not in the result; the database
    is unchanged. *)
Theorem authorize_current_account depth procurer_from_store self w asts accs :
  healthy w ->
  account_session_table (db w) = Some asts ->
  account_table (db w) = Some accs ->
  exists granted w',
    authorize (S (S depth))
      {| _components := default_components procurer_from_store |}
      self [ISimpleAccount] w = (Ok granted, w')
    /\ granted !! ISimpleAccount
       = Some (Ok (current_account (identifier self) asts accs))
    /\ granted !! ISimpleAccountBinding = None
    /\ db w' = db w.
Proof.
  intros Hh Hasts Haccs.
  set (ds := {| _components := default_components procurer_from_store |}).
  set (answer := <[ISimpleAccount :=
                     Ok (current_account (identifier self) asts accs)]>
                   (∅ : Authorizations)).
  change (authorize (S (S depth)) ds self [ISimpleAccount] w)
    with (SQLSession.authorize_with
            (authzn_for_session (authorize (S depth) ds)) ds self
            [ISimpleAccount] w).
  unfold SQLSession.authorize_with. cbn zeta.
  match goal with |- context [sql ?c] => set (callable := c) end.
  destruct (sql_healthy_outcome callable w
              (fun o d => o = Ok answer /\ d = db w) Hh)
    as (o & w' & d3 & Hsql & Hsur & (-> & ->) & Hdb).
  - intros txn w2 Hopen Hdb Hsur _ _.
    pose proof (healthy_same_surroundings _ _ Hsur Hh) as Hh2.
    unfold callable, SQLSession.authzn. cbn zeta.
    change (componentsProviding ds ISQLAuthorizer)
      with [AccountBindingStorePlugin; AccountLoginAuthorizer].
    cbn [SQLSession.for_authorizers authzn_for].
    decide_requested. decide_requested.
    cbn [authzn_for_session].
    unfold AccountLoginAuthorizer.authzn_for_session.
    destruct (authorize_binding depth procurer_from_store self w2 Hh2)
      as (w3 & Hinner & Hsur3 & Hdb3).
    fold ds in Hinner.
    pose proof (healthy_same_surroundings _ _ Hsur3 Hh2) as Hh3.
    destruct (authenticated_accounts_run {| _session := self |} w3 asts accs
                Hh3) as (w4 & Hacc & Hsur4 & Hdb4).
    { rewrite Hdb3, Hdb. exact Hasts. }
    { rewrite Hdb3, Hdb. exact Haccs. }
    unfold bind at 1. unfold bind at 1. unfold attempt. unfold bind at 1.
    rewrite Hinner. rewrite lookup_insert_eq. unfold bind at 1.
    rewrite Hacc. cbn [_session].
    exists (Ok answer), w4. split.
    + unfold answer, current_account, bind, ret, gatherResults. cbn.
      destruct (joined (identifier self) asts accs); reflexivity.
    + split.
      * eapply same_surroundings_trans; [exact Hsur|].
        eapply same_surroundings_trans; [exact Hsur3|exact Hsur4].
      * split; [reflexivity|]. rewrite Hdb4, Hdb3. exact Hdb.
  - exists answer, w'. split; [exact Hsql|]. unfold answer.
    split; [apply lookup_insert_eq|].
    split; [|exact Hdb].
    rewrite lookup_insert_ne by discriminate. apply lookup_empty.
Qed.

(** * The client address *)


(** * The extra properties on the sample worlds *)

Lemma collision_world_healthy : healthy collision_world.
Proof. repeat split. Qed.

Lemma three_sessions_world_healthy : healthy three_sessions_world.
Proof. repeat split. Qed.

Lemma accounts_only_world_healthy : healthy accounts_only_world.
Proof. repeat split. Qed.

Lemma untracked_world_healthy : healthy untracked_world.
Proof. repeat split. Qed.

(** X6, on the sample world. *)
Lemma newSession_collision_witness :
  exists w',
    AlchimiaSessionStore.newSession false "cookie" collision_world
    = (Raise (IntegrityError "session.sessionID"), w')
    /\ db w' = db collision_world.
Proof.
  destruct (newSession_collision collision_world
              [{| s_sessionID := drawn_identifier fresh_world;
                  s_confidential := false |}] false "cookie"
              collision_world_healthy eq_refl)
    as (w' & Hrun & Hdb & _).
  - vm_compute. reflexivity.
  - exists w'. split; assumption.
Defined.

(** X7, on the sample world. *)
Lemma log_in_accepts_witness :
  exists w',
    AccountSessionBinding.log_in upgrading_security
      {| _session := session_3 |} "alice" "secret" three_sessions_world
    = (Ok (Some (account_of alice)), w')
    /\ account_table (db w')
       = Some [{| a_accountID := "a-1"; a_username := "alice";
                  a_email := "alice@example.com";
                  a_passwordBlob := "v2:secret" |}].
Proof.
  destruct (log_in_accepts upgrading_security {| _session := session_3 |}
              three_sessions_world [alice]
              [ {| as_accountID := "a-1"; as_sessionID := "s-1" |};
                {| as_accountID := "a-1"; as_sessionID := "s-2" |} ]
              alice "secret" three_sessions_world_healthy eq_refl)
    as (w' & Hrun & _ & Hacc & _).
  - repeat constructor; cbn; tauto.
  - left. reflexivity.
  - reflexivity.
  - reflexivity.
  - reflexivity.
  - reflexivity.
  - exists w'. split; [exact Hrun|exact Hacc].
Defined.

(** X9, on the sample world. *)
Lemma log_in_again_raises_witness :
  exists w',
    AccountSessionBinding.log_in sample_security binding_1 "alice" "secret"
      ready_world
    = (Raise (IntegrityError "account_session.accountID, sessionID"), w')
    /\ account_session_table (db w') = account_session_table ready_db.
Proof.
  destruct (log_in_again_raises sample_security binding_1 ready_world [alice]
              [ {| as_accountID := "a-1"; as_sessionID := "s-1" |};
                {| as_accountID := "a-1"; as_sessionID := "s-2" |} ]
              alice "secret" ready_world_healthy eq_refl)
    as (w' & Hrun & Hb & _).
  - repeat constructor; cbn; tauto.
  - left. reflexivity.
  - reflexivity.
  - reflexivity.
  - reflexivity.
  - exists w'. split; [exact Hrun|exact Hb].
Defined.

(** X8, on the sample world. *)
Lemma create_account_then_log_in_witness :
  exists account w1 w2,
    AccountSessionBinding.create_account sample_security binding_1
      "bob" "bob@example.com" "hunter2" three_sessions_world
    = (Ok (Some account), w1)
    /\ AccountSessionBinding.log_in sample_security
         {| _session := session_3 |} "bob" "hunter2" w1
       = (Ok (Some account), w2)
    /\ accountID account = drawn_uuid three_sessions_world.
Proof.
  destruct (create_account_then_log_in sample_security binding_1
              {| _session := session_3 |} "bob" "bob@example.com" "hunter2"
              three_sessions_world [alice]
              [ {| as_accountID := "a-1"; as_sessionID := "s-1" |};
                {| as_accountID := "a-1"; as_sessionID := "s-2" |} ]
              three_sessions_world_healthy eq_refl)
    as (account & w1 & w2 & _ & Hc & Hl & Hid & _).
  - repeat constructor; cbn; tauto.
  - reflexivity.
  - reflexivity.
  - reflexivity.
  - reflexivity.
  - reflexivity.
  - reflexivity.
  - exists account, w1, w2. split; [exact Hc|]. split; [exact Hl|exact Hid].
Defined.

(** X10, on the sample world. *)
Lemma log_out_then_no_accounts_witness :
  exists w1 w2,
    AccountSessionBinding.log_out binding_1 ready_world = (Ok NoRows, w1)
    /\ AccountSessionBinding.authenticated_accounts binding_1 w1
       = (Ok [], w2).
Proof.
  exact (log_out_then_no_accounts binding_1 ready_world _ _
           ready_world_healthy eq_refl eq_refl).
Defined.

(** X11, on the sample world. *)
Lemma log_in_then_authenticated_witness :
  exists w1 w2,
    AccountSessionBinding.log_in upgrading_security
      {| _session := session_3 |} "alice" "secret" three_sessions_world
    = (Ok (Some (account_of alice)), w1)
    /\ AccountSessionBinding.authenticated_accounts
         {| _session := session_3 |} w1
       = (Ok [account_of alice], w2).
Proof.
  apply (log_in_then_authenticated upgrading_security
           {| _session := session_3 |} three_sessions_world [alice]
           [ {| as_accountID := "a-1"; as_sessionID := "s-1" |};
             {| as_accountID := "a-1"; as_sessionID := "s-2" |} ]
           alice "secret" three_sessions_world_healthy eq_refl).
  - repeat constructor; cbn; tauto.
  - repeat constructor; cbn; tauto.
  - left. reflexivity.
  - reflexivity.
  - reflexivity.
  - intros b [<-|[<-|[]]]; discriminate.
  - reflexivity.
Defined.

(** X12, on the sample world. *)
Lemma authorize_fails_with_first_error_witness :
  fst (authorize 1 broken_datastore session_1 ["IGreeting"; "IBroken"]
         fresh_world)
  = Raise (FirstError (ApplicationError "no authorization") 1)
  /\ In (EvRollback 0%nat)
       (trace (snd (authorize 1 broken_datastore session_1
                      ["IGreeting"; "IBroken"] fresh_world))).
Proof.
  destruct (invoke_all (authzn_for_session (authorize 0 broken_datastore))
              {| txn_id := 0%nat; _connection := 0%nat |} session_1
              (matched broken_datastore
                 (list_to_set ["IGreeting"; "IBroken"]))
              (snd (entered fresh_world)))
    as [[outcomes|e] w3] eqn:Hrun.
  - assert (Hout : outcomes
                   = [("IGreeting", Ok (OtherAuthorization "first"));
                      ("IBroken", Raise (ApplicationError "no authorization"));
                      ("IGreeting", Ok (OtherAuthorization "second"))]
                   /\ rollback_fault (driver w3) = None).
    { vm_compute in Hrun. injection Hrun as <- <-. split; reflexivity. }
    destruct Hout as [Hout Hdrv].
    destruct (authorize_fails_with_first_error 0 broken_datastore session_1
                ["IGreeting"; "IBroken"] fresh_world _ _ _ _ _
                outcomes w3 1%nat "IBroken"
                (ApplicationError "no authorization")
                eq_refl eq_refl Hrun)
      as (_ & Hfst & _ & Htrace & _).
    + rewrite Hout. reflexivity.
    + rewrite Hout. intros j p v Hj Hnth.
      destruct j as [|[|[|j]]]; cbn in Hnth.
      * injection Hnth as _ <-. eauto.
      * exfalso. apply Hj. reflexivity.
      * injection Hnth as _ <-. eauto.
      * destruct j; discriminate Hnth.
    + exact Hdrv.
    + split; [exact Hfst|exact Htrace].
  - vm_compute in Hrun. discriminate Hrun.
Defined.

(** X13, on the sample world. *)
Lemma authorize_values_come_from_providers_witness :
  exists granted w',
    authorize 1 two_providers session_1 ["IGreeting"] fresh_world
    = (Ok granted, w')
    /\ forall i v, granted !! i = Some v -> exists a, v = Ok a.
Proof.
  destruct (authorize 1 two_providers session_1 ["IGreeting"] fresh_world)
    as [[granted|e] w'] eqn:Hrun.
  - destruct (authorize_values_come_from_providers 0 two_providers session_1
                ["IGreeting"] fresh_world granted w' Hrun)
      as (txn & w2 & outcomes & w3 & _ & _ & Hok).
    exists granted, w'. split; [reflexivity|].
    intros i v Hv. destruct (Hok i v Hv) as (a & Ha & _).
    exists a. exact Ha.
  - vm_compute in Hrun. discriminate Hrun.
Defined.

(** X14, on the sample world. *)
Lemma authorize_current_account_witness :
  exists granted w',
    authorize 2 sample_datastore session_1 [ISimpleAccount] ready_world
    = (Ok granted, w')
    /\ granted !! ISimpleAccount
       = Some (Ok (AccountAuthorization (account_of alice)))
    /\ granted !! ISimpleAccountBinding = None.
Proof.
  destruct (authorize_current_account 0 sample_procurer session_1 ready_world
              _ _ ready_world_healthy eq_refl eq_refl)
    as (granted & w' & Hrun & Hacc & Hbind & _).
  exists granted, w'. split; [exact Hrun|]. split; [exact Hacc|exact Hbind].
Defined.

(** X16, on the sample world. *)
Lemma populate_schema_creates_missing_tables_witness :
  exists w',
    _populate_schema sample_datastore accounts_only_world = (Ok tt, w')
    /\ session_table (db w') = Some []
    /\ account_table (db w') = Some [alice]
    /\ session_ip_table (db w') = Some []
    /\ account_session_table (db w') = None.
Proof.
  destruct (populate_schema_creates_missing_tables sample_procurer
              accounts_only_world accounts_only_world_healthy)
    as (w' & Hrun & Hs & Ha & Hip & Has & _).
  exists w'. split; [exact Hrun|]. split; [exact Hs|]. split; [exact Ha|].
  split; [exact Hip|exact Has].
Defined.

(** X17, on the sample world. *)
Lemma populate_schema_twice_witness :
  exists w1 w2,
    _populate_schema sample_datastore fresh_world = (Ok tt, w1)
    /\ _populate_schema sample_datastore w1 = (Ok tt, w2)
    /\ db w2 = db w1.
Proof.
  exact (populate_schema_twice sample_procurer fresh_world
           fresh_world_healthy).
Defined.

Lemma loading_procurer_run :
  exists w1,
    loading_procurer (request_from "10.0.0.7") false true ready_world
    = (Ok (Some session_1), w1)
    /\ healthy w1 /\ db w1 = ready_db.
Proof.
  destruct (loading_procurer (request_from "10.0.0.7") false true ready_world)
    as [[s|e] w1] eqn:Hrun; vm_compute in Hrun.
  - injection Hrun as <- <-. eexists. split; [reflexivity|].
    split; [repeat split|reflexivity].
  - discriminate Hrun.
Qed.

Lemma loading_procurer_untracked :
  exists w1,
    loading_procurer (request_from "10.0.0.7") false true untracked_world
    = (Ok (Some session_1), w1)
    /\ healthy w1 /\ db w1 = untracked_db.
Proof.
  destruct (loading_procurer (request_from "10.0.0.7") false true
              untracked_world) as [[s|e] w1] eqn:Hrun; vm_compute in Hrun.
  - injection Hrun as <- <-. eexists. split; [reflexivity|].
    split; [repeat split|reflexivity].
  - discriminate Hrun.
Qed.

(** X18, on the sample world. *)
Lemma procureSession_decorates_witness :
  exists w',
    IPTrackingProcurer.procureSession loading_procurer
      (request_from "10.0.0.7") false true ready_world
    = (Ok (Some session_1), w')
    /\ session_ip_table (db w')
       = Some [{| ip_sessionID := "s-1"; ip_ip_address := "10.0.0.7";
                  ip_address_family := "AF_INET"; ip_last_used := 1000 |}].
Proof.
  destruct loading_procurer_run as (w1 & Hinner & Hh & Hdb).
  destruct (procureSession_decorates loading_procurer
              (request_from "10.0.0.7") false true ready_world session_1 w1
              [] Hinner Hh) as (w' & Hrun & Hdb').
  - rewrite Hdb. reflexivity.
  - exists w'. split; [exact Hrun|]. rewrite Hdb', Hdb.
    assert (Hclock : clock w1 = 1000%Z).
    { vm_compute in Hinner. injection Hinner as <-. reflexivity. }
    rewrite Hclock. reflexivity.
Defined.

(** X19, on the sample world. *)
Lemma procureSession_fails_when_tracking_fails_witness :
  fst (IPTrackingProcurer.procureSession loading_procurer
         (request_from "10.0.0.7") false true untracked_world)
  = Raise (OperationalError "no such table: session_ip").
Proof.
  destruct loading_procurer_untracked as (w1 & Hinner & Hh & Hdb).
  apply (procureSession_fails_when_tracking_fails loading_procurer
           (request_from "10.0.0.7") false true untracked_world session_1 w1
           Hinner Hh).
  rewrite Hdb. reflexivity.
Defined.

(** X20, on the sample world. *)
Lemma touch_of_unknown_session_records_nothing_witness :
  exists w',
    IPTrackingProcurer.touch "s-9" "10.0.0.7" ready_world = (Ok NoRows, w')
    /\ session_ip_table (db w') = Some [].
Proof.
  exact (touch_of_unknown_session_records_nothing "s-9" "10.0.0.7"
           ready_world [] ready_world_healthy eq_refl eq_refl eq_refl
           eq_refl).
Defined.

